(** * IRTransceiver: the [wio] waveform I/O program of PYNQ_IR_Communication

    A shallow embedding of the MicroBlaze C program contained in
    [PYNQ_IR_Communication.ipynb] (the [%%microblaze base.PMODA] cell), and
    theorems about its transmit deadline logic, its receive ring and the
    allocation of instances; and of the Python cell of the notebook that
    demodulates the measured carrier periods.

    Conventions of the embedding:
    - [unsigned int] is a [Z] in [[0, 2^32)]; every operation that can leave
      that range is followed by [u32], the reduction modulo [2^32]; a value
      returned as [int] goes through [s32];
    - a buffer pointer is the identifier of a memory block, and the memory
      maps block identifiers to the words of the block; an access outside
      a block, a division by zero and an instance index outside the table
      are undefined behaviour in C, and make the embedded function return
      [None];
    - the hardware counter and the input pin are read once per loop
      iteration; their values are parameters of the iteration;
    - [yield()] is the point where other calls may run: one pass through the
      [while] loop of [wio_enable] is one atomic step. *)

From Stdlib Require Import ZArith Lia Bool List.
From Stdlib Require Import Floats.PrimFloat.
From stdpp Require Import base option list gmap.

Local Open Scope Z_scope.

(** ** Machine integers *)

Definition wrap32 : Z := 2 ^ 32.

(** Conversion to [unsigned int]. *)
Definition u32 (z : Z) : Z := z mod wrap32.

(** Conversion to [int] (two's complement). *)
Definition s32 (z : Z) : Z := (z + 2 ^ 31) mod wrap32 - 2 ^ 31.

(** ** Memory: blocks of 32-bit words *)

Abbreviation memory := (gmap Z (list Z)).

(** [p[i]] as an rvalue. *)
Definition load (m : memory) (p i : Z) : option Z :=
  match m !! p with
  | Some l => if 0 <=? i then l !! Z.to_nat i else None
  | None => None
  end.

(** [p[i] = v]. *)
Definition store (m : memory) (p i v : Z) : option memory :=
  match m !! p with
  | Some l =>
      if (0 <=? i) && (i <? Z.of_nat (length l))
      then Some (<[p := <[Z.to_nat i := v]> l]> m)
      else None
  | None => None
  end.

(** ** GPIO pins

    [gpio_open] returns a handle for a pin index; the handle is modelled by
    the index itself. The state keeps the direction of every configured pin
    and the last level written to every output. *)

Inductive gpio_direction := GPIO_OUT | GPIO_IN.

Record gpio_state := {
  gpio_dir : gmap Z gpio_direction;
  gpio_level : gmap Z Z
}.

Definition gpio_open (pin : Z) : Z := pin.

Definition gpio_set_direction (g : Z) (d : gpio_direction) (gs : gpio_state)
  : gpio_state :=
  {| gpio_dir := <[g := d]> (gpio_dir gs); gpio_level := gpio_level gs |}.

Definition gpio_write (g : Z) (val : Z) (gs : gpio_state) : gpio_state :=
  {| gpio_dir := gpio_dir gs; gpio_level := <[g := val]> (gpio_level gs) |}.

(** ** Instance variables: [wio_inst_type] *)

Definition WIO_INST_COUNT : Z := 8.

Record wio_inst_type := {
  tx_buffer : Z;
  tx_buffer_cur : Z;
  tx_buffer_len : Z;
  tx_target_time : Z;
  tx_await_wrap : Z;
  tx_pin : Z;
  rx_buffer : Z;
  rx_buffer_cur : Z;
  rx_buffer_len : Z;
  rx_last_time : Z;
  rx_pin : Z;
  main_loop_running : Z
}.

(** A zero-initialised slot of the static table. *)
Definition wio_inst_zero : wio_inst_type :=
  {| tx_buffer := 0; tx_buffer_cur := 0; tx_buffer_len := 0;
     tx_target_time := 0; tx_await_wrap := 0; tx_pin := 0;
     rx_buffer := 0; rx_buffer_cur := 0; rx_buffer_len := 0;
     rx_last_time := 0; rx_pin := 0; main_loop_running := 0 |}.

Definition set_tx_buffer (v : Z) (s : wio_inst_type) : wio_inst_type :=
  {| tx_buffer := v; tx_buffer_cur := tx_buffer_cur s;
     tx_buffer_len := tx_buffer_len s; tx_target_time := tx_target_time s;
     tx_await_wrap := tx_await_wrap s; tx_pin := tx_pin s;
     rx_buffer := rx_buffer s; rx_buffer_cur := rx_buffer_cur s;
     rx_buffer_len := rx_buffer_len s; rx_last_time := rx_last_time s;
     rx_pin := rx_pin s; main_loop_running := main_loop_running s |}.

Definition set_tx_buffer_cur (v : Z) (s : wio_inst_type) : wio_inst_type :=
  {| tx_buffer := tx_buffer s; tx_buffer_cur := v;
     tx_buffer_len := tx_buffer_len s; tx_target_time := tx_target_time s;
     tx_await_wrap := tx_await_wrap s; tx_pin := tx_pin s;
     rx_buffer := rx_buffer s; rx_buffer_cur := rx_buffer_cur s;
     rx_buffer_len := rx_buffer_len s; rx_last_time := rx_last_time s;
     rx_pin := rx_pin s; main_loop_running := main_loop_running s |}.

Definition set_tx_buffer_len (v : Z) (s : wio_inst_type) : wio_inst_type :=
  {| tx_buffer := tx_buffer s; tx_buffer_cur := tx_buffer_cur s;
     tx_buffer_len := v; tx_target_time := tx_target_time s;
     tx_await_wrap := tx_await_wrap s; tx_pin := tx_pin s;
     rx_buffer := rx_buffer s; rx_buffer_cur := rx_buffer_cur s;
     rx_buffer_len := rx_buffer_len s; rx_last_time := rx_last_time s;
     rx_pin := rx_pin s; main_loop_running := main_loop_running s |}.

Definition set_tx_target_time (v : Z) (s : wio_inst_type) : wio_inst_type :=
  {| tx_buffer := tx_buffer s; tx_buffer_cur := tx_buffer_cur s;
     tx_buffer_len := tx_buffer_len s; tx_target_time := v;
     tx_await_wrap := tx_await_wrap s; tx_pin := tx_pin s;
     rx_buffer := rx_buffer s; rx_buffer_cur := rx_buffer_cur s;
     rx_buffer_len := rx_buffer_len s; rx_last_time := rx_last_time s;
     rx_pin := rx_pin s; main_loop_running := main_loop_running s |}.

Definition set_tx_await_wrap (v : Z) (s : wio_inst_type) : wio_inst_type :=
  {| tx_buffer := tx_buffer s; tx_buffer_cur := tx_buffer_cur s;
     tx_buffer_len := tx_buffer_len s; tx_target_time := tx_target_time s;
     tx_await_wrap := v; tx_pin := tx_pin s;
     rx_buffer := rx_buffer s; rx_buffer_cur := rx_buffer_cur s;
     rx_buffer_len := rx_buffer_len s; rx_last_time := rx_last_time s;
     rx_pin := rx_pin s; main_loop_running := main_loop_running s |}.

Definition set_tx_pin (v : Z) (s : wio_inst_type) : wio_inst_type :=
  {| tx_buffer := tx_buffer s; tx_buffer_cur := tx_buffer_cur s;
     tx_buffer_len := tx_buffer_len s; tx_target_time := tx_target_time s;
     tx_await_wrap := tx_await_wrap s; tx_pin := v;
     rx_buffer := rx_buffer s; rx_buffer_cur := rx_buffer_cur s;
     rx_buffer_len := rx_buffer_len s; rx_last_time := rx_last_time s;
     rx_pin := rx_pin s; main_loop_running := main_loop_running s |}.

Definition set_rx_buffer (v : Z) (s : wio_inst_type) : wio_inst_type :=
  {| tx_buffer := tx_buffer s; tx_buffer_cur := tx_buffer_cur s;
     tx_buffer_len := tx_buffer_len s; tx_target_time := tx_target_time s;
     tx_await_wrap := tx_await_wrap s; tx_pin := tx_pin s;
     rx_buffer := v; rx_buffer_cur := rx_buffer_cur s;
     rx_buffer_len := rx_buffer_len s; rx_last_time := rx_last_time s;
     rx_pin := rx_pin s; main_loop_running := main_loop_running s |}.

Definition set_rx_buffer_cur (v : Z) (s : wio_inst_type) : wio_inst_type :=
  {| tx_buffer := tx_buffer s; tx_buffer_cur := tx_buffer_cur s;
     tx_buffer_len := tx_buffer_len s; tx_target_time := tx_target_time s;
     tx_await_wrap := tx_await_wrap s; tx_pin := tx_pin s;
     rx_buffer := rx_buffer s; rx_buffer_cur := v;
     rx_buffer_len := rx_buffer_len s; rx_last_time := rx_last_time s;
     rx_pin := rx_pin s; main_loop_running := main_loop_running s |}.

Definition set_rx_buffer_len (v : Z) (s : wio_inst_type) : wio_inst_type :=
  {| tx_buffer := tx_buffer s; tx_buffer_cur := tx_buffer_cur s;
     tx_buffer_len := tx_buffer_len s; tx_target_time := tx_target_time s;
     tx_await_wrap := tx_await_wrap s; tx_pin := tx_pin s;
     rx_buffer := rx_buffer s; rx_buffer_cur := rx_buffer_cur s;
     rx_buffer_len := v; rx_last_time := rx_last_time s;
     rx_pin := rx_pin s; main_loop_running := main_loop_running s |}.

Definition set_rx_last_time (v : Z) (s : wio_inst_type) : wio_inst_type :=
  {| tx_buffer := tx_buffer s; tx_buffer_cur := tx_buffer_cur s;
     tx_buffer_len := tx_buffer_len s; tx_target_time := tx_target_time s;
     tx_await_wrap := tx_await_wrap s; tx_pin := tx_pin s;
     rx_buffer := rx_buffer s; rx_buffer_cur := rx_buffer_cur s;
     rx_buffer_len := rx_buffer_len s; rx_last_time := v;
     rx_pin := rx_pin s; main_loop_running := main_loop_running s |}.

Definition set_rx_pin (v : Z) (s : wio_inst_type) : wio_inst_type :=
  {| tx_buffer := tx_buffer s; tx_buffer_cur := tx_buffer_cur s;
     tx_buffer_len := tx_buffer_len s; tx_target_time := tx_target_time s;
     tx_await_wrap := tx_await_wrap s; tx_pin := tx_pin s;
     rx_buffer := rx_buffer s; rx_buffer_cur := rx_buffer_cur s;
     rx_buffer_len := rx_buffer_len s; rx_last_time := rx_last_time s;
     rx_pin := v; main_loop_running := main_loop_running s |}.

Definition set_main_loop_running (v : Z) (s : wio_inst_type) : wio_inst_type :=
  {| tx_buffer := tx_buffer s; tx_buffer_cur := tx_buffer_cur s;
     tx_buffer_len := tx_buffer_len s; tx_target_time := tx_target_time s;
     tx_await_wrap := tx_await_wrap s; tx_pin := tx_pin s;
     rx_buffer := rx_buffer s; rx_buffer_cur := rx_buffer_cur s;
     rx_buffer_len := rx_buffer_len s; rx_last_time := rx_last_time s;
     rx_pin := rx_pin s; main_loop_running := v |}.

(** ** The body of the loop of [wio_enable]

    [current_time] is the value read from the counter register and
    [current_rx] the value returned by [gpio_read] in this iteration. *)

(** "handle transmissions" *)
Definition handle_tx (current_time : Z) (self : wio_inst_type) (m : memory)
    (gs : gpio_state) : option (wio_inst_type * gpio_state) :=
  if tx_buffer_cur self =? tx_buffer_len self then Some (self, gs)
  else
    (* output first rising transition immediately *)
    let self :=
      if tx_buffer_cur self =? 0
      then set_tx_await_wrap 0 (set_tx_target_time current_time self)
      else self in
    (* clear await_wrap if current_time has wrapped *)
    let self :=
      if current_time <? tx_await_wrap self
      then set_tx_await_wrap 0 self
      else self in
    if (tx_await_wrap self =? 0) && (tx_target_time self <=? current_time)
    then
      (* generate transition *)
      let gs :=
        gpio_write (tx_pin self)
          (Z.land (u32 (Z.lnot (tx_buffer_cur self))) 1) gs in
      (* set target_time for next transition *)
      let self := set_tx_await_wrap (tx_target_time self) self in
      match load m (tx_buffer self) (tx_buffer_cur self) with
      | None => None
      | Some interval =>
          let self := set_tx_buffer_cur (u32 (tx_buffer_cur self + 1)) self in
          let self :=
            set_tx_target_time (u32 (tx_target_time self + interval)) self in
          let self :=
            if tx_await_wrap self <=? tx_target_time self
            then set_tx_await_wrap 0 self
            else self in
          Some (self, gs)
      end
    else Some (self, gs).

(** The test of "handle reception": [(rx_buffer_cur & 0x1) ^ current_rx],
    the [int] operand being converted to [unsigned int]. *)
Definition rx_edge (current_rx : Z) (self : wio_inst_type) : bool :=
  negb (Z.lxor (Z.land (rx_buffer_cur self) 1) (u32 current_rx) =? 0).

(** "handle reception" *)
Definition handle_rx (current_time current_rx : Z) (self : wio_inst_type)
    (m : memory) : option (wio_inst_type * memory) :=
  if rx_edge current_rx self then
    match store m (rx_buffer self) (rx_buffer_cur self)
            (u32 (current_time - rx_last_time self)) with
    | None => None
    | Some m' =>
        if rx_buffer_len self =? 0 then None
        else
          let self :=
            set_rx_buffer_cur
              (u32 (rx_buffer_cur self + 1) mod rx_buffer_len self) self in
          let self := set_rx_last_time current_time self in
          Some (self, m')
    end
  else Some (self, m).

(** One execution of the loop body, up to [yield()]. *)
Definition wio_loop_body (current_time current_rx : Z) (self : wio_inst_type)
    (m : memory) (gs : gpio_state)
  : option (wio_inst_type * memory * gpio_state) :=
  match handle_tx current_time self m gs with
  | None => None
  | Some (self, gs) =>
      match handle_rx current_time current_rx self m with
      | None => None
      | Some (self, m) => Some (self, m, gs)
      end
  end.

(** ** The global state of the program

    [wio_inst] is the static table of [WIO_INST_COUNT] slots and
    [wio_inst_count] the allocation counter. [xtimer_starts] counts how often
    the start-up sequence of the shared timer ([XTmrCtr_Initialize],
    [XTmrCtr_SetLoadReg], [XTmrCtr_SetControlStatusReg]) has been executed. *)

Record state := {
  wio_inst : list wio_inst_type;
  wio_inst_count : Z;
  xtimer_starts : nat;
  mem : memory;
  gpio : gpio_state
}.

(** The state at program start: static storage is zero-initialised; [m] is
    the memory that holds the buffers of the caller. *)
Definition initial_state (m : memory) : state :=
  {| wio_inst := replicate (Z.to_nat WIO_INST_COUNT) wio_inst_zero;
     wio_inst_count := 0;
     xtimer_starts := 0;
     mem := m;
     gpio := {| gpio_dir := ∅; gpio_level := ∅ |} |}.

(** [wio_inst[i]], undefined outside the table. *)
Definition get_inst (st : state) (i : Z) : option wio_inst_type :=
  if 0 <=? i then wio_inst st !! Z.to_nat i else None.

(** [wio_inst[i] = v]. *)
Definition set_inst (i : Z) (v : wio_inst_type) (st : state) : state :=
  {| wio_inst := <[Z.to_nat i := v]> (wio_inst st);
     wio_inst_count := wio_inst_count st;
     xtimer_starts := xtimer_starts st;
     mem := mem st;
     gpio := gpio st |}.

(** Field updates [wio_inst[i].f = v; ...] *)
Definition update_inst (f : wio_inst_type -> wio_inst_type) (i : Z)
    (st : state) : option state :=
  match get_inst st i with
  | Some slot => Some (set_inst i (f slot) st)
  | None => None
  end.

(** ** wio constructor *)

Definition wio_new (tx_pin_idx tx_buf rx_pin_idx rx_buf rx_len : Z)
    (st : state) : option (Z * state) :=
  let self := s32 (wio_inst_count st) in
  let count' := u32 (wio_inst_count st + 1) mod WIO_INST_COUNT in
  (* First instance initializes shared infrastructure. *)
  let starts' :=
    if self =? 0 then S (xtimer_starts st) else xtimer_starts st in
  match get_inst st self with
  | None => None
  | Some slot =>
      let slot := set_tx_buffer tx_buf slot in
      let slot := set_rx_buffer rx_buf slot in
      let slot := set_tx_buffer_len 0 slot in
      let slot := set_rx_buffer_len (u32 rx_len) slot in
      let slot := set_tx_buffer_cur 0 slot in
      let slot := set_rx_buffer_cur 0 slot in
      let slot := set_tx_pin (gpio_open (u32 tx_pin_idx)) slot in
      let slot := set_rx_pin (gpio_open (u32 rx_pin_idx)) slot in
      let slot := set_main_loop_running 0 slot in
      let gs := gpio_set_direction (tx_pin slot) GPIO_OUT (gpio st) in
      let gs := gpio_set_direction (rx_pin slot) GPIO_IN gs in
      Some (self,
            {| wio_inst := <[Z.to_nat self := slot]> (wio_inst st);
               wio_inst_count := count';
               xtimer_starts := starts';
               mem := mem st;
               gpio := gs |})
  end.

(** ** wio.enable()

    One pass through [while (self->main_loop_running) { ...; yield(); }].
    When the flag is clear the loop is left and nothing changes. *)
Definition wio_loop_iter (self_id current_time current_rx : Z) (st : state)
  : option state :=
  match get_inst st self_id with
  | None => None
  | Some self =>
      if main_loop_running self =? 0 then Some st
      else
        match wio_loop_body current_time current_rx self (mem st) (gpio st) with
        | None => None
        | Some (self', m', gs') =>
            Some {| wio_inst := <[Z.to_nat self_id := self']> (wio_inst st);
                    wio_inst_count := wio_inst_count st;
                    xtimer_starts := xtimer_starts st;
                    mem := m';
                    gpio := gs' |}
        end
  end.

(** The loop running on the successive readings [inputs] of the counter and
    of the input pin, with no other call served in between. *)
Fixpoint wio_enable_loop (inputs : list (Z * Z)) (self_id : Z) (st : state)
  : option state :=
  match inputs with
  | [] => Some st
  | (current_time, current_rx) :: rest =>
      match wio_loop_iter self_id current_time current_rx st with
      | None => None
      | Some st' => wio_enable_loop rest self_id st'
      end
  end.

(** [wio_enable]: returns at once when the loop of the instance is already
    running, otherwise sets the flag and enters the loop. *)
Definition wio_enable (inputs : list (Z * Z)) (self_id : Z) (st : state)
  : option state :=
  match get_inst st self_id with
  | None => None
  | Some self =>
      if negb (main_loop_running self =? 0) then Some st
      else
        wio_enable_loop inputs self_id
          (set_inst self_id (set_main_loop_running 1 self) st)
  end.

(** ** wio.disable(), wio.enabled() *)

Definition wio_disable (self_id : Z) (st : state) : option state :=
  update_inst (set_main_loop_running 0) self_id st.

Definition wio_enabled (self_id : Z) (st : state) : option Z :=
  (fun slot => s32 (main_loop_running slot)) <$> get_inst st self_id.

(** ** wio.tx_start(), wio.tx_cursor() *)

Definition wio_tx_start (self_id tx_len : Z) (st : state) : option state :=
  update_inst
    (fun slot => set_tx_buffer_cur 0 (set_tx_buffer_len (u32 tx_len) slot))
    self_id st.

Definition wio_tx_cursor (self_id : Z) (st : state) : option Z :=
  (fun slot => s32 (tx_buffer_cur slot)) <$> get_inst st self_id.

(** ** wio.rx_cursor(), wio.rx_reset() *)

Definition wio_rx_cursor (self_id : Z) (st : state) : option Z :=
  (fun slot => s32 (rx_buffer_cur slot)) <$> get_inst st self_id.

Definition wio_rx_reset (self_id : Z) (st : state) : option state :=
  update_inst (set_rx_buffer_cur 0) self_id st.

(** ** Interleavings

    Calls arrive while a loop is suspended in [yield()]; an execution of the
    program is a sequence of atomic steps. [EvEnable] is the entry of
    [wio_enable] up to the first test of the loop condition, [EvIter] one
    pass through the loop. *)

Inductive event :=
| EvNew (tx_pin_idx tx_buf rx_pin_idx rx_buf rx_len : Z)
| EvEnable (self_id : Z)
| EvIter (self_id current_time current_rx : Z)
| EvDisable (self_id : Z)
| EvTxStart (self_id tx_len : Z)
| EvRxReset (self_id : Z).

(** The effect of one step. *)
Definition step (ev : event) (st : state) : option state :=
  match ev with
  | EvNew tp tb rp rb rl => snd <$> wio_new tp tb rp rb rl st
  | EvEnable i => wio_enable [] i st
  | EvIter i t rx => wio_loop_iter i t rx st
  | EvDisable i => wio_disable i st
  | EvTxStart i n => wio_tx_start i n st
  | EvRxReset i => wio_rx_reset i st
  end.

(** The effect of a sequence of steps. *)
Fixpoint run (evs : list event) (st : state) : option state :=
  match evs with
  | [] => Some st
  | ev :: rest =>
      match step ev st with
      | None => None
      | Some st' => run rest st'
      end
  end.

(** Successive calls of the constructor; the handles are returned in the
    order of the calls. *)
Fixpoint wio_new_all (args : list (Z * Z * Z * Z * Z)) (st : state)
  : option (list Z * state) :=
  match args with
  | [] => Some ([], st)
  | (tp, tb, rp, rb, rl) :: rest =>
      match wio_new tp tb rp rb rl st with
      | None => None
      | Some (h, st') =>
          match wio_new_all rest st' with
          | None => None
          | Some (hs, st'') => Some (h :: hs, st'')
          end
      end
  end.

(** ** Loop-back

    A wire from the transmit pin of an instance to its receive pin, as the
    notebook proposes for the self-test: [gpio_read], at the head of an
    iteration, returns the level the transmit pin was left at by the
    iterations before; a pin that was never written reads low. *)
Definition gpio_level_of (g : Z) (gs : gpio_state) : Z :=
  default 0 (gpio_level gs !! g).

(** One pass through the loop of [wio_enable] with the wire in place. *)
Definition loopback_iter (self_id current_time : Z) (st : state)
  : option state :=
  match get_inst st self_id with
  | None => None
  | Some self =>
      wio_loop_iter self_id current_time
        (gpio_level_of (tx_pin self) (gpio st)) st
  end.

(** The loop running on the successive readings [times] of the counter. *)
Fixpoint loopback_loop (times : list Z) (self_id : Z) (st : state)
  : option state :=
  match times with
  | [] => Some st
  | current_time :: rest =>
      match loopback_iter self_id current_time st with
      | None => None
      | Some st' => loopback_loop rest self_id st'
      end
  end.

(** * The demodulation cell of the notebook

    The Python cell that turns the measured carrier periods
    [period_lengths_us], a [float64] array, into the rows
    [[pulse length, gap length]] of [demodulated]. The numbers are IEEE
    binary64 floats, as in numpy; [current_pulse_length] starts as the
    integer 0, which Python converts to [0.0] at the first addition and
    numpy at the conversion of the rows. *)

(** [l < 40] *)
Definition short_period (l : float) : bool := PrimFloat.ltb l 40%float.

(** The [for] loop, from a given value of [current_pulse_length]. *)
Fixpoint demodulate_from (current_pulse_length : float)
    (period_lengths_us : list float) : list (float * float) :=
  match period_lengths_us with
  | [] => []
  | l :: rest =>
      if short_period l
      then demodulate_from (PrimFloat.add current_pulse_length l) rest
      else (current_pulse_length, l) :: demodulate_from 0%float rest
  end.

(** The cell. *)
Definition demodulated (period_lengths_us : list float)
  : list (float * float) :=
  demodulate_from 0%float period_lengths_us.

(** * Vocabulary of the properties

    Predicates on states and runs, used to state the theorems below. *)

(** The table keeps its [WIO_INST_COUNT] slots and the allocation counter
    stays inside it. *)
Definition table_ok (st : state) : Prop :=
  length (wio_inst st) = Z.to_nat WIO_INST_COUNT /\
  0 <= wio_inst_count st < WIO_INST_COUNT.

(** What the constructor writes into its slot; [old] is the previous
    content of the slot. *)
Definition constructed (tx_pin_idx tx_buf rx_pin_idx rx_buf rx_len : Z)
    (old : wio_inst_type) : wio_inst_type :=
  {| tx_buffer := tx_buf; tx_buffer_cur := 0; tx_buffer_len := 0;
     tx_target_time := tx_target_time old;
     tx_await_wrap := tx_await_wrap old;
     tx_pin := u32 tx_pin_idx;
     rx_buffer := rx_buf; rx_buffer_cur := 0; rx_buffer_len := u32 rx_len;
     rx_last_time := rx_last_time old;
     rx_pin := u32 rx_pin_idx;
     main_loop_running := 0 |}.

(** Both cursors are inside their bounds, and the lengths are
    [unsigned int] values. *)
Definition cursor_ok (slot : wio_inst_type) : Prop :=
  (0 <= tx_buffer_cur slot <= tx_buffer_len slot /\
   tx_buffer_len slot < wrap32) /\
  (0 <= rx_buffer_cur slot < rx_buffer_len slot /\
   rx_buffer_len slot < wrap32).

(** In an execution from a constructor call, later constructor calls must
    also ask for a positive receive capacity. *)
Definition event_ok (ev : event) : bool :=
  match ev with
  | EvNew _ _ _ _ rl => 0 <? u32 rl
  | _ => true
  end.

(** ** Time and schedules

    The counter is a free-running clock: its reading at the true time [t]
    (a number of ticks, not reduced) is [u32 t]. A run of the loop is
    described by the true times at which its iterations read the counter,
    together with the pin level read in the same iteration. *)

(** The number of times the counter has wrapped at the true time [t]. *)
Definition period (t : Z) : Z := t / wrap32.

(** What an iteration sampled at the true time [fst x] reads. *)
Definition reading (x : Z * Z) : Z * Z := (u32 (fst x), snd x).

Definition readings (ts : list (Z * Z)) : list (Z * Z) := map reading ts.

(** The loop body iterated on one instance. *)
Fixpoint run_body (inputs : list (Z * Z))
    (s : wio_inst_type * memory * gpio_state)
  : option (wio_inst_type * memory * gpio_state) :=
  match inputs with
  | [] => Some s
  | (current_time, current_rx) :: rest =>
      match wio_loop_body current_time current_rx s.1.1 s.1.2 s.2 with
      | None => None
      | Some s' => run_body rest s'
      end
  end.

(** The samples [ts] follow a sample taken at [t] in time order. *)
Fixpoint increasing (t : Z) (ts : list (Z * Z)) : bool :=
  match ts with
  | [] => true
  | (t', _) :: rest => (t <=? t') && increasing t' rest
  end.

(** ... and each of them at most [g] ticks after the one before it. *)
Fixpoint gaps_ok (g t : Z) (ts : list (Z * Z)) : bool :=
  match ts with
  | [] => true
  | (t', _) :: rest => (t <=? t') && (t' <=? t + g) && gaps_ok g t' rest
  end.

(** All samples are taken before the time [s]. *)
Definition all_before (s : Z) (ts : list (Z * Z)) : bool :=
  forallb (fun x => fst x <? s) ts.

(** The time of the last sample of [ts], or [t] when there is none. *)
Fixpoint last_time (t : Z) (ts : list (Z * Z)) : Z :=
  match ts with
  | [] => t
  | (t', _) :: rest => last_time t' rest
  end.

(** The schedule of a transmission: the first transition at [s], each
    later one an entry of [bs] after the one before it; the last entry of
    [bs] is followed by nothing. [due bs s t] counts the transitions
    scheduled at or before [t]. *)
Fixpoint due (bs : list Z) (s t : Z) : Z :=
  match bs with
  | [] => 0
  | b :: rest => if s <=? t then 1 + due rest (s + b) t else 0
  end.

(** A schedule that a loop with polling gaps of at most [g] ticks can
    follow: every entry that is waited for lies in [[g, 2^32 - g]], and no
    transition after the first is scheduled in the last [g - 1] ticks
    before the counter wraps. *)
Fixpoint schedule_ok (g s : Z) (bs : list Z) : bool :=
  match bs with
  | [] => true
  | b :: rest =>
      match rest with
      | [] => true
      | _ :: _ =>
          (g <=? b) && (b <=? wrap32 - g) && (u32 (s + b) + g <=? wrap32)
          && schedule_ok g (s + b) rest
      end
  end.

(** The sum of a list of intervals. *)
Definition sumZ (l : list Z) : Z := foldr Z.add 0 l.

(** The state of the transmit half between two transitions: the last sample
    was taken at [t], the previous transition was scheduled at [sp], the
    next one is scheduled at [s]. Either the guard is clear and the counter
    is already in the period of [s], or the guard holds the reading of [sp]
    and the counter has yet to wrap. *)
Definition pending (t sp s : Z) (self : wio_inst_type) : Prop :=
  sp <= t < s /\ s < sp + wrap32 /\
  tx_target_time self = u32 s /\
  ((tx_await_wrap self = 0 /\ period t = period s) \/
   (tx_await_wrap self = u32 sp /\ u32 sp <> 0 /\
    period t = period sp /\ period s = period sp + 1)) /\
  0 < tx_buffer_cur self < tx_buffer_len self /\
  tx_buffer_len self < wrap32.

(** The receive half can run: the cursor is inside the capacity, and the
    capacity inside the buffer. *)
Definition rx_safe (self : wio_inst_type) (m : memory) : Prop :=
  exists lr,
    m !! rx_buffer self = Some lr /\
    0 <= rx_buffer_cur self < rx_buffer_len self /\
    rx_buffer_len self <= Z.of_nat (length lr) /\
    rx_buffer_len self < wrap32.

(** The transmit half can run: the queued length is inside the buffer. *)
Definition tx_safe (self : wio_inst_type) (m : memory) : Prop :=
  exists lt,
    m !! tx_buffer self = Some lt /\
    tx_buffer_len self <= Z.of_nat (length lt).

(** Linear arithmetic with readings and periods of the counter. *)
Ltac tlia :=
  unfold period, u32, wrap32 in *;
  change (2 ^ 32) with 4294967296 in *;
  Z.to_euclidean_division_equations; lia.

(** The transmit fields after a transition scheduled at [s] has loaded the
    interval [v]. *)
Definition fired (s v : Z) (self : wio_inst_type) : wio_inst_type :=
  set_tx_await_wrap (if u32 s <=? u32 (s + v) then 0 else u32 s)
    (set_tx_target_time (u32 (s + v))
       (set_tx_buffer_cur (tx_buffer_cur self + 1) self)).

(** The level written by the transition that leaves the cursor at [cur]. *)
Definition tx_level (cur : Z) : Z := Z.land (u32 (Z.lnot cur)) 1.

(** What the receive half leaves alone. *)
Definition tx_same (a b : wio_inst_type) : Prop :=
  tx_buffer b = tx_buffer a /\ tx_buffer_cur b = tx_buffer_cur a /\
  tx_buffer_len b = tx_buffer_len a /\ tx_target_time b = tx_target_time a /\
  tx_await_wrap b = tx_await_wrap a /\ tx_pin b = tx_pin a /\
  rx_buffer b = rx_buffer a /\
  main_loop_running b = main_loop_running a.

(** The memory after stores into the block [p] only: other blocks are
    unchanged and [p] keeps its size. *)
Definition mem_ext (p : Z) (m m' : memory) : Prop :=
  (forall q, q <> p -> m' !! q = m !! q) /\
  (forall l, m !! p = Some l ->
     exists l', m' !! p = Some l' /\ length l' = length l).

(** What no iteration changes. *)
Definition stable (a b : wio_inst_type) : Prop :=
  tx_buffer b = tx_buffer a /\ tx_buffer_len b = tx_buffer_len a /\
  tx_pin b = tx_pin a /\ rx_buffer b = rx_buffer a /\
  main_loop_running b = main_loop_running a.

(** The program state after the loop of instance [i] has brought its
    instance, the memory and the pins to [s]. *)
Definition commit (i : Z) (s : wio_inst_type * memory * gpio_state)
    (st : state) : state :=
  {| wio_inst := <[Z.to_nat i := s.1.1]> (wio_inst st);
     wio_inst_count := wio_inst_count st;
     xtimer_starts := xtimer_starts st;
     mem := s.1.2;
     gpio := s.2 |}.

(** Every access of a loop iteration of [self] falls inside its buffers. *)
Definition inst_safe (self : wio_inst_type) (m : memory) : bool :=
  match m !! tx_buffer self, m !! rx_buffer self with
  | Some lt, Some lr =>
      (0 <=? tx_buffer_cur self)
      && (tx_buffer_cur self <=? tx_buffer_len self)
      && (tx_buffer_len self <=? Z.of_nat (length lt))
      && (tx_buffer_len self <? wrap32)
      && (0 <=? rx_buffer_cur self)
      && (rx_buffer_cur self <? rx_buffer_len self)
      && (rx_buffer_len self <=? Z.of_nat (length lr))
      && (rx_buffer_len self <? wrap32)
  | _, _ => false
  end.

(** The target the transmit half compares the counter with, in an iteration
    that reads [now]: the counter itself when a transmission starts. *)
Definition due_target (now : Z) (self : wio_inst_type) : Z :=
  if tx_buffer_cur self =? 0 then now else tx_target_time self.

(** The true time at which the transition that fires in an iteration
    sampled at [t] was scheduled: the last time at or before [t] at which
    the counter read the target. *)
Definition scheduled (t : Z) (self : wio_inst_type) : Z :=
  t - (u32 t - due_target (u32 t) self).

(** The entries still to be loaded: those from the cursor to the length. *)
Definition entries_left (self : wio_inst_type) (lt : list Z) : list Z :=
  drop (Z.to_nat (tx_buffer_cur self))
    (take (Z.to_nat (tx_buffer_len self)) lt).

(** The receive half of [self] stays inside its buffer. *)
Definition rx_in_bounds (self : wio_inst_type) (m : memory) : bool :=
  match m !! rx_buffer self with
  | Some lr =>
      (0 <=? rx_buffer_cur self)
      && (rx_buffer_cur self <? rx_buffer_len self)
      && (rx_buffer_len self <=? Z.of_nat (length lr))
      && (rx_buffer_len self <? wrap32)
  | None => false
  end.

(** ** Further vocabulary *)

(** The instance a step works on: the slot the allocation counter points at
    for a construction, the handle passed for every other call. *)
Definition event_target (ev : event) (st : state) : Z :=
  match ev with
  | EvNew _ _ _ _ _ => s32 (wio_inst_count st)
  | EvEnable i | EvIter i _ _ | EvDisable i | EvTxStart i _ | EvRxReset i => i
  end.

(** A step that is not a construction. *)
Definition is_call (ev : event) : bool :=
  match ev with
  | EvNew _ _ _ _ _ => false
  | _ => true
  end.

(** The pins after writes to the pin [pin] only: the directions and the
    levels of the other pins are unchanged. *)
Definition gpio_frame (pin : Z) (gs gs' : gpio_state) : Prop :=
  gpio_dir gs' = gpio_dir gs /\
  forall p, p <> pin -> gpio_level gs' !! p = gpio_level gs !! p.

(** The program state after iterations of the loop of instance [i], found
    as [self]: what they can have changed is the cursors and the timing
    fields of [self], the words of its receive buffer and the level of its
    transmit pin. *)
Definition loop_frame (i : Z) (self : wio_inst_type) (st st' : state) : Prop :=
  exists self',
    get_inst st' i = Some self' /\
    stable self self' /\
    rx_buffer_len self' = rx_buffer_len self /\
    rx_pin self' = rx_pin self /\
    (forall j, j <> i -> get_inst st' j = get_inst st j) /\
    wio_inst_count st' = wio_inst_count st /\
    xtimer_starts st' = xtimer_starts st /\
    mem_ext (rx_buffer self) (mem st) (mem st') /\
    gpio_frame (tx_pin self) (gpio st) (gpio st').

(** A step that is an iteration of a loop. *)
Definition is_iter (ev : event) : bool :=
  match ev with
  | EvIter _ _ _ => true
  | _ => false
  end.

(** The number of times the input changes along the levels [levels] read
    in turn, [prev] being the level before the first of them. *)
Fixpoint level_changes (prev : Z) (levels : list Z) : Z :=
  match levels with
  | [] => 0
  | l :: rest => (if l =? prev then 0 else 1) + level_changes l rest
  end.

(** The value read from the input pin is a level, 0 or 1. *)
Definition is_level (l : Z) : bool := (l =? 0) || (l =? 1).

(** A step that the owner of instance [i] may take without leaving the
    buffers, when the transmit buffer has [tx_words] words: any call on
    [i] but a [wio_tx_start] with a longer length. *)
Definition call_safe (i tx_words : Z) (ev : event) : bool :=
  match ev with
  | EvNew _ _ _ _ _ => false
  | EvTxStart j n => (j =? i) && (u32 n <=? tx_words)
  | EvEnable j | EvIter j _ _ | EvDisable j | EvRxReset j => j =? i
  end.

(** [current_pulse_length] after the periods [ls], all short. *)
Definition pulse_length (ls : list float) : float :=
  fold_left PrimFloat.add ls 0%float.

(** The transmit half is held back in an iteration that reads [now] from
    the counter: either the guard is clear and the counter reads less than
    the target, or the guard is set and the counter does not read less than
    the guard. *)
Definition tx_blocked (now : Z) (self : wio_inst_type) : bool :=
  if tx_await_wrap self =? 0 then now <? tx_target_time self
  else tx_await_wrap self <=? now.

(** * Concrete runs

    States and sample sequences on which the theorems and their limits are
    evaluated. *)

(** A transmit buffer of two words and a receive buffer of three. *)
Definition misuse_mem : memory := {[ 1 := [1000; 2000]; 2 := [0; 0; 0] ]}.

(** ... after the construction of an instance with them ... *)
Definition misuse_st1 : state :=
  default (initial_state misuse_mem)
    (snd <$> wio_new 0 1 2 2 3 (initial_state misuse_mem)).

(** ... and after the start of a transmission of three entries. *)
Definition misuse_st2 : state :=
  default misuse_st1 (wio_tx_start 0 3 misuse_st1).

(** An instance with a transmit buffer [tx] and a receive buffer of four
    words, constructed, with a transmission of [n] entries started and the
    loop enabled. *)
Definition demo_mem (tx : list Z) : memory := {[ 1 := tx; 2 := [0; 0; 0; 0] ]}.

(** The state of the program at that point. *)
Definition demo_state (tx : list Z) (n : Z) : state :=
  match wio_new 0 1 2 2 4 (initial_state (demo_mem tx)) with
  | Some (_, st1) =>
      match wio_tx_start 0 n st1 with
      | Some st2 => default st2 (wio_enable [] 0 st2)
      | None => st1
      end
  | None => initial_state (demo_mem tx)
  end.

(** The transmit cursor of instance 0 after the loop has run on the
    samples [ts]. *)
Definition tx_cursor_after (ts : list (Z * Z)) (st : state) : option Z :=
  match wio_enable_loop (readings ts) 0 st with
  | Some st' => wio_tx_cursor 0 st'
  | None => None
  end.

(** The instance 0 of a state. *)
Definition demo_slot (st : state) : wio_inst_type :=
  default wio_inst_zero (get_inst st 0).

(** A first entry of [2^32 - 3] ticks: started at the reading 5, the
    addition to the target overflows. *)
Definition wrap_st : state := demo_state [4294967293; 7; 7; 7] 4.

(** ... after the iteration that fires the first transition ... *)
Definition wrap_st1 : state :=
  default wrap_st (wio_loop_iter 0 (u32 5) 0 wrap_st).

(** ... and two later samples, one before and one after the counter
    wraps, both before the second transition is due. *)
Definition wrap_ts : list (Z * Z) := [(4294967294, 0); (4294967297, 0)].

(** [k] samples two ticks apart, the first at [2^32 - 4]. *)
Definition every_other (k : nat) : list (Z * Z) :=
  map (fun j : nat => (4294967292 + 2 * Z.of_nat j, 0)) (seq 0 k).

(** Two entries [3; 5] started, the first transition fired at the reading
    [2^32 - 4]: the second is due when the counter reads [2^32 - 1]. *)
Definition stuck_state : state :=
  default (demo_state [3; 5] 2)
    (wio_enable_loop (readings (every_other 1)) 0 (demo_state [3; 5] 2)).

(** Four entries, transitions due at 10, 15, 22 and 26, followed by a loop
    that samples at most two ticks apart. *)
Definition follow_st : state := demo_state [5; 7; 4; 9] 0.

(** The samples after the first one, taken at 10. *)
Definition follow_ts : list (Z * Z) :=
  [(12, 0); (14, 0); (15, 1); (17, 1); (19, 1); (21, 1); (22, 0); (24, 0);
   (26, 1); (27, 1)].

(** An execution that mixes all kinds of steps on instance 0, and a second
    construction. *)
Definition bounds_st0 : state :=
  initial_state (demo_mem [1000; 2000; 1000; 2000]).

(** The state after the first construction. *)
Definition bounds_st1 : state :=
  default bounds_st0 (snd <$> wio_new 0 1 2 2 4 bounds_st0).

(** The steps taken from there. *)
Definition bounds_evs : list event :=
  [EvEnable 0; EvTxStart 0 4; EvIter 0 10 1; EvIter 0 500 0; EvRxReset 0;
   EvIter 0 1010 1; EvDisable 0; EvNew 4 1 6 2 4; EvEnable 0;
   EvIter 0 1200 0; EvIter 0 3010 1].

(** The state they lead to. *)
Definition bounds_st : state := default bounds_st1 (run bounds_evs bounds_st1).

(** An iteration that reads the counter at 100 and the input high. *)
Definition record_st : state := demo_state [5; 7; 4; 9] 4.

(** The instance and the pins after its transmit half. *)
Definition record_tx : wio_inst_type * gpio_state :=
  default (demo_slot record_st, gpio record_st)
    (handle_tx 100 (demo_slot record_st) (mem record_st) (gpio record_st)).

(** Eight instances on the same buffers; instance 0 enabled, with one edge
    recorded at the counter value 1000. *)
Definition reuse_st : state :=
  match wio_new_all (replicate 8 (0, 1, 2, 2, 4))
          (initial_state (demo_mem [5; 7; 4; 9])) with
  | Some (_, st) => default st (wio_enable [(1000, 1)] 0 st)
  | None => initial_state (demo_mem [5; 7; 4; 9])
  end.

(** ... then a ninth construction, which takes the slot of instance 0 ... *)
Definition reuse_st9 : state :=
  default reuse_st (snd <$> wio_new 0 1 2 2 4 reuse_st).

(** ... and an edge recorded by the new instance at the counter value
    1500. *)
Definition reuse_st10 : state :=
  default reuse_st9 (wio_enable [(1500, 1)] 0 reuse_st9).

(** ** Further runs *)

(** A burst of carrier periods followed by a gap. *)
Definition burst : list float := [26.5%float; 26.25%float; 26.75%float].

(** The state [record_st] after two iterations of its loop. *)
Definition frame_inputs : list (Z * Z) := [(100, 1); (200, 0)].

Definition frame_st : state :=
  default record_st (wio_enable_loop frame_inputs 0 record_st).

(** An instance whose transmit buffer is not in memory, enabled. *)
Definition rx_only_st : state :=
  match wio_new 0 1 2 2 4 (initial_state {[ 2 := [0; 0; 0; 0] ]}) with
  | Some (_, st) => default st (wio_enable [] 0 st)
  | None => initial_state ∅
  end.

(** A transmission of three entries, started on [follow_st] and run to its
    end. *)
Definition odd_st1 : state :=
  default follow_st (wio_tx_start 0 3 follow_st).

Definition odd_inputs : list (Z * Z) := [(10, 0); (15, 0); (20, 0); (22, 0)].

Definition odd_st : state :=
  default odd_st1 (wio_enable_loop odd_inputs 0 odd_st1).

(** The instance, the memory and the pins after an iteration of
    [record_st] that reads the input high. *)
Definition parity_s : wio_inst_type * memory * gpio_state :=
  default (demo_slot record_st, mem record_st, gpio record_st)
    (wio_loop_body 100 1 (demo_slot record_st) (mem record_st)
       (gpio record_st)).

(** An instance with the capacity 3, its receive cursor on the last
    word. *)
Definition odd_slot : wio_inst_type :=
  set_rx_buffer_cur 2 (constructed 0 1 2 2 3 wio_inst_zero).

(** Levels read by five iterations: three changes. *)
Definition count_inputs : list (Z * Z) :=
  [(100, 1); (200, 1); (300, 0); (400, 1); (500, 1)].

(** Two iterations that see the input unchanged, before and after the
    counter wraps. *)
Definition quiet_inputs : list (Z * Z) := [(4294967100, 1); (4294967400, 1)].

(** Calls on instance 0 interleaved with iterations of its loop. *)
Definition safe_evs : list event :=
  [EvEnable 0; EvTxStart 0 4; EvIter 0 10 1; EvIter 0 500 0; EvRxReset 0;
   EvIter 0 1010 1; EvDisable 0; EvTxStart 0 2; EvEnable 0;
   EvIter 0 1200 0; EvIter 0 3010 1].

(** Three entries queued on an enabled instance with four receive words. *)
Definition loop_st : state := demo_state [5; 7; 4; 9] 3.

(** Samples after the first transition of [wrap_st], none of them taken
    while the counter reads less than the guard value 5: the second and the
    later ones are taken after the second transition is due, at
    [2^32 + 2]. *)
Definition missed_ts : list (Z * Z) :=
  [(4294967294, 0); (4294967302, 0); (5294967296, 0); (8589934591, 0)].

(** Two entries of 1030 ticks on an enabled instance, and a loop that
    samples every 100 ticks: after the first sample at [2^32 - 1050], thirty
    more. The second transition is due at [2^32 - 20]. *)
Definition late_st : state := demo_state [1030; 1030] 0.

Definition late_ts : list (Z * Z) :=
  map (fun j : nat => (4294966246 + 100 * Z.of_nat j, 0)) (seq 1 30).

(** The state [record_st] after its loop has recorded three edges: the
    receive cursor stands at 3 and the receive buffer holds the recorded
    intervals. *)
Definition reset_st : state :=
  default record_st (wio_enable_loop count_inputs 0 record_st).

(** Eight instances; on instance 0 a transmission whose first entry
    overflows the target is started at the counter value 5 and an edge is
    recorded at 700: [tx_target_time], [tx_await_wrap] and [rx_last_time]
    of slot 0 are 2, 5 and 700. The allocation counter is back at 0. *)
Definition stale_st : state :=
  match wio_new_all (replicate 8 (0, 1, 2, 2, 4))
          (initial_state (demo_mem [4294967293; 7; 7; 7])) with
  | Some (_, st) =>
      match wio_tx_start 0 4 st with
      | Some st1 => default st1 (wio_enable [(5, 0); (700, 1)] 0 st1)
      | None => st
      end
  | None => initial_state (demo_mem [4294967293; 7; 7; 7])
  end.

(** * Properties *)

(** ** The instance table *)

Lemma s32_small z : 0 <= z < 2 ^ 31 -> s32 z = z.
Proof.
  intros H. unfold s32, wrap32. rewrite Z.mod_small; lia.
Qed.

Lemma get_inst_Some st i slot :
  get_inst st i = Some slot ->
  0 <= i /\ (Z.to_nat i < length (wio_inst st))%nat.
Proof.
  unfold get_inst. destruct (0 <=? i) eqn:E; [|discriminate].
  intros H. apply lookup_lt_Some in H. split; [lia | exact H].
Qed.

Lemma get_inst_put st i h v cnt ts m gs slot :
  get_inst st i = Some slot ->
  get_inst {| wio_inst := <[Z.to_nat i := v]> (wio_inst st);
              wio_inst_count := cnt; xtimer_starts := ts;
              mem := m; gpio := gs |} h
  = if decide (h = i) then Some v else get_inst st h.
Proof.
  intros H. destruct (get_inst_Some _ _ _ H) as [Hi Hlt].
  unfold get_inst. simpl. case_decide as Hd.
  - subst h. destruct (0 <=? i) eqn:E; [|lia].
    by apply list_lookup_insert_eq.
  - destruct (0 <=? h) eqn:E; [|done].
    apply list_lookup_insert_ne. lia.
Qed.

Lemma get_inst_set_inst st i h v slot :
  get_inst st i = Some slot ->
  get_inst (set_inst i v st) h
  = if decide (h = i) then Some v else get_inst st h.
Proof. apply get_inst_put. Qed.

Lemma set_inst_twice i v w st :
  set_inst i v (set_inst i w st) = set_inst i v st.
Proof. unfold set_inst. simpl. by rewrite list_insert_insert_eq. Qed.

Lemma table_ok_initial m : table_ok (initial_state m).
Proof.
  split.
  - reflexivity.
  - simpl. unfold WIO_INST_COUNT. lia.
Qed.

Lemma table_ok_get st i :
  table_ok st -> 0 <= i < WIO_INST_COUNT -> is_Some (get_inst st i).
Proof.
  intros [Hl _] Hi. unfold get_inst.
  destruct (0 <=? i) eqn:E; [|lia].
  apply lookup_lt_is_Some. rewrite Hl. unfold WIO_INST_COUNT in *. lia.
Qed.

Lemma wio_new_spec tp tb rp rb rl st :
  table_ok st ->
  exists old st',
    get_inst st (wio_inst_count st) = Some old /\
    wio_new tp tb rp rb rl st = Some (wio_inst_count st, st') /\
    table_ok st' /\
    wio_inst_count st' = (wio_inst_count st + 1) mod WIO_INST_COUNT /\
    xtimer_starts st' =
      (if wio_inst_count st =? 0 then S (xtimer_starts st)
       else xtimer_starts st) /\
    mem st' = mem st /\
    (forall h, get_inst st' h =
               if decide (h = wio_inst_count st)
               then Some (constructed tp tb rp rb rl old)
               else get_inst st h).
Proof.
  intros Hok. destruct (table_ok_get st (wio_inst_count st) Hok) as [old Hold].
  { apply Hok. }
  destruct Hok as [Hlen Hcnt].
  assert (Hu : u32 (wio_inst_count st + 1) = wio_inst_count st + 1).
  { unfold u32, wrap32. apply Z.mod_small. unfold WIO_INST_COUNT in Hcnt. lia. }
  assert (Hs : s32 (wio_inst_count st) = wio_inst_count st).
  { apply s32_small. unfold WIO_INST_COUNT in Hcnt. lia. }
  exists old. eexists. split; [exact Hold|].
  unfold wio_new. rewrite Hs, Hold. split; [reflexivity|].
  split; [|split; [|split; [|split]]]; simpl.
  - split; simpl.
    + by rewrite length_insert.
    + apply Z.mod_pos_bound. unfold WIO_INST_COUNT. lia.
  - by rewrite Hu.
  - reflexivity.
  - reflexivity.
  - intros h. erewrite get_inst_put by exact Hold. reflexivity.
Qed.

Lemma wio_new_all_spec args : forall st,
  table_ok st ->
  exists hs st',
    wio_new_all args st = Some (hs, st') /\
    table_ok st' /\
    wio_inst_count st' =
      (wio_inst_count st + Z.of_nat (length args)) mod WIO_INST_COUNT /\
    mem st' = mem st /\
    length hs = length args /\
    (forall k : nat, (k < length args)%nat ->
       hs !! k = Some ((wio_inst_count st + Z.of_nat k) mod WIO_INST_COUNT)).
Proof.
  induction args as [|[[[[tp tb] rp] rb] rl] rest IH]; intros st Hok.
  - exists [], st. simpl. repeat split; try apply Hok.
    + rewrite Z.add_0_r. symmetry. apply Z.mod_small, Hok.
    + intros k Hk. lia.
  - destruct (wio_new_spec tp tb rp rb rl st Hok)
      as (old & st1 & Hold & Hnew & Hok1 & Hcnt1 & _ & Hmem1 & _).
    destruct (IH st1 Hok1) as (hs & st2 & Hall & Hok2 & Hcnt2 & Hmem2 & Hlen & Hhs).
    exists (wio_inst_count st :: hs), st2. simpl.
    rewrite Hnew, Hall. split; [reflexivity|]. split; [exact Hok2|].
    split; [|split; [|split]].
    + rewrite Hcnt2, Hcnt1. rewrite Zplus_mod_idemp_l. f_equal. lia.
    + congruence.
    + by rewrite Hlen.
    + intros [|k] Hk; simpl.
      * rewrite Z.add_0_r. f_equal. symmetry. apply Z.mod_small, Hok.
      * rewrite Hhs by lia. rewrite Hcnt1. rewrite Zplus_mod_idemp_l.
        do 2 f_equal. lia.
Qed.

(** ** Allocation of instances *)

(** The handles returned by a sequence of constructor calls from the initial
    state, and the effect of one more call. *)
Lemma wio_new_handle_wraps_aux (m : memory) (args : list (Z * Z * Z * Z * Z))
    (tp tb rp rb rl : Z) :
  let h := Z.of_nat (length args) mod WIO_INST_COUNT in
  exists hs st old st',
    wio_new_all args (initial_state m) = Some (hs, st) /\
    (forall k : nat, (k < length args)%nat ->
       hs !! k = Some (Z.of_nat k mod WIO_INST_COUNT)) /\
    0 <= h < 8 /\
    get_inst st h = Some old /\
    wio_new tp tb rp rb rl st = Some (h, st') /\
    get_inst st' h = Some (constructed tp tb rp rb rl old).
Proof.
  intros h.
  destruct (wio_new_all_spec args (initial_state m) (table_ok_initial m))
    as (hs & st & Hall & Hok & Hcnt & _ & _ & Hhs).
  simpl in Hcnt. destruct (wio_new_spec tp tb rp rb rl st Hok)
    as (old & st' & Hold & Hnew & _ & _ & _ & _ & Hget).
  rewrite Hcnt in Hold, Hnew, Hget. fold h in Hold, Hnew, Hget.
  exists hs, st, old, st'. repeat split; try done.
  - apply Z.mod_pos_bound. unfold WIO_INST_COUNT. lia.
  - apply Z.mod_pos_bound. unfold WIO_INST_COUNT. lia.
  - rewrite Hget. by rewrite decide_True.
Qed.

(** C9. Handle allocation wraps silently: whatever calls of the constructor
    came before, all of them returned, the k-th of them (from 0) returned
    the handle [k mod 8], and one more call returns the handle
    [n mod 8] for [n] the number of earlier calls, a handle in [[0, 8)],
    and overwrites the slot of that handle with its own arguments, cleared
    cursors and a cleared running flag. With [n = 8] this is the ninth call:
    it returns 0 and overwrites the first instance. *)
Theorem wio_new_handle_wraps (m : memory) (args : list (Z * Z * Z * Z * Z))
    (tp tb rp rb rl : Z) :
  exists hs st old st',
    wio_new_all args (initial_state m) = Some (hs, st) /\
    (forall k : nat, (k < length args)%nat ->
       hs !! k = Some (Z.of_nat k mod WIO_INST_COUNT)) /\
    0 <= Z.of_nat (length args) mod WIO_INST_COUNT < 8 /\
    get_inst st (Z.of_nat (length args) mod WIO_INST_COUNT) = Some old /\
    wio_new tp tb rp rb rl st
      = Some (Z.of_nat (length args) mod WIO_INST_COUNT, st') /\
    get_inst st' (Z.of_nat (length args) mod WIO_INST_COUNT)
      = Some (constructed tp tb rp rb rl old).
Proof. exact (wio_new_handle_wraps_aux m args tp tb rp rb rl). Qed.

(** The ninth call on a concrete run: handle 0 again, and the slot of the
    first instance now holds the buffers and pins of the ninth. *)
Example ninth_call_overwrites_first :
  let a := (0, 1, 2, 2, 16) in
  match wio_new_all (replicate 8 a) (initial_state ∅) with
  | Some (hs, st) =>
      hs = [0; 1; 2; 3; 4; 5; 6; 7] /\
      (tx_buffer <$> get_inst st 0) = Some 1 /\
      match wio_new 4 11 6 12 32 st with
      | Some (h, st') =>
          h = 0 /\
          get_inst st' 0 =
            Some (constructed 4 11 6 12 32 wio_inst_zero)
      | None => False
      end
  | None => False
  end.
Proof. vm_compute. repeat split; reflexivity. Qed.

(** C10. Construction leaves the timing fields stale. The constructor
    assigns both buffer pointers, both lengths, both cursors, both pins and
    the running flag of its slot; [tx_target_time], [tx_await_wrap] and
    [rx_last_time] keep the values the slot held before. Hence the first
    interval recorded after construction, at counter value [now], is
    [now - rx_last_time] for the old [rx_last_time] of the slot. *)
Theorem wio_new_keeps_timing_fields (st : state) (tp tb rp rb rl : Z) :
  table_ok st ->
  exists old new st',
    get_inst st (wio_inst_count st) = Some old /\
    wio_new tp tb rp rb rl st = Some (wio_inst_count st, st') /\
    get_inst st' (wio_inst_count st) = Some new /\
    tx_target_time new = tx_target_time old /\
    tx_await_wrap new = tx_await_wrap old /\
    rx_last_time new = rx_last_time old /\
    tx_buffer new = tb /\ rx_buffer new = rb /\
    tx_buffer_len new = 0 /\ rx_buffer_len new = u32 rl /\
    tx_buffer_cur new = 0 /\ rx_buffer_cur new = 0 /\
    tx_pin new = u32 tp /\ rx_pin new = u32 rp /\
    main_loop_running new = 0 /\
    (forall now rx l,
       rx_edge rx new = true ->
       mem st' !! rb = Some l -> (0 < length l)%nat -> u32 rl <> 0 ->
       exists new' m',
         handle_rx now rx new (mem st') = Some (new', m') /\
         load m' rb 0 = Some (u32 (now - rx_last_time old))).
Proof.
  intros Hok. destruct (wio_new_spec tp tb rp rb rl st Hok)
    as (old & st' & Hold & Hnew & _ & _ & _ & _ & Hget).
  exists old, (constructed tp tb rp rb rl old), st'.
  split; [exact Hold|]. split; [exact Hnew|].
  split; [rewrite Hget; by rewrite decide_True|].
  repeat (split; [reflexivity|]).
  intros now rx l Hedge Hl Hlen Hrl.
  unfold handle_rx. rewrite Hedge. simpl. unfold store. rewrite Hl.
  destruct l as [|x l]; [simpl in Hlen; lia|]. simpl.
  destruct (u32 rl =? 0) eqn:E; [lia|].
  eexists _, _. split; [reflexivity|].
  unfold load. by rewrite lookup_insert_eq.
Qed.

(** On a reused slot the stale value shows: the instance constructed ninth
    inherits [rx_last_time = 1000] from the first, and the first interval it
    records, at the counter value 1500, is 500. *)
Example stale_last_time_after_reuse :
  (rx_last_time <$> get_inst reuse_st 0) = Some 1000 /\
  (rx_last_time <$> get_inst reuse_st9 0) = Some 1000 /\
  (rx_buffer_cur <$> get_inst reuse_st9 0) = Some 0 /\
  load (mem reuse_st10) 2 0 = Some 500.
Proof. repeat split; vm_compute; reflexivity. Qed.

Lemma wio_new_keeps_timing_fields_witness :
  table_ok stale_st /\
  get_inst stale_st (wio_inst_count stale_st) = Some (demo_slot stale_st) /\
  tx_target_time (demo_slot stale_st) = 2 /\
  tx_await_wrap (demo_slot stale_st) = 5 /\
  rx_last_time (demo_slot stale_st) = 700 /\
  exists old new st',
    get_inst stale_st (wio_inst_count stale_st) = Some old /\
    wio_new 4 1 6 2 4 stale_st = Some (wio_inst_count stale_st, st') /\
    get_inst st' (wio_inst_count stale_st) = Some new /\
    tx_target_time new = tx_target_time old /\
    tx_await_wrap new = tx_await_wrap old /\
    rx_last_time new = rx_last_time old /\
    tx_buffer new = 1 /\ rx_buffer new = 2 /\
    tx_buffer_len new = 0 /\ rx_buffer_len new = u32 4 /\
    tx_buffer_cur new = 0 /\ rx_buffer_cur new = 0 /\
    tx_pin new = u32 4 /\ rx_pin new = u32 6 /\
    main_loop_running new = 0 /\
    (forall now rx l,
       rx_edge rx new = true ->
       mem st' !! 2 = Some l -> (0 < length l)%nat -> u32 4 <> 0 ->
       exists new' m',
         handle_rx now rx new (mem st') = Some (new', m') /\
         load m' 2 0 = Some (u32 (now - rx_last_time old))).
Proof.
  assert (H1 : table_ok stale_st).
  { split; [reflexivity | change (0 <= 0 < 8); lia]. }
  assert (H2 : get_inst stale_st (wio_inst_count stale_st)
               = Some (demo_slot stale_st)) by (vm_compute; reflexivity).
  assert (H3 : tx_target_time (demo_slot stale_st) = 2)
    by (vm_compute; reflexivity).
  assert (H4 : tx_await_wrap (demo_slot stale_st) = 5)
    by (vm_compute; reflexivity).
  assert (H5 : rx_last_time (demo_slot stale_st) = 700)
    by (vm_compute; reflexivity).
  repeat (split; [assumption|]).
  exact (wio_new_keeps_timing_fields stale_st 4 1 6 2 4 H1).
Defined.

(** The start-up sequence of the shared timer runs once for every call that
    finds the allocation counter at 0: after [n] calls from the initial
    state it has run [(n + 7) / 8] times. *)
Lemma wio_new_all_timer_starts args : forall st,
  table_ok st ->
  exists hs st',
    wio_new_all args st = Some (hs, st') /\
    Z.of_nat (xtimer_starts st') =
      Z.of_nat (xtimer_starts st)
      + (wio_inst_count st + Z.of_nat (length args) + 7) / 8
      - (wio_inst_count st + 7) / 8.
Proof.
  induction args as [|[[[[tp tb] rp] rb] rl] rest IH]; intros st Hok.
  - exists [], st. split; [reflexivity|]. simpl. rewrite Z.add_0_r. lia.
  - destruct (wio_new_spec tp tb rp rb rl st Hok)
      as (old & st1 & _ & Hnew & Hok1 & Hcnt1 & Hst1 & _ & _).
    destruct (IH st1 Hok1) as (hs & st2 & Hall & Hst2).
    exists (wio_inst_count st :: hs), st2. simpl length.
    split; [simpl; by rewrite Hnew, Hall|].
    rewrite Hst2, Hst1, Hcnt1. destruct Hok as [_ Hc].
    unfold WIO_INST_COUNT in *.
    assert (Hcases : wio_inst_count st = 0 \/ wio_inst_count st = 1 \/
                     wio_inst_count st = 2 \/ wio_inst_count st = 3 \/
                     wio_inst_count st = 4 \/ wio_inst_count st = 5 \/
                     wio_inst_count st = 6 \/ wio_inst_count st = 7) by lia.
    destruct Hcases as [E|[E|[E|[E|[E|[E|[E|E]]]]]]]; rewrite E;
      simpl (_ =? _); cbv iota;
      change ((0 + 1) mod 8) with 1; change ((1 + 1) mod 8) with 2;
      change ((2 + 1) mod 8) with 3; change ((3 + 1) mod 8) with 4;
      change ((4 + 1) mod 8) with 5; change ((5 + 1) mod 8) with 6;
      change ((6 + 1) mod 8) with 7; change ((7 + 1) mod 8) with 0;
      Z.to_euclidean_division_equations; lia.
Qed.

(** C4. The shared clock is NOT initialised exactly once: for any nine
    calls of the constructor, the timer start-up has run once after the
    first eight, and the ninth call, which finds the allocation counter
    wrapped to 0, runs it a second time. *)
Theorem ninth_wio_new_restarts_timer (m : memory)
    (args : list (Z * Z * Z * Z * Z)) (tp tb rp rb rl : Z) :
  length args = 8%nat ->
  exists hs st h st',
    wio_new_all args (initial_state m) = Some (hs, st) /\
    xtimer_starts st = 1%nat /\
    wio_new tp tb rp rb rl st = Some (h, st') /\
    xtimer_starts st' = 2%nat.
Proof.
  intros Hlen.
  destruct (wio_new_all_spec args (initial_state m) (table_ok_initial m))
    as (hs & st & Hall & Hok & Hcnt & _ & _ & _).
  destruct (wio_new_all_timer_starts args (initial_state m) (table_ok_initial m))
    as (hs' & st0 & Hall' & Hst).
  rewrite Hall in Hall'. injection Hall' as <- <-.
  rewrite Hlen in Hcnt, Hst.
  assert (H1 : xtimer_starts st = 1%nat).
  { apply Nat2Z.inj. rewrite Hst. reflexivity. }
  assert (H0 : wio_inst_count st = 0) by (rewrite Hcnt; reflexivity).
  destruct (wio_new_spec tp tb rp rb rl st Hok)
    as (old & st' & _ & Hnew & _ & _ & Hst' & _ & _).
  rewrite H0 in Hst'. simpl in Hst'.
  exists hs, st, (wio_inst_count st), st'.
  split; [exact Hall|]. split; [exact H1|]. split; [exact Hnew|]. lia.
Qed.

Lemma ninth_wio_new_restarts_timer_witness :
  length (replicate 8 (0, 1, 2, 2, 16)) = 8%nat /\
  exists hs st h st',
    wio_new_all (replicate 8 (0, 1, 2, 2, 16)) (initial_state ∅)
      = Some (hs, st) /\
    xtimer_starts st = 1%nat /\
    wio_new 0 1 2 2 16 st = Some (h, st') /\
    xtimer_starts st' = 2%nat.
Proof.
  split; [reflexivity|].
  apply (ninth_wio_new_restarts_timer ∅ (replicate 8 (0, 1, 2, 2, 16))
           0 1 2 2 16).
  reflexivity.
Defined.

(** The claim of C5 fails on nine calls from the initial state: the ninth
    returns the handle 0. *)
Lemma ninth_wio_new_returns_a_handle :
  fst <$> wio_new_all (replicate 9 (0, 1, 2, 2, 16)) (initial_state ∅)
  = Some [0; 1; 2; 3; 4; 5; 6; 7; 0].
Proof. vm_compute. reflexivity. Qed.

(** C5, amended. Construction never fails: a call made after eight or more
    instances have been allocated returns a handle in [[0, 8)] that an
    earlier call has already returned, and reuses that slot. *)
Theorem wio_new_after_exhaustion (m : memory)
    (args : list (Z * Z * Z * Z * Z)) (tp tb rp rb rl : Z) :
  (8 <= length args)%nat ->
  exists hs st h st' old,
    wio_new_all args (initial_state m) = Some (hs, st) /\
    wio_new tp tb rp rb rl st = Some (h, st') /\
    0 <= h < WIO_INST_COUNT /\
    h ∈ hs /\
    get_inst st h = Some old /\
    get_inst st' h = Some (constructed tp tb rp rb rl old).
Proof.
  intros Hlen.
  destruct (wio_new_handle_wraps_aux m args tp tb rp rb rl)
    as (hs & st & old & st' & Hall & Hhs & Hh & Hold & Hnew & Hget).
  exists hs, st, (Z.of_nat (length args) mod WIO_INST_COUNT), st', old.
  repeat split; try done; try apply Hh.
  apply list_elem_of_lookup. exists (length args - 8)%nat.
  rewrite Hhs by lia. f_equal.
  replace (Z.of_nat (length args - 8))
    with (Z.of_nat (length args) + (-1) * WIO_INST_COUNT)
    by (unfold WIO_INST_COUNT; lia).
  apply Z.mod_add. unfold WIO_INST_COUNT. lia.
Qed.

Lemma wio_new_after_exhaustion_witness :
  (8 <= length (replicate 8 (0, 1, 2, 2, 16)))%nat /\
  exists hs st h st' old,
    wio_new_all (replicate 8 (0, 1, 2, 2, 16)) (initial_state ∅)
      = Some (hs, st) /\
    wio_new 4 11 6 12 32 st = Some (h, st') /\
    0 <= h < WIO_INST_COUNT /\
    h ∈ hs /\
    get_inst st h = Some old /\
    get_inst st' h = Some (constructed 4 11 6 12 32 old).
Proof.
  split; [simpl; lia|].
  apply (wio_new_after_exhaustion ∅ (replicate 8 (0, 1, 2, 2, 16))
           4 11 6 12 32).
  simpl; lia.
Defined.

(** ** The receive ring *)

(** C8. [wio_rx_reset] is idempotent and lazy: on a valid handle it returns,
    a second call changes nothing more, the receive cursor is 0 after either
    call, and the memory, hence every entry of [rx_buffer], is unchanged. *)
Theorem wio_rx_reset_idempotent (self_id : Z) (st : state)
    (slot : wio_inst_type) :
  get_inst st self_id = Some slot ->
  exists st1,
    wio_rx_reset self_id st = Some st1 /\
    wio_rx_reset self_id st1 = Some st1 /\
    wio_rx_cursor self_id st1 = Some 0 /\
    mem st1 = mem st /\
    get_inst st1 self_id = Some (set_rx_buffer_cur 0 slot).
Proof.
  intros Hslot. exists (set_inst self_id (set_rx_buffer_cur 0 slot) st).
  assert (Hget : get_inst (set_inst self_id (set_rx_buffer_cur 0 slot) st)
                   self_id = Some (set_rx_buffer_cur 0 slot)).
  { erewrite get_inst_set_inst by exact Hslot. by rewrite decide_True. }
  unfold wio_rx_reset, wio_rx_cursor, update_inst.
  rewrite Hslot, Hget. simpl. rewrite set_inst_twice.
  repeat split; reflexivity.
Qed.

Lemma wio_rx_reset_idempotent_witness :
  get_inst reset_st 0 = Some (demo_slot reset_st) /\
  rx_buffer_cur (demo_slot reset_st) = 3 /\
  mem reset_st !! rx_buffer (demo_slot reset_st) = Some [100; 200; 100; 0] /\
  exists st1,
    wio_rx_reset 0 reset_st = Some st1 /\
    wio_rx_reset 0 st1 = Some st1 /\
    wio_rx_cursor 0 st1 = Some 0 /\
    mem st1 = mem reset_st /\
    get_inst st1 0 = Some (set_rx_buffer_cur 0 (demo_slot reset_st)).
Proof.
  assert (H1 : get_inst reset_st 0 = Some (demo_slot reset_st))
    by (vm_compute; reflexivity).
  assert (H2 : rx_buffer_cur (demo_slot reset_st) = 3)
    by (vm_compute; reflexivity).
  assert (H3 : mem reset_st !! rx_buffer (demo_slot reset_st)
               = Some [100; 200; 100; 0]) by (vm_compute; reflexivity).
  repeat (split; [assumption|]).
  exact (wio_rx_reset_idempotent 0 reset_st (demo_slot reset_st) H1).
Defined.

(** The transmit half of an iteration writes transmit fields only. *)
Lemma handle_tx_frame now self m gs self1 gs1 :
  handle_tx now self m gs = Some (self1, gs1) ->
  tx_buffer self1 = tx_buffer self /\
  tx_buffer_len self1 = tx_buffer_len self /\
  tx_pin self1 = tx_pin self /\
  rx_buffer self1 = rx_buffer self /\
  rx_buffer_cur self1 = rx_buffer_cur self /\
  rx_buffer_len self1 = rx_buffer_len self /\
  rx_last_time self1 = rx_last_time self /\
  rx_pin self1 = rx_pin self /\
  main_loop_running self1 = main_loop_running self.
Proof.
  unfold handle_tx. intros H.
  repeat case_match; simplify_eq; simpl; repeat split; reflexivity.
Qed.

Lemma land_1_mod_2 (a : Z) : Z.land a 1 = a mod 2.
Proof. change 1 with (Z.ones 1). apply Z.land_ones. lia. Qed.

(** For a pin level 0 or 1, the test of the receive half sees an edge
    exactly when the level differs from the parity of the cursor. *)
Lemma rx_edge_level (level : Z) (self : wio_inst_type) :
  level = 0 \/ level = 1 ->
  (rx_edge level self = true <-> rx_buffer_cur self mod 2 <> level).
Proof.
  intros Hl. unfold rx_edge. rewrite land_1_mod_2.
  assert (Hu : u32 level = level).
  { unfold u32, wrap32. apply Z.mod_small. lia. }
  rewrite Hu.
  assert (Hm : rx_buffer_cur self mod 2 = 0 \/ rx_buffer_cur self mod 2 = 1).
  { pose proof (Z.mod_pos_bound (rx_buffer_cur self) 2). lia. }
  destruct Hm as [-> | ->], Hl as [-> | ->]; simpl; split; intros; try done.
Qed.

(** C7. Receive recording step. In an iteration whose transmit half has run
    (to [self1], [gs1]), the receive half works on the receive fields the
    iteration started with. An edge is detected exactly when
    [(rx_buffer_cur & 1) ^ current_rx] is non-zero. When one is detected and
    the cursor lies inside the receive buffer, the iteration returns with
    - the word [rx_buffer[rx_buffer_cur]] equal to
      [u32 (now - rx_last_time)], every other word of the buffer and every
      other block of the memory unchanged,
    - the field [rx_buffer_cur] equal to
      [(rx_buffer_cur + 1) mod rx_buffer_len],
    - the field [rx_last_time] equal to [now],
    and the buffer handle, the capacity, the pin and all transmit fields as
    the transmit half left them. When none is detected, the memory and all
    receive fields are unchanged. *)
Theorem rx_recording_step (now rx : Z) (self self1 : wio_inst_type)
    (m : memory) (gs gs1 : gpio_state) (l : list Z) :
  handle_tx now self m gs = Some (self1, gs1) ->
  m !! rx_buffer self = Some l ->
  0 <= rx_buffer_cur self < rx_buffer_len self ->
  rx_buffer_len self <= Z.of_nat (length l) ->
  rx_buffer_len self < wrap32 ->
  (rx_edge rx self = true <->
     Z.lxor (Z.land (rx_buffer_cur self) 1) (u32 rx) <> 0) /\
  (rx_edge rx self = true ->
     exists self2 m2,
       wio_loop_body now rx self m gs = Some (self2, m2, gs1) /\
       self2 = set_rx_last_time now
                 (set_rx_buffer_cur
                    ((rx_buffer_cur self + 1) mod rx_buffer_len self) self1) /\
       m2 = <[rx_buffer self :=
                <[Z.to_nat (rx_buffer_cur self) :=
                    u32 (now - rx_last_time self)]> l]> m /\
       rx_buffer_cur self2
         = (rx_buffer_cur self + 1) mod rx_buffer_len self /\
       rx_last_time self2 = now /\
       load m2 (rx_buffer self) (rx_buffer_cur self)
         = Some (u32 (now - rx_last_time self)) /\
       (forall i, i <> rx_buffer_cur self ->
          load m2 (rx_buffer self) i = load m (rx_buffer self) i) /\
       (forall p, p <> rx_buffer self -> m2 !! p = m !! p) /\
       rx_buffer self2 = rx_buffer self /\
       rx_buffer_len self2 = rx_buffer_len self /\
       rx_pin self2 = rx_pin self /\
       tx_same self1 self2) /\
  (rx_edge rx self = false ->
     wio_loop_body now rx self m gs = Some (self1, m, gs1) /\
     rx_buffer self1 = rx_buffer self /\
     rx_buffer_cur self1 = rx_buffer_cur self /\
     rx_buffer_len self1 = rx_buffer_len self /\
     rx_last_time self1 = rx_last_time self /\
     rx_pin self1 = rx_pin self).
Proof.
  intros Htx Hl Hcur Hlen Hw.
  destruct (handle_tx_frame _ _ _ _ _ _ Htx)
    as (_ & _ & _ & Hb & Hc & Hn & Ht & Hp & _).
  assert (Hedge : rx_edge rx self1 = rx_edge rx self).
  { unfold rx_edge. by rewrite Hc. }
  split; [|split].
  - unfold rx_edge. rewrite negb_true_iff, Z.eqb_neq. reflexivity.
  - intros He. eexists _, _. split.
    { unfold wio_loop_body. rewrite Htx.
      unfold handle_rx. rewrite Hedge, He, Hb, Hc, Hn, Ht.
      unfold store. rewrite Hl.
      destruct (0 <=? rx_buffer_cur self) eqn:E1; [|lia].
      destruct (rx_buffer_cur self <? Z.of_nat (length l)) eqn:E2; [|lia].
      simpl. destruct (rx_buffer_len self =? 0) eqn:E3; [lia|].
      assert (Hu : u32 (rx_buffer_cur self + 1) = rx_buffer_cur self + 1).
      { unfold u32. apply Z.mod_small. lia. }
      rewrite Hu. reflexivity. }
    split; [reflexivity|]. split; [reflexivity|].
    split; [reflexivity|]. split; [reflexivity|].
    split.
    { unfold load. rewrite lookup_insert_eq.
      destruct (0 <=? rx_buffer_cur self) eqn:E1; [|lia].
      apply list_lookup_insert_eq. lia. }
    split.
    { intros i Hi. unfold load. rewrite lookup_insert_eq, Hl.
      destruct (0 <=? i) eqn:E1; [|reflexivity].
      apply list_lookup_insert_ne. lia. }
    split; [intros p Hp'; by rewrite lookup_insert_ne|].
    split; [exact Hb|]. split; [exact Hn|]. split; [exact Hp|].
    unfold tx_same. simpl. repeat split.
  - intros He. unfold wio_loop_body. rewrite Htx.
    unfold handle_rx. rewrite Hedge, He. done.
Qed.

(** ** Cursor bounds *)

Lemma u32_range z : 0 <= u32 z < wrap32.
Proof. unfold u32. apply Z.mod_pos_bound. reflexivity. Qed.

Lemma u32_small z : 0 <= z < wrap32 -> u32 z = z.
Proof. unfold u32. apply Z.mod_small. Qed.

Lemma wrap32_pos : 0 < wrap32.
Proof. reflexivity. Qed.

Lemma handle_tx_cursor now self m gs self1 gs1 :
  handle_tx now self m gs = Some (self1, gs1) ->
  0 <= tx_buffer_cur self <= tx_buffer_len self ->
  tx_buffer_len self < wrap32 ->
  0 <= tx_buffer_cur self1 <= tx_buffer_len self1.
Proof.
  intros H Hc Hl. destruct (handle_tx_frame _ _ _ _ _ _ H) as (_ & Hlen & _).
  rewrite Hlen. revert H. unfold handle_tx.
  destruct (tx_buffer_cur self =? tx_buffer_len self) eqn:E.
  { intros; simplify_eq. lia. }
  apply Z.eqb_neq in E.
  repeat case_match; intros; simplify_eq; simpl in *;
    try rewrite u32_small; lia.
Qed.

Lemma handle_rx_cursor now rx self m self1 m1 :
  handle_rx now rx self m = Some (self1, m1) ->
  0 <= rx_buffer_cur self < rx_buffer_len self ->
  rx_buffer_len self < wrap32 ->
  tx_buffer_cur self1 = tx_buffer_cur self /\
  tx_buffer_len self1 = tx_buffer_len self /\
  rx_buffer_len self1 = rx_buffer_len self /\
  rx_buffer_cur self1 =
    (if rx_edge rx self
     then (rx_buffer_cur self + 1) mod rx_buffer_len self
     else rx_buffer_cur self) /\
  0 <= rx_buffer_cur self1 < rx_buffer_len self.
Proof.
  unfold handle_rx. intros H Hc Hl.
  destruct (rx_edge rx self).
  - repeat case_match; simplify_eq. simpl.
    rewrite u32_small by lia.
    repeat split; try reflexivity; apply Z.mod_pos_bound; lia.
  - simplify_eq. repeat split; try reflexivity; lia.
Qed.

Lemma wio_loop_body_cursor now rx self m gs self' m' gs' :
  wio_loop_body now rx self m gs = Some (self', m', gs') ->
  cursor_ok self ->
  cursor_ok self' /\
  rx_buffer_len self' = rx_buffer_len self /\
  rx_buffer_cur self' =
    (if rx_edge rx self
     then (rx_buffer_cur self + 1) mod rx_buffer_len self
     else rx_buffer_cur self).
Proof.
  unfold wio_loop_body. intros H [[Htc Htl] [Hrc Hrl]].
  destruct (handle_tx now self m gs) as [[self1 gs1]|] eqn:Htx; [|done].
  destruct (handle_rx now rx self1 m) as [[self2 m2]|] eqn:Hrx; [|done].
  simplify_eq.
  pose proof (handle_tx_cursor _ _ _ _ _ _ Htx Htc Htl) as Htc1.
  destruct (handle_tx_frame _ _ _ _ _ _ Htx)
    as (_ & Hlen & _ & _ & Hc & Hn & _).
  assert (Hedge : rx_edge rx self1 = rx_edge rx self).
  { unfold rx_edge. by rewrite Hc. }
  destruct (handle_rx_cursor _ _ _ _ _ _ Hrx) as (Ha & Hb & Hd & He & Hf).
  { rewrite Hc, Hn. exact Hrc. }
  { rewrite Hn. exact Hrl. }
  rewrite Hedge, Hc, Hn in He. rewrite Hn in Hf, Hd.
  unfold cursor_ok. rewrite Ha, Hb, Hd, He. rewrite Hlen in *.
  repeat split; try lia; try (rewrite <- He; lia).
Qed.

Lemma step_cursor_ok ev st st' h slot :
  step ev st = Some st' ->
  event_ok ev = true ->
  get_inst st h = Some slot ->
  cursor_ok slot ->
  exists slot', get_inst st' h = Some slot' /\ cursor_ok slot'.
Proof.
  intros Hstep Hev Hget Hok.
  destruct ev as [tp tb rp rb rl | i | i now rx | i | i n | i]; simpl in *.
  - unfold wio_new in Hstep.
    destruct (get_inst st (s32 (wio_inst_count st))) as [old|] eqn:Hold;
      [|done]. simpl in Hstep. simplify_eq.
    erewrite get_inst_put by exact Hold.
    case_decide as Hd; [|eauto]. eexists; split; [reflexivity|].
    apply Z.ltb_lt in Hev. pose proof (u32_range rl).
    unfold cursor_ok; simpl. pose proof wrap32_pos. lia.
  - unfold wio_enable in Hstep.
    destruct (get_inst st i) as [self|] eqn:Hself; [|done].
    destruct (negb (main_loop_running self =? 0)); simpl in Hstep;
      simplify_eq; [eauto|].
    erewrite get_inst_set_inst by exact Hself.
    case_decide as Hd; [|eauto]. subst i. simplify_eq. eauto.
  - unfold wio_loop_iter in Hstep.
    destruct (get_inst st i) as [self|] eqn:Hself; [|done].
    destruct (main_loop_running self =? 0); [simplify_eq; eauto|].
    destruct (wio_loop_body now rx self (mem st) (gpio st))
      as [[[self' m'] gs']|] eqn:Hbody; [|done]. simplify_eq.
    erewrite get_inst_put by exact Hself.
    case_decide as Hd; [|eauto]. subst i. simplify_eq.
    eexists; split; [reflexivity|].
    by destruct (wio_loop_body_cursor _ _ _ _ _ _ _ _ Hbody Hok).
  - unfold wio_disable, update_inst in Hstep.
    destruct (get_inst st i) as [self|] eqn:Hself; [|done]. simplify_eq.
    erewrite get_inst_set_inst by exact Hself.
    case_decide as Hd; [|eauto]. subst i. simplify_eq. eauto.
  - unfold wio_tx_start, update_inst in Hstep.
    destruct (get_inst st i) as [self|] eqn:Hself; [|done]. simplify_eq.
    erewrite get_inst_set_inst by exact Hself.
    case_decide as Hd; [|eauto]. subst i. simplify_eq.
    eexists; split; [reflexivity|].
    destruct Hok as [_ Hrx]. pose proof (u32_range n).
    unfold cursor_ok; simpl. lia.
  - unfold wio_rx_reset, update_inst in Hstep.
    destruct (get_inst st i) as [self|] eqn:Hself; [|done]. simplify_eq.
    erewrite get_inst_set_inst by exact Hself.
    case_decide as Hd; [|eauto]. subst i. simplify_eq.
    eexists; split; [reflexivity|].
    destruct Hok as [Htx Hrx]. unfold cursor_ok; simpl. lia.
Qed.

Lemma run_cursor_ok evs : forall st st' h slot,
  run evs st = Some st' ->
  forallb event_ok evs = true ->
  get_inst st h = Some slot ->
  cursor_ok slot ->
  exists slot', get_inst st' h = Some slot' /\ cursor_ok slot'.
Proof.
  induction evs as [|ev evs IH]; simpl; intros st st' h slot Hrun Hev Hget Hok.
  - simplify_eq. eauto.
  - destruct (step ev st) as [st1|] eqn:Hstep; [|done].
    apply andb_prop in Hev as [Hev1 Hev2].
    destruct (step_cursor_ok _ _ _ _ _ Hstep Hev1 Hget Hok) as (slot1 & Hg1 & Hok1).
    eauto.
Qed.

(** C3. Cursor bounds. Take the instance [h] returned by a constructor call
    with a positive receive capacity, and any execution after it made of
    loop iterations, [wio_tx_start], [wio_rx_reset], [wio_enable],
    [wio_disable] and further constructor calls with positive capacity, on
    any instances and in any order. In the state reached,
    [0 <= tx_buffer_cur <= tx_buffer_len] and
    [0 <= rx_buffer_cur < rx_buffer_len] hold for [h], and a further loop
    iteration of [h] moves the receive cursor to
    [(rx_buffer_cur + 1) mod rx_buffer_len] when it records an edge and
    leaves it in place otherwise. *)
Theorem cursor_bounds_invariant (st0 st1 st : state) (tp tb rp rb rl h : Z)
    (evs : list event) :
  wio_new tp tb rp rb rl st0 = Some (h, st1) ->
  0 < u32 rl ->
  forallb event_ok evs = true ->
  run evs st1 = Some st ->
  exists slot,
    get_inst st h = Some slot /\
    0 <= tx_buffer_cur slot <= tx_buffer_len slot /\
    0 <= rx_buffer_cur slot < rx_buffer_len slot /\
    (forall now rx st2,
       wio_loop_iter h now rx st = Some st2 ->
       exists slot2,
         get_inst st2 h = Some slot2 /\
         rx_buffer_len slot2 = rx_buffer_len slot /\
         rx_buffer_cur slot2 =
           if negb (main_loop_running slot =? 0) && rx_edge rx slot
           then (rx_buffer_cur slot + 1) mod rx_buffer_len slot
           else rx_buffer_cur slot).
Proof.
  intros Hnew Hrl Hev Hrun.
  assert (Hinit : exists slot1, get_inst st1 h = Some slot1 /\ cursor_ok slot1).
  { unfold wio_new in Hnew.
    destruct (get_inst st0 (s32 (wio_inst_count st0))) as [old|] eqn:Hold;
      [|done].
    simplify_eq. erewrite get_inst_put by exact Hold.
    rewrite decide_True by done. eexists; split; [reflexivity|].
    pose proof (u32_range rl). pose proof wrap32_pos.
    unfold cursor_ok; simpl. lia. }
  destruct Hinit as (slot1 & Hget1 & Hok1).
  destruct (run_cursor_ok _ _ _ _ _ Hrun Hev Hget1 Hok1) as (slot & Hget & Hok).
  exists slot. split; [exact Hget|].
  split; [apply Hok|]. split; [apply Hok|].
  intros now rx st2 Hiter. unfold wio_loop_iter in Hiter. rewrite Hget in Hiter.
  destruct (main_loop_running slot =? 0); simpl.
  { simplify_eq. eauto. }
  destruct (wio_loop_body now rx slot (mem st) (gpio st))
    as [[[self' m'] gs']|] eqn:Hbody; [|done]. simplify_eq.
  erewrite get_inst_put by exact Hget. rewrite decide_True by done.
  eexists; split; [reflexivity|].
  destruct (wio_loop_body_cursor _ _ _ _ _ _ _ _ Hbody Hok) as (_ & Hl & Hc).
  split; [exact Hl | exact Hc].
Qed.

(** ** Transmit timing *)

(** Waiting: a sample before the scheduled time fires nothing. *)
Lemma handle_tx_wait t sp s t' self m gs :
  pending t sp s self ->
  t <= t' < s ->
  exists self1,
    handle_tx (u32 t') self m gs = Some (self1, gs) /\
    pending t' sp s self1 /\
    tx_buffer_cur self1 = tx_buffer_cur self.
Proof.
  intros (Ht & Hs & HT & HW & Hcur & Hlen) Ht'.
  pose proof (u32_range t') as Hrt'.
  unfold handle_tx.
  destruct (tx_buffer_cur self =? tx_buffer_len self) eqn:E1; [lia|].
  destruct (tx_buffer_cur self =? 0) eqn:E2; [lia|].
  destruct (u32 t' <? tx_await_wrap self) eqn:E3; simpl.
  - assert (Hno : (tx_target_time self <=? u32 t') = false).
    { rewrite HT. apply Z.leb_gt.
      destruct HW as [[HW Hp] | (HW & Hsp & Hp & Hps)]; [lia|].
      rewrite HW in E3. apply Z.ltb_lt in E3. clear - Ht Hs Ht' E3 Hp Hps.
      tlia. }
    rewrite Hno. eexists; split; [reflexivity|]. split; [|reflexivity].
    unfold pending; simpl. repeat split; try lia.
    left. split; [reflexivity|].
    destruct HW as [[HW Hp] | (HW & Hsp & Hp & Hps)]; [lia|].
    rewrite HW in E3. apply Z.ltb_lt in E3. clear - Ht Hs Ht' E3 Hp Hps.
    tlia.
  - apply Z.ltb_ge in E3.
    destruct HW as [[HW Hp] | (HW & Hsp & Hp & Hps)].
    + rewrite HW. simpl.
      assert (Hno : (tx_target_time self <=? u32 t') = false).
      { rewrite HT. apply Z.leb_gt. clear - Ht Hs Ht' Hp. tlia. }
      rewrite Hno. eexists; split; [reflexivity|]. split; [|reflexivity].
      unfold pending. repeat split; try lia.
      left. split; [exact HW|]. clear - Ht Hs Ht' Hp. tlia.
    + assert (Hw : (tx_await_wrap self =? 0) = false) by lia.
      rewrite Hw. simpl. eexists; split; [reflexivity|].
      split; [|reflexivity].
      unfold pending. repeat split; try lia.
      right. repeat split; try done.
      rewrite HW in E3. clear - Ht Hs Ht' E3 Hp Hps. tlia.
Qed.

Lemma u32_add_l a b : u32 (u32 a + b) = u32 (a + b).
Proof. unfold u32. apply Zplus_mod_idemp_l. Qed.

(** Firing: a sample at or after the scheduled time, in its period and
    before the reading comes back to the guard, fires the transition. *)
Lemma handle_tx_fire t sp s t' self m gs v :
  pending t sp s self ->
  s <= t' -> period t' = period s ->
  tx_await_wrap self = 0 \/ t' < sp + wrap32 ->
  load m (tx_buffer self) (tx_buffer_cur self) = Some v ->
  handle_tx (u32 t') self m gs =
    Some (fired s v self,
          gpio_write (tx_pin self) (tx_level (tx_buffer_cur self)) gs).
Proof.
  intros (Ht & Hs & HT & HW & Hcur & Hlen) Ht' Hp' Hwin Hv.
  pose proof (u32_range t') as Hrt'.
  assert (Hdue : (u32 s <=? u32 t') = true).
  { apply Z.leb_le. clear - Ht' Hp'. tlia. }
  assert (Hclear : (if u32 t' <? tx_await_wrap self then 0
                    else tx_await_wrap self) = 0).
  { destruct (u32 t' <? tx_await_wrap self) eqn:E3; [reflexivity|].
    apply Z.ltb_ge in E3.
    destruct HW as [[HW Hp] | (HW & Hsp & Hp & Hps)]; [exact HW|].
    destruct Hwin as [Hw | Hw]; [exact Hw|].
    rewrite HW in E3. exfalso. clear - Ht Hs Ht' Hp' E3 Hp Hps Hw. tlia. }
  unfold handle_tx.
  destruct (tx_buffer_cur self =? tx_buffer_len self) eqn:E1; [lia|].
  destruct (tx_buffer_cur self =? 0) eqn:E2; [lia|].
  destruct (u32 t' <? tx_await_wrap self) eqn:E3; simpl.
  - rewrite HT, Hdue, Hv. simpl. unfold fired, tx_level.
    rewrite u32_add_l. rewrite (u32_small (tx_buffer_cur self + 1)) by lia.
    destruct self; simpl in *.
    destruct (u32 s <=? u32 (s + v)); reflexivity.
  - rewrite Hclear. simpl. rewrite HT, Hdue, Hv. simpl. unfold fired, tx_level.
    rewrite u32_add_l. rewrite (u32_small (tx_buffer_cur self + 1)) by lia.
    destruct self; simpl in *.
    destruct (u32 s <=? u32 (s + v)); reflexivity.
Qed.

(** The first iteration after [wio_tx_start] fires at once, whatever the
    counter reads. *)
Lemma handle_tx_first t' self m gs v :
  tx_buffer_cur self = 0 ->
  0 < tx_buffer_len self ->
  load m (tx_buffer self) 0 = Some v ->
  handle_tx (u32 t') self m gs =
    Some (fired t' v self, gpio_write (tx_pin self) (tx_level 0) gs).
Proof.
  intros Hcur Hlen Hv. pose proof (u32_range t') as Hrt'.
  unfold handle_tx. rewrite Hcur.
  destruct (0 =? tx_buffer_len self) eqn:E1; [lia|]. simpl.
  destruct (u32 t' <? 0) eqn:E3; [lia|]. simpl.
  rewrite Z.leb_refl, Hcur, Hv. simpl. unfold fired, tx_level.
  rewrite u32_add_l, Hcur. destruct self; simpl in *.
  destruct (u32 t' <=? u32 (t' + v)); reflexivity.
Qed.

(** After a transition fired in the period of its scheduled time, the
    transmit half waits for the next one. *)
Lemma fired_pending s v t' self :
  s <= t' < s + v -> v < wrap32 -> period t' = period s ->
  0 <= tx_buffer_cur self ->
  tx_buffer_cur self + 1 < tx_buffer_len self ->
  tx_buffer_len self < wrap32 ->
  pending t' s (s + v) (fired s v self).
Proof.
  intros Ht' Hv Hp Hc Hn Hl. unfold pending, fired. simpl.
  split; [lia|]. split; [lia|]. split; [reflexivity|].
  split; [|lia].
  destruct (u32 s <=? u32 (s + v)) eqn:E.
  - left. split; [reflexivity|]. apply Z.leb_le in E.
    clear - Ht' Hv Hp E. tlia.
  - right. apply Z.leb_gt in E. split; [reflexivity|].
    clear - Ht' Hv Hp E. repeat split; tlia.
Qed.

Lemma pending_ext t sp s a b :
  pending t sp s a ->
  tx_target_time b = tx_target_time a ->
  tx_await_wrap b = tx_await_wrap a ->
  tx_buffer_cur b = tx_buffer_cur a ->
  tx_buffer_len b = tx_buffer_len a ->
  pending t sp s b.
Proof. unfold pending. intros H -> -> -> ->. exact H. Qed.

(** *** The receive half, seen from the transmit half *)

Lemma mem_ext_refl p m : mem_ext p m m.
Proof. split; [done|]. intros l Hl. eauto. Qed.

Lemma mem_ext_trans p m1 m2 m3 :
  mem_ext p m1 m2 -> mem_ext p m2 m3 -> mem_ext p m1 m3.
Proof.
  intros [H1 H1'] [H2 H2']. split.
  - intros q Hq. rewrite H2, H1; done.
  - intros l Hl. destruct (H1' l Hl) as (l2 & Hl2 & Hn2).
    destruct (H2' l2 Hl2) as (l3 & Hl3 & Hn3). exists l3. split; [done|].
    congruence.
Qed.

Lemma handle_rx_safe now rx self m :
  rx_safe self m ->
  exists self2 m2,
    handle_rx now rx self m = Some (self2, m2) /\
    tx_same self self2 /\ rx_safe self2 m2 /\
    mem_ext (rx_buffer self) m m2.
Proof.
  intros (lr & Hlr & Hcur & Hlen & Hw). unfold handle_rx.
  destruct (rx_edge rx self).
  - unfold store. rewrite Hlr.
    destruct (0 <=? rx_buffer_cur self) eqn:E1; [|lia].
    destruct (rx_buffer_cur self <? Z.of_nat (length lr)) eqn:E2; [|lia].
    simpl. destruct (rx_buffer_len self =? 0) eqn:E3; [lia|].
    eexists _, _. split; [reflexivity|]. split; [|split].
    + unfold tx_same; simpl. repeat split.
    + eexists. simpl. split; [apply lookup_insert_eq|].
      rewrite length_insert. split; [|split; [exact Hlen | exact Hw]].
      apply Z.mod_pos_bound. lia.
    + split.
      * intros q Hq. by rewrite lookup_insert_ne.
      * intros l Hl. eexists. split; [apply lookup_insert_eq|].
        rewrite length_insert. congruence.
  - exists self, m. split; [reflexivity|]. split; [|split].
    + unfold tx_same. repeat split.
    + exists lr. done.
    + apply mem_ext_refl.
Qed.

Lemma tx_safe_ext self self' m m' :
  tx_safe self m ->
  tx_buffer self' = tx_buffer self ->
  tx_buffer_len self' = tx_buffer_len self ->
  mem_ext (rx_buffer self) m m' ->
  tx_safe self' m'.
Proof.
  intros (lt & Hlt & Hlen) Hb Hl [Hne Heq]. unfold tx_safe. rewrite Hb, Hl.
  destruct (decide (tx_buffer self = rx_buffer self)) as [E|E].
  - rewrite E in *. destruct (Heq lt Hlt) as (l' & Hl' & Hn).
    exists l'. split; [exact Hl'|]. lia.
  - exists lt. split; [|exact Hlen]. rewrite Hne; done.
Qed.

Lemma tx_safe_load self m i :
  tx_safe self m -> 0 <= i < tx_buffer_len self ->
  is_Some (load m (tx_buffer self) i).
Proof.
  intros (lt & Hlt & Hlen) Hi. unfold load. rewrite Hlt.
  destruct (0 <=? i) eqn:E; [|lia]. apply lookup_lt_is_Some. lia.
Qed.

Lemma stable_refl a : stable a a.
Proof. unfold stable. repeat split. Qed.

Lemma stable_trans a b c : stable a b -> stable b c -> stable a c.
Proof. unfold stable. intros (?&?&?&?&?) (?&?&?&?&?). repeat split; congruence. Qed.

(** An iteration whose transmit half is known. *)
Lemma wio_loop_body_of_tx now rx self m gs self1 gs1 :
  handle_tx now self m gs = Some (self1, gs1) ->
  rx_safe self m ->
  exists self2 m2,
    wio_loop_body now rx self m gs = Some (self2, m2, gs1) /\
    tx_same self1 self2 /\ stable self self2 /\
    rx_safe self2 m2 /\ mem_ext (rx_buffer self) m m2.
Proof.
  intros Htx (lr & Hlr & Hcur & Hlen & Hw).
  destruct (handle_tx_frame _ _ _ _ _ _ Htx)
    as (Hb & Hl & Hp & Hrb & Hrc & Hrl & _ & _ & Hf).
  assert (Hsafe1 : rx_safe self1 m).
  { exists lr. rewrite Hrb, Hrc, Hrl. done. }
  destruct (handle_rx_safe now rx self1 m Hsafe1)
    as (self2 & m2 & Hrx & Hsame & Hsafe2 & Hext).
  exists self2, m2. unfold wio_loop_body. rewrite Htx, Hrx.
  split; [reflexivity|]. split; [exact Hsame|].
  split; [|split; [exact Hsafe2 | by rewrite <- Hrb]].
  destruct Hsame as (?&?&?&?&?&?&?&?). unfold stable.
  repeat split; congruence.
Qed.

Lemma run_body_app xs ys s :
  run_body (xs ++ ys) s =
  match run_body xs s with
  | Some s' => run_body ys s'
  | None => None
  end.
Proof.
  revert s. induction xs as [|[t rx] xs IH]; intros s; simpl; [done|].
  destruct (wio_loop_body t rx s.1.1 s.1.2 s.2); [apply IH | done].
Qed.

Lemma run_body_cons t rx ts self m gs :
  run_body (readings ((t, rx) :: ts)) (self, m, gs) =
  match wio_loop_body (u32 t) rx self m gs with
  | Some s' => run_body (readings ts) s'
  | None => None
  end.
Proof. reflexivity. Qed.

Lemma increasing_last t ts : increasing t ts = true -> t <= last_time t ts.
Proof.
  revert t. induction ts as [|[t' rx] ts IH]; intros t H; simpl in *; [lia|].
  apply andb_prop in H as [H1 H2]. specialize (IH _ H2). lia.
Qed.

(** While all samples come before the scheduled time, nothing fires: the
    cursor and the pins stay as they are. *)
Lemma run_wait sp s ts : forall t self m gs,
  pending t sp s self -> rx_safe self m -> tx_safe self m ->
  increasing t ts = true -> all_before s ts = true ->
  exists self' m',
    run_body (readings ts) (self, m, gs) = Some (self', m', gs) /\
    pending (last_time t ts) sp s self' /\
    tx_buffer_cur self' = tx_buffer_cur self /\
    stable self self' /\
    rx_safe self' m' /\ tx_safe self' m' /\
    mem_ext (rx_buffer self) m m'.
Proof.
  induction ts as [|[t' rx] ts IH]; intros t self m gs Hp Hrx Htx Hinc Hbef.
  - exists self, m. simpl.
    split; [reflexivity|]. split; [exact Hp|]. split; [reflexivity|].
    split; [apply stable_refl|]. split; [exact Hrx|]. split; [exact Htx|].
    apply mem_ext_refl.
  - simpl in Hinc, Hbef. apply andb_prop in Hinc as [Hi1 Hi2].
    apply andb_prop in Hbef as [Hb1 Hb2]. simpl in Hb1.
    destruct (handle_tx_wait t sp s t' self m gs Hp) as (self1 & Htx1 & Hp1 & Hc1);
      [lia|].
    destruct (wio_loop_body_of_tx _ rx _ _ _ _ _ Htx1 Hrx)
      as (self2 & m2 & Hbody & Hsame & Hst & Hrx2 & Hext).
    assert (Hp2 : pending t' sp s self2).
    { destruct Hsame as (?&?&?&?&?&?&?&?). eapply pending_ext; eauto. }
    assert (Htx2 : tx_safe self2 m2).
    { destruct Hst as (?&?&?&?&?). eapply tx_safe_ext; eauto. }
    destruct (IH t' self2 m2 gs Hp2 Hrx2 Htx2 Hi2 Hb2)
      as (self' & m' & Hrun & Hp' & Hc' & Hst' & Hrx' & Htx' & Hext').
    exists self', m'. simpl. rewrite Hbody. simpl.
    split; [exact Hrun|]. split; [exact Hp'|].
    split; [destruct Hsame as (?&?&?&?&?&?&?&?); congruence|].
    split; [eapply stable_trans; eauto|].
    split; [exact Hrx'|]. split; [exact Htx'|].
    eapply mem_ext_trans; [exact Hext|].
    destruct Hst as (?&?&?&Hr&?). by rewrite <- Hr.
Qed.

(** *** From one instance to the program state *)

Lemma commit_id i self st :
  get_inst st i = Some self -> commit i (self, mem st, gpio st) st = st.
Proof.
  intros H. unfold commit. simpl. unfold get_inst in H.
  destruct (0 <=? i); [|done]. rewrite list_insert_id by done.
  by destruct st.
Qed.

Lemma run_body_flag inputs : forall s s',
  run_body inputs s = Some s' ->
  main_loop_running s'.1.1 = main_loop_running s.1.1.
Proof.
  induction inputs as [|[t rx] inputs IH]; intros s s' H; simpl in H.
  - by simplify_eq.
  - destruct (wio_loop_body t rx s.1.1 s.1.2 s.2) as [s1|] eqn:Hb; [|done].
    rewrite (IH _ _ H). destruct s1 as [[self1 m1] gs1]. simpl.
    unfold wio_loop_body in Hb.
    destruct (handle_tx t s.1.1 s.1.2 s.2) as [[selfa gsa]|] eqn:Htx; [|done].
    destruct (handle_rx t rx selfa s.1.2) as [[selfb mb]|] eqn:Hrx; [|done].
    simplify_eq.
    destruct (handle_tx_frame _ _ _ _ _ _ Htx) as (_&_&_&_&_&_&_&_&Hf).
    rewrite <- Hf. unfold handle_rx in Hrx.
    repeat case_match; simplify_eq; reflexivity.
Qed.

(** The loop of [wio_enable], with its flag set, is the iterated body. *)
Lemma wio_enable_loop_run inputs : forall st i self s',
  get_inst st i = Some self ->
  main_loop_running self <> 0 ->
  run_body inputs (self, mem st, gpio st) = Some s' ->
  wio_enable_loop inputs i st = Some (commit i s' st).
Proof.
  induction inputs as [|[t rx] inputs IH]; intros st i self s' Hget Hf Hrun;
    simpl in *.
  - simplify_eq. by rewrite (commit_id _ _ _ Hget).
  - destruct (wio_loop_body t rx self (mem st) (gpio st))
      as [[[self1 m1] gs1]|] eqn:Hb; [|done].
    unfold wio_loop_iter. rewrite Hget.
    destruct (main_loop_running self =? 0) eqn:E; [lia|]. rewrite Hb.
    set (st1 := {| wio_inst := <[Z.to_nat i := self1]> (wio_inst st);
                   wio_inst_count := wio_inst_count st;
                   xtimer_starts := xtimer_starts st;
                   mem := m1; gpio := gs1 |}).
    assert (Hget1 : get_inst st1 i = Some self1).
    { unfold st1. erewrite get_inst_put by exact Hget. by rewrite decide_True. }
    assert (Hf1 : main_loop_running self1 <> 0).
    { pose proof (run_body_flag [(t, rx)] (self, mem st, gpio st)
                    (self1, m1, gs1)) as Hfl.
      simpl in Hfl. rewrite Hb in Hfl. rewrite Hfl; done. }
    rewrite (IH st1 i self1 s' Hget1 Hf1 Hrun).
    f_equal. unfold commit, st1. simpl. by rewrite list_insert_insert_eq.
Qed.

Lemma get_inst_commit i s st self :
  get_inst st i = Some self -> get_inst (commit i s st) i = Some s.1.1.
Proof.
  intros H. unfold commit. erewrite get_inst_put by exact H.
  by rewrite decide_True.
Qed.

Lemma inst_safe_spec self m :
  inst_safe self m = true ->
  tx_safe self m /\ rx_safe self m /\
  0 <= tx_buffer_cur self <= tx_buffer_len self /\
  tx_buffer_len self < wrap32.
Proof.
  unfold inst_safe, tx_safe, rx_safe.
  destruct (m !! tx_buffer self) as [lt|]; [|done].
  destruct (m !! rx_buffer self) as [lr|]; [|done].
  intros H. repeat (apply andb_prop in H as [H ?]).
  split; [exists lt; split; [done | lia]|].
  split; [exists lr; split; [done | lia]|]. lia.
Qed.

(** An iteration that moves the cursor has fired a transition. *)
Lemma handle_tx_fired_inv now self m gs self1 gs1 :
  handle_tx now self m gs = Some (self1, gs1) ->
  tx_buffer_cur self1 <> tx_buffer_cur self ->
  due_target now self <= now /\
  exists v,
    load m (tx_buffer self) (tx_buffer_cur self) = Some v /\
    tx_buffer_cur self1 = u32 (tx_buffer_cur self + 1) /\
    tx_target_time self1 = u32 (due_target now self + v) /\
    tx_await_wrap self1 =
      (if due_target now self <=? u32 (due_target now self + v) then 0
       else due_target now self) /\
    gs1 = gpio_write (tx_pin self) (tx_level (tx_buffer_cur self)) gs.
Proof.
  unfold handle_tx, due_target, tx_level. intros H Hne.
  destruct (tx_buffer_cur self =? tx_buffer_len self); [by simplify_eq|].
  destruct (tx_buffer_cur self =? 0) eqn:E0; simpl in H.
  - destruct (now <? 0) eqn:E1; simpl in H;
      destruct (now <=? now) eqn:E2; simpl in H; try (by simplify_eq);
      (destruct (load m (tx_buffer self) (tx_buffer_cur self)) as [v|];
         [|done]);
      (split; [lia|]); exists v; (split; [reflexivity|]);
      destruct (now <=? u32 (now + v)) eqn:E3; simplify_eq; simpl;
      rewrite ?E3; done.
  - destruct (now <? tx_await_wrap self) eqn:E1; simpl in H.
    + destruct (tx_target_time self <=? now) eqn:E2; simpl in H;
        [|by simplify_eq].
      destruct (load m (tx_buffer self) (tx_buffer_cur self)) as [v|];
        [|done].
      split; [lia|]. exists v. split; [reflexivity|].
      destruct (tx_target_time self <=? u32 (tx_target_time self + v)) eqn:E3;
        simplify_eq; simpl; rewrite ?E3; done.
    + destruct ((tx_await_wrap self =? 0) && (tx_target_time self <=? now))
        eqn:E2; [|by simplify_eq].
      apply andb_prop in E2 as [E2 E2'].
      destruct (load m (tx_buffer self) (tx_buffer_cur self)) as [v|];
        [|done].
      split; [lia|]. exists v. split; [reflexivity|].
      destruct (tx_target_time self <=? u32 (tx_target_time self + v)) eqn:E3;
        simplify_eq; simpl; rewrite ?E3; done.
Qed.

Lemma readings_app xs ys : readings (xs ++ ys) = readings xs ++ readings ys.
Proof. unfold readings. apply map_app. Qed.

(** X20. The transmit deadline across a wrap of the counter. Take an iteration,
    sampled at the true time [t0], that fires a transition although adding
    the interval [b = tx_buffer[tx_buffer_cur]] to the target overflows the
    counter, and let [s0 = scheduled t0 self] be the time that transition
    was scheduled at. For samples taken in time order after it:
    - as long as every sample is taken before [s0 + b], no transition
      fires: the cursor and the pins stay as the firing iteration left
      them;
    - the first sample taken at or after [s0 + b] fires the next
      transition, provided it is taken before [s0 + 2^32], that is before
      the counter reads the guard value again.
    The interval may be any value below [2^32]. *)
Theorem wrap_guard_deadline (st st1 : state) (h : Z) (self : wio_inst_type)
    (t0 rx0 b : Z) (ts : list (Z * Z)) :
  get_inst st h = Some self ->
  main_loop_running self <> 0 ->
  inst_safe self (mem st) = true ->
  tx_buffer_cur self + 1 < tx_buffer_len self ->
  load (mem st) (tx_buffer self) (tx_buffer_cur self) = Some b ->
  0 <= b < wrap32 ->
  wio_loop_iter h (u32 t0) rx0 st = Some st1 ->
  (tx_buffer_cur <$> get_inst st1 h) = Some (tx_buffer_cur self + 1) ->
  wrap32 <= due_target (u32 t0) self + b ->
  increasing t0 ts = true ->
  all_before (scheduled t0 self + b) ts = true ->
  (exists st',
     wio_enable_loop (readings ts) h st1 = Some st' /\
     (tx_buffer_cur <$> get_inst st' h) = Some (tx_buffer_cur self + 1) /\
     gpio st' = gpio st1) /\
  (forall t rx,
     last_time t0 ts <= t ->
     scheduled t0 self + b <= t < scheduled t0 self + wrap32 ->
     exists st',
       wio_enable_loop (readings (ts ++ [(t, rx)])) h st1 = Some st' /\
       (tx_buffer_cur <$> get_inst st' h) = Some (tx_buffer_cur self + 2) /\
       gpio_level (gpio st') !! tx_pin self
         = Some (tx_level (tx_buffer_cur self + 1))).
Proof.
  intros Hget Hflag Hsafe Hmore Hb Hbr Hiter Hcur1 Hovf Hinc Hbef.
  destruct (inst_safe_spec _ _ Hsafe) as (Htxs & Hrxs & Hc & Hl).
  (* the firing iteration *)
  unfold wio_loop_iter in Hiter. rewrite Hget in Hiter.
  destruct (main_loop_running self =? 0) eqn:Ef; [lia|].
  destruct (wio_loop_body (u32 t0) rx0 self (mem st) (gpio st))
    as [[[selfB m1] gs1]|] eqn:Hbody; [|done].
  injection Hiter as <-.
  set (st1 := {| wio_inst := <[Z.to_nat h := selfB]> (wio_inst st);
                 wio_inst_count := wio_inst_count st;
                 xtimer_starts := xtimer_starts st;
                 mem := m1; gpio := gs1 |}) in *.
  assert (Hget1 : get_inst st1 h = Some selfB).
  { unfold st1. erewrite get_inst_put by exact Hget. by rewrite decide_True. }
  rewrite Hget1 in Hcur1. simpl in Hcur1.
  injection Hcur1 as HcurB.
  destruct (handle_tx (u32 t0) self (mem st) (gpio st))
    as [[selfA gsA]|] eqn:Htx;
    [|unfold wio_loop_body in Hbody; by rewrite Htx in Hbody].
  destruct (wio_loop_body_of_tx _ rx0 _ _ _ _ _ Htx Hrxs)
    as (self2 & m2 & Hbody2 & Hsame & Hst & Hrx2 & Hext).
  rewrite Hbody in Hbody2. injection Hbody2 as <- <- <-.
  assert (HcurA : tx_buffer_cur selfA = tx_buffer_cur self + 1).
  { destruct Hsame as (_ & Hx & _). congruence. }
  destruct (handle_tx_fired_inv _ _ _ _ _ _ Htx) as (Hdue & v & Hv & _ & HT & HW & Hgs);
    [lia|].
  rewrite Hb in Hv. injection Hv as <-.
  pose proof (u32_range t0) as Hr0.
  set (T := due_target (u32 t0) self) in *.
  set (s0 := scheduled t0 self) in *.
  assert (Hs0 : s0 = t0 - (u32 t0 - T)) by reflexivity.
  assert (HTb : u32 (T + b) = T + b - wrap32).
  { clear - Hovf Hbr Hdue Hr0. tlia. }
  assert (HpA : pending t0 s0 (s0 + b) selfA).
  { unfold pending. rewrite HT, HW, HcurA.
    destruct Hst as (_ & HlenB & _). destruct Hsame as (_ & _ & HlenA & _).
    replace (tx_buffer_len selfA) with (tx_buffer_len self) by congruence.
    split; [lia|]. split; [lia|].
    split; [clear - Hs0 Hdue Hr0 Hovf Hbr; tlia|].
    split; [|lia].
    right. destruct (T <=? u32 (T + b)) eqn:E; [lia|].
    clear - Hs0 Hdue Hr0 Hovf Hbr. repeat split; tlia. }
  assert (HpB : pending t0 s0 (s0 + b) selfB).
  { destruct Hsame as (?&?&?&?&?&?&?&?). eapply pending_ext; eauto. }
  assert (HtxB : tx_safe selfB m1).
  { destruct Hst as (?&?&?&?&?). eapply tx_safe_ext; eauto. }
  assert (HflagB : main_loop_running selfB <> 0).
  { destruct Hst as (_&_&_&_&Hf). by rewrite Hf. }
  (* waiting *)
  destruct (run_wait s0 (s0 + b) ts t0 selfB m1 gs1 HpB Hrx2 HtxB Hinc Hbef)
    as (self' & m' & Hrun & Hp' & Hc' & Hst' & Hrx' & Htx' & Hext').
  split.
  - exists (commit h (self', m', gs1) st1).
    split; [by apply (wio_enable_loop_run _ _ _ selfB)|].
    split; [|reflexivity].
    rewrite (get_inst_commit _ _ _ _ Hget1). simpl. f_equal. lia.
  - intros t rx Hlast Hwin.
    assert (Hload : is_Some (load m' (tx_buffer self') (tx_buffer_cur self'))).
    { apply tx_safe_load; [exact Htx'|]. destruct Hp' as (_&_&_&_&?&_). lia. }
    destruct Hload as [v Hv].
    assert (Hfire := handle_tx_fire _ _ _ t self' m' gs1 v Hp').
    destruct Hp' as (Hp1 & Hp2 & Hp3 & Hp4 & Hp5 & Hp6).
    assert (Hper : period t = period (s0 + b)).
    { clear - Hs0 Hdue Hr0 Hovf Hbr Hwin. tlia. }
    specialize (Hfire ltac:(lia) Hper ltac:(right; lia) Hv).
    destruct (wio_loop_body_of_tx _ rx _ _ _ _ _ Hfire Hrx')
      as (self3 & m3 & Hbody3 & Hsame3 & Hst3 & _ & _).
    exists (commit h (self3, m3,
              gpio_write (tx_pin self') (tx_level (tx_buffer_cur self')) gs1)
              st1).
    split.
    + apply (wio_enable_loop_run _ _ _ selfB); [exact Hget1 | exact HflagB |].
      rewrite readings_app, run_body_app. simpl in Hrun |- *.
      rewrite Hrun. simpl. by rewrite Hbody3.
    + rewrite (get_inst_commit _ _ _ _ Hget1). simpl.
      destruct Hsame3 as (_ & Hx & _). rewrite Hx. unfold fired; simpl.
      split; [f_equal; lia|].
      destruct Hst' as (_&_&Hpin'&_). destruct Hst as (_&_&Hpin&_).
      rewrite Hpin', Hpin, Hc', HcurB. apply lookup_insert_eq.
Qed.

Lemma wrap_guard_deadline_witness :
  get_inst wrap_st 0 = Some (demo_slot wrap_st) /\
  main_loop_running (demo_slot wrap_st) <> 0 /\
  inst_safe (demo_slot wrap_st) (mem wrap_st) = true /\
  tx_buffer_cur (demo_slot wrap_st) + 1 < tx_buffer_len (demo_slot wrap_st) /\
  load (mem wrap_st) (tx_buffer (demo_slot wrap_st))
    (tx_buffer_cur (demo_slot wrap_st)) = Some 4294967293 /\
  0 <= 4294967293 < wrap32 /\
  wio_loop_iter 0 (u32 5) 0 wrap_st = Some wrap_st1 /\
  (tx_buffer_cur <$> get_inst wrap_st1 0)
    = Some (tx_buffer_cur (demo_slot wrap_st) + 1) /\
  wrap32 <= due_target (u32 5) (demo_slot wrap_st) + 4294967293 /\
  increasing 5 wrap_ts = true /\
  all_before (scheduled 5 (demo_slot wrap_st) + 4294967293) wrap_ts = true /\
  (exists st',
     wio_enable_loop (readings wrap_ts) 0 wrap_st1 = Some st' /\
     (tx_buffer_cur <$> get_inst st' 0)
       = Some (tx_buffer_cur (demo_slot wrap_st) + 1) /\
     gpio st' = gpio wrap_st1) /\
  (forall t rx,
     last_time 5 wrap_ts <= t ->
     scheduled 5 (demo_slot wrap_st) + 4294967293 <= t
       < scheduled 5 (demo_slot wrap_st) + wrap32 ->
     exists st',
       wio_enable_loop (readings (wrap_ts ++ [(t, rx)])) 0 wrap_st1
         = Some st' /\
       (tx_buffer_cur <$> get_inst st' 0)
         = Some (tx_buffer_cur (demo_slot wrap_st) + 2) /\
       gpio_level (gpio st') !! tx_pin (demo_slot wrap_st)
         = Some (tx_level (tx_buffer_cur (demo_slot wrap_st) + 1))).
Proof.
  assert (H1 : get_inst wrap_st 0 = Some (demo_slot wrap_st))
    by (vm_compute; reflexivity).
  assert (H2 : main_loop_running (demo_slot wrap_st) <> 0)
    by (vm_compute; discriminate).
  assert (H3 : inst_safe (demo_slot wrap_st) (mem wrap_st) = true)
    by (vm_compute; reflexivity).
  assert (H4 : tx_buffer_cur (demo_slot wrap_st) + 1
               < tx_buffer_len (demo_slot wrap_st))
    by (vm_compute; reflexivity).
  assert (H5 : load (mem wrap_st) (tx_buffer (demo_slot wrap_st))
                 (tx_buffer_cur (demo_slot wrap_st)) = Some 4294967293)
    by (vm_compute; reflexivity).
  assert (H6 : 0 <= 4294967293 < wrap32)
    by (unfold wrap32; lia).
  assert (H7 : wio_loop_iter 0 (u32 5) 0 wrap_st = Some wrap_st1)
    by (vm_compute; reflexivity).
  assert (H8 : (tx_buffer_cur <$> get_inst wrap_st1 0)
               = Some (tx_buffer_cur (demo_slot wrap_st) + 1))
    by (vm_compute; reflexivity).
  assert (H9 : wrap32 <= due_target (u32 5) (demo_slot wrap_st) + 4294967293)
    by (vm_compute; discriminate).
  assert (H10 : increasing 5 wrap_ts = true) by (vm_compute; reflexivity).
  assert (H11 : all_before (scheduled 5 (demo_slot wrap_st) + 4294967293)
                  wrap_ts = true) by (vm_compute; reflexivity).
  repeat (split; [assumption|]).
  exact (wrap_guard_deadline wrap_st wrap_st1 0 (demo_slot wrap_st) 5 0
           4294967293 wrap_ts H1 H2 H3 H4 H5 H6 H7 H8 H9 H10 H11).
Defined.

(** *** Following a schedule *)

Lemma schedule_ok_cons g s b b2 rest :
  schedule_ok g s (b :: b2 :: rest) =
  (g <=? b) && (b <=? wrap32 - g) && (u32 (s + b) + g <=? wrap32)
  && schedule_ok g (s + b) (b2 :: rest).
Proof. reflexivity. Qed.

Lemma due_nonneg bs : forall s t, 0 <= due bs s t.
Proof.
  induction bs as [|b bs IH]; intros s t; simpl; [lia|].
  destruct (s <=? t); [specialize (IH (s + b) t)|]; lia.
Qed.

Lemma due_le_length bs : forall s t, due bs s t <= Z.of_nat (length bs).
Proof.
  induction bs as [|b bs IH]; intros s t; simpl due; [simpl; lia|].
  destruct (s <=? t); [specialize (IH (s + b) t)|]; simpl length; lia.
Qed.

Lemma gaps_ok_last g t ts : gaps_ok g t ts = true -> t <= last_time t ts.
Proof.
  revert t. induction ts as [|[t' rx] ts IH]; intros t H; simpl in *; [lia|].
  apply andb_prop in H as [H H2]. apply andb_prop in H as [H0 H1].
  specialize (IH _ H2). lia.
Qed.

Lemma handle_tx_idle now self m gs :
  tx_buffer_cur self = tx_buffer_len self ->
  handle_tx now self m gs = Some (self, gs).
Proof. intros H. unfold handle_tx. by rewrite H, Z.eqb_refl. Qed.

(** Once the cursor has reached the length, the transmit half is idle. *)
Lemma run_idle inputs : forall self m gs,
  tx_buffer_cur self = tx_buffer_len self -> rx_safe self m ->
  exists self' m',
    run_body inputs (self, m, gs) = Some (self', m', gs) /\
    tx_buffer_cur self' = tx_buffer_cur self /\
    stable self self'.
Proof.
  induction inputs as [|[t rx] inputs IH]; intros self m gs Hc Hrx.
  - exists self, m. split; [reflexivity|]. split; [reflexivity|].
    apply stable_refl.
  - destruct (wio_loop_body_of_tx t rx _ _ _ _ _ (handle_tx_idle t self m gs Hc) Hrx)
      as (self2 & m2 & Hbody & Hsame & Hst & Hrx2 & _).
    destruct Hsame as (_ & Hc2 & Hl2 & _).
    destruct (IH self2 m2 gs ltac:(congruence) Hrx2)
      as (self' & m' & Hrun & Hc' & Hst').
    exists self', m'. simpl. rewrite Hbody.
    split; [exact Hrun|]. split; [congruence|].
    eapply stable_trans; eauto.
Qed.

Lemma entries_left_cons self lt v bs :
  entries_left self lt = v :: bs ->
  0 <= tx_buffer_cur self ->
  tx_buffer_len self <= Z.of_nat (length lt) ->
  lt !! Z.to_nat (tx_buffer_cur self) = Some v /\
  drop (Z.to_nat (tx_buffer_cur self + 1))
    (take (Z.to_nat (tx_buffer_len self)) lt) = bs /\
  Z.of_nat (length bs) = tx_buffer_len self - (tx_buffer_cur self + 1).
Proof.
  unfold entries_left. intros H Hc Hl.
  assert (Hv : take (Z.to_nat (tx_buffer_len self)) lt
               !! Z.to_nat (tx_buffer_cur self) = Some v).
  { pose proof (lookup_drop (take (Z.to_nat (tx_buffer_len self)) lt)
                  (Z.to_nat (tx_buffer_cur self)) 0) as Hd.
    rewrite H in Hd. simpl in Hd. rewrite Nat.add_0_r in Hd. done. }
  pose proof (drop_S _ _ _ Hv) as Hd. rewrite H in Hd.
  injection Hd as Hd.
  apply lookup_take_Some in Hv as [Hv Hlt].
  split; [exact Hv|].
  replace (Z.to_nat (tx_buffer_cur self + 1))
    with (S (Z.to_nat (tx_buffer_cur self))) by lia.
  split; [done|].
  rewrite Hd, length_drop, length_take. lia.
Qed.

Lemma load_entry m p lt i v :
  m !! p = Some lt -> 0 <= i -> lt !! Z.to_nat i = Some v ->
  load m p i = Some v.
Proof.
  intros Hm Hi Hv. unfold load. rewrite Hm.
  destruct (0 <=? i) eqn:E; [done | lia].
Qed.

Section Schedule.

Variable g : Z.
Hypothesis g_pos : 0 < g.
Variable lt : list Z.

(** A loop whose samples are at most [g] ticks apart, on a schedule that
    satisfies [schedule_ok g], fires every transition in the first
    iteration sampled at or after its scheduled time: after the samples
    [ts], exactly the transitions scheduled up to the last sample have
    fired. *)
Lemma run_schedule ts : forall t sp s self m gs,
  pending t sp s self -> rx_safe self m ->
  m !! tx_buffer self = Some lt ->
  tx_buffer self <> rx_buffer self ->
  tx_buffer_len self <= Z.of_nat (length lt) ->
  u32 s + g <= wrap32 -> s + g <= sp + wrap32 ->
  schedule_ok g s (entries_left self lt) = true ->
  gaps_ok g t ts = true ->
  exists self' m' gs',
    run_body (readings ts) (self, m, gs) = Some (self', m', gs') /\
    tx_buffer_cur self' =
      tx_buffer_cur self + due (entries_left self lt) s (last_time t ts) /\
    stable self self' /\
    gpio_level gs' !! tx_pin self =
      (if due (entries_left self lt) s (last_time t ts) =? 0
       then gpio_level gs !! tx_pin self
       else Some (tx_level (tx_buffer_cur self' - 1))).
Proof.
  induction ts as [|[t' rx] ts IH];
    intros t sp s self m gs Hp Hrx Hlt Hne Hlen Hw1 Hw2 Hsched Hgaps.
  - exists self, m, gs. simpl.
    assert (Hd : due (entries_left self lt) s t = 0).
    { destruct (entries_left self lt); simpl; [done|].
      destruct (s <=? t) eqn:E; [|done]. destruct Hp as (? & _). lia. }
    rewrite Hd. simpl. split; [reflexivity|]. split; [lia|].
    split; [apply stable_refl | reflexivity].
  - simpl in Hgaps. apply andb_prop in Hgaps as [Hg0 Hg2].
    apply andb_prop in Hg0 as [Hg0 Hg1].
    apply Z.leb_le in Hg0, Hg1. simpl last_time.
    pose proof (gaps_ok_last _ _ _ Hg2) as Hlast.
    destruct (Z.lt_ge_cases t' s) as [Hbefore | Hafter].
    + (* not yet *)
      destruct (handle_tx_wait t sp s t' self m gs Hp)
        as (self1 & Htx1 & Hp1 & Hc1); [lia|].
      destruct (wio_loop_body_of_tx _ rx _ _ _ _ _ Htx1 Hrx)
        as (self2 & m2 & Hbody & Hsame & Hst & Hrx2 & Hext).
      destruct Hsame as (Hs1 & Hs2 & Hs3 & Hs4 & Hs5 & Hs6 & Hs7 & Hs8).
      destruct Hst as (Hb2 & Hl2 & Hpin2 & Hr2 & Hf2).
      assert (Hp2 : pending t' sp s self2) by (eapply pending_ext; eauto).
      assert (Hlt2 : m2 !! tx_buffer self2 = Some lt).
      { rewrite Hb2. destruct Hext as [Hx _]. rewrite Hx; done. }
      assert (Hleft : entries_left self2 lt = entries_left self lt).
      { unfold entries_left. by rewrite Hs2, Hc1, Hl2. }
      destruct (IH t' sp s self2 m2 gs Hp2 Hrx2 Hlt2) as
        (self' & m' & gs' & Hrun & Hc' & Hst' & Hgp');
        try (rewrite ?Hleft, ?Hb2, ?Hr2, ?Hl2; done).
      exists self', m', gs'. simpl. rewrite Hbody. simpl.
      split; [exact Hrun|]. rewrite Hleft in Hc', Hgp'.
      split; [lia|]. split.
      * eapply stable_trans; [|exact Hst']. unfold stable. done.
      * rewrite <- Hpin2. exact Hgp'.
    + (* due: the transition fires *)
      destruct Hp as (Hp1 & Hp2 & Hp3 & Hp4 & Hp5 & Hp6).
      assert (Hp : pending t sp s self) by (unfold pending; done).
      destruct (entries_left self lt) as [|v bs] eqn:Hleft.
      { exfalso. unfold entries_left in Hleft.
        apply (f_equal length) in Hleft.
        rewrite length_drop, length_take in Hleft. simpl in Hleft. lia. }
      destruct (entries_left_cons _ _ _ _ Hleft ltac:(lia) Hlen)
        as (Hv & Hdrop & Hn).
      assert (Hper : period t' = period s).
      { pose proof (u32_range s). clear - Hw1 Hafter Hg1 Hp1 H. tlia. }
      pose proof (handle_tx_fire t sp s t' self m gs v Hp Hafter Hper
                    ltac:(right; lia)
                    (load_entry m (tx_buffer self) lt (tx_buffer_cur self) v
                       Hlt ltac:(lia) Hv)) as Htx1.
      destruct (wio_loop_body_of_tx _ rx _ _ _ _ _ Htx1 Hrx)
        as (self2 & m2 & Hbody & Hsame & Hst & Hrx2 & Hext).
      destruct Hsame as (Hs1 & Hs2 & Hs3 & Hs4 & Hs5 & Hs6 & Hs7 & Hs8).
      destruct Hst as (Hb2 & Hl2 & Hpin2 & Hr2 & Hf2).
      unfold fired in Hs2, Hs4, Hs5; simpl in Hs2, Hs4, Hs5.
      assert (Hdue : due (v :: bs) s (last_time t' ts)
                     = 1 + due bs (s + v) (last_time t' ts)).
      { simpl. destruct (s <=? last_time t' ts) eqn:E; [done | lia]. }
      rewrite Hdue. pose proof (due_nonneg bs (s + v) (last_time t' ts)) as Hnn.
      destruct (1 + due bs (s + v) (last_time t' ts) =? 0) eqn:E0; [lia|].
      destruct bs as [|v2 bs].
      * (* the last transition *)
        destruct (run_idle (readings ts) self2 m2
                    (gpio_write (tx_pin self) (tx_level (tx_buffer_cur self)) gs))
          as (self' & m' & Hrun & Hc' & Hst');
          [simpl in Hn; lia | exact Hrx2 |].
        exists self', m'. eexists. simpl. rewrite Hbody. simpl.
        split; [exact Hrun|]. split; [lia|]. split.
        -- eapply stable_trans; [|exact Hst']. unfold stable. done.
        -- rewrite Hc', Hs2. simpl.
           replace (tx_buffer_cur self + 1 - 1) with (tx_buffer_cur self) by lia.
           apply lookup_insert_eq.
      * (* more transitions follow *)
        rewrite schedule_ok_cons in Hsched.
        apply andb_prop in Hsched as [Hsched Hs'].
        apply andb_prop in Hsched as [Hsched Hk3].
        apply andb_prop in Hsched as [Hk1 Hk2].
        apply Z.leb_le in Hk1, Hk2, Hk3.
        assert (Hn' : tx_buffer_cur self + 1 < tx_buffer_len self).
        { simpl in Hn. lia. }
        assert (Hpf : pending t' s (s + v) (fired s v self)).
        { apply fired_pending; lia. }
        assert (Hp2' : pending t' s (s + v) self2).
        { eapply pending_ext; [exact Hpf | | | |]; unfold fired; simpl; done. }
        assert (Hlt2 : m2 !! tx_buffer self2 = Some lt).
        { rewrite Hb2. destruct Hext as [Hx _]. rewrite Hx; done. }
        assert (Hleft2 : entries_left self2 lt = v2 :: bs).
        { unfold entries_left. rewrite Hs2, Hl2. exact Hdrop. }
        destruct (IH t' s (s + v) self2 m2
                    (gpio_write (tx_pin self) (tx_level (tx_buffer_cur self)) gs)
                    Hp2' Hrx2 Hlt2)
          as (self' & m' & gs' & Hrun & Hc' & Hst' & Hgp');
          try (rewrite ?Hleft2, ?Hb2, ?Hr2, ?Hl2; done); try lia.
        rewrite Hleft2 in Hc', Hgp'.
        exists self', m', gs'. rewrite run_body_cons, Hbody.
        split; [exact Hrun|]. split; [lia|]. split.
        -- eapply stable_trans; [|exact Hst']. unfold stable. done.
        -- rewrite <- Hpin2, Hgp'.
           destruct (due (v2 :: bs) (s + v) (last_time t' ts) =? 0) eqn:E1;
             [|reflexivity].
           unfold gpio_write. cbn [gpio_level].
           rewrite Hpin2, lookup_insert_eq. do 2 f_equal. lia.
Qed.

End Schedule.

Lemma rx_in_bounds_spec self m : rx_in_bounds self m = true -> rx_safe self m.
Proof.
  unfold rx_in_bounds, rx_safe.
  destruct (m !! rx_buffer self) as [lr|]; [|done].
  intros H. repeat (apply andb_prop in H as [H ?]).
  exists lr. split; [done | lia].
Qed.

(** On a schedule that can be followed, all transitions are due from the
    time of the last one on, the first transition plus all entries but the
    last, and not before. *)
Lemma due_complete g bs : forall s t,
  0 < g -> schedule_ok g s bs = true -> bs <> [] ->
  0 <= sumZ (take (length bs - 1) bs) /\
  (s + sumZ (take (length bs - 1) bs) <= t ->
   due bs s t = Z.of_nat (length bs)) /\
  (t < s + sumZ (take (length bs - 1) bs) ->
   due bs s t < Z.of_nat (length bs)).
Proof.
  induction bs as [|b bs IH]; intros s t Hg Hs Hne; [done|].
  destruct bs as [|b2 rest].
  - simpl. destruct (s <=? t) eqn:E; lia.
  - rewrite schedule_ok_cons in Hs.
    apply andb_prop in Hs as [Hs Hs'].
    apply andb_prop in Hs as [Hs Hk3].
    apply andb_prop in Hs as [Hk1 Hk2].
    destruct (IH (s + b) t Hg Hs' ltac:(done)) as (Hnn & Hall & Hnot).
    replace (length (b :: b2 :: rest) - 1)%nat
      with (S (length (b2 :: rest) - 1)) by (simpl; lia).
    rewrite firstn_cons.
    change (sumZ (b :: take (length (b2 :: rest) - 1) (b2 :: rest)))
      with (b + sumZ (take (length (b2 :: rest) - 1) (b2 :: rest))).
    change (due (b :: b2 :: rest) s t)
      with (if s <=? t then 1 + due (b2 :: rest) (s + b) t else 0).
    change (length (b :: b2 :: rest)) with (S (length (b2 :: rest))).
    pose proof (due_nonneg (b2 :: rest) (s + b) t).
    destruct (s <=? t) eqn:E; repeat split; intros; lia.
Qed.

(** X21. A transmission under regular polling. Let the loop of instance
    [h] run, [n >= 1] entries of its transmit buffer [lt] be started with
    [wio_tx_start], and the first iteration after the start be sampled at
    the true time [t0]. Suppose the later samples [ts] are at most [g]
    ticks apart and the schedule that starts at [t0] satisfies
    [schedule_ok g]: every entry waited for lies in [[g, 2^32 - g]], and no
    transition after the first is scheduled in the last [g - 1] ticks
    before the counter wraps. Then:
    - the first iteration fires the first transition: the cursor is 1 and
      the output is high after it;
    - after the samples [ts] the cursor counts exactly the transitions
      scheduled up to the last sample: every transition fires in the first
      iteration sampled at or after its scheduled time;
    - hence the cursor reaches [n] in the first iteration sampled at or
      after [t0] plus the sum of [lt[0 .. n-2]], and not before: the last
      entry [lt[n-1]] is never waited for. *)
Theorem tx_follows_schedule (st : state) (h n g t0 rx0 : Z)
    (slot : wio_inst_type) (lt : list Z) (ts : list (Z * Z)) :
  get_inst st h = Some slot ->
  main_loop_running slot <> 0 ->
  mem st !! tx_buffer slot = Some lt ->
  tx_buffer slot <> rx_buffer slot ->
  rx_in_bounds slot (mem st) = true ->
  1 <= n <= Z.of_nat (length lt) -> n < 2 ^ 31 ->
  0 < g ->
  schedule_ok g t0 (take (Z.to_nat n) lt) = true ->
  gaps_ok g t0 ts = true ->
  exists st1 st2 st' cur,
    wio_tx_start h n st = Some st1 /\
    wio_enable_loop (readings [(t0, rx0)]) h st1 = Some st2 /\
    wio_tx_cursor h st2 = Some 1 /\
    gpio_level (gpio st2) !! tx_pin slot = Some 1 /\
    wio_enable_loop (readings ((t0, rx0) :: ts)) h st1 = Some st' /\
    wio_tx_cursor h st' = Some cur /\
    cur = due (take (Z.to_nat n) lt) t0 (last_time t0 ts) /\
    gpio_level (gpio st') !! tx_pin slot = Some (tx_level (cur - 1)) /\
    (t0 + sumZ (take (Z.to_nat (n - 1)) lt) <= last_time t0 ts -> cur = n) /\
    (last_time t0 ts < t0 + sumZ (take (Z.to_nat (n - 1)) lt) -> cur < n).
Proof.
  intros Hget Hflag Hlt Hne Hrxb Hn Hn31 Hg Hsched Hgaps.
  assert (Hnw : n < wrap32) by (unfold wrap32; lia).
  apply rx_in_bounds_spec in Hrxb.
  set (slot0 := set_tx_buffer_cur 0 (set_tx_buffer_len (u32 n) slot)).
  set (st1 := set_inst h slot0 st).
  assert (Hst1 : wio_tx_start h n st = Some st1).
  { unfold wio_tx_start, update_inst. by rewrite Hget. }
  assert (Hget1 : get_inst st1 h = Some slot0).
  { unfold st1. erewrite get_inst_set_inst by exact Hget.
    by rewrite decide_True. }
  assert (Hun : u32 n = n) by (apply u32_small; lia).
  assert (Hlen0 : tx_buffer_len slot0 = n) by exact Hun.
  assert (Hrx0 : rx_safe slot0 (mem st1)) by exact Hrxb.
  pose proof (gaps_ok_last _ _ _ Hgaps) as Hlast.
  (* the entries of the transmission *)
  assert (Hleft0 : entries_left slot0 lt = take (Z.to_nat n) lt).
  { unfold entries_left. rewrite Hlen0. reflexivity. }
  destruct (take (Z.to_nat n) lt) as [|v0 bs] eqn:Htake.
  { apply (f_equal length) in Htake. rewrite length_take in Htake.
    simpl in Htake. lia. }
  destruct (entries_left_cons slot0 lt v0 bs Hleft0 ltac:(simpl; lia)
              ltac:(rewrite Hlen0; lia)) as (Hv0 & Hdrop & Hnbs).
  simpl in Hv0. rewrite Hlen0 in Hdrop, Hnbs. simpl in Hnbs.
  (* the first iteration *)
  pose proof (handle_tx_first t0 slot0 (mem st) (gpio st) v0
                ltac:(reflexivity) ltac:(rewrite Hlen0; lia)
                (load_entry (mem st) (tx_buffer slot0) lt 0 v0 Hlt
                   ltac:(lia) Hv0)) as Htx1.
  destruct (wio_loop_body_of_tx _ rx0 _ _ _ _ _ Htx1 Hrx0)
    as (self2 & m2 & Hbody & Hsame & Hst & Hrx2 & Hext).
  destruct Hsame as (Hs1 & Hs2 & Hs3 & Hs4 & Hs5 & Hs6 & Hs7 & Hs8).
  destruct Hst as (Hb2 & Hl2 & Hpin2 & Hr2 & Hf2).
  unfold fired in Hs2, Hs4, Hs5; simpl in Hs2, Hs4, Hs5.
  change (tx_buffer_cur slot0) with 0 in *.
  set (gs1 := gpio_write (tx_pin slot0) (tx_level 0) (gpio st)) in *.
  assert (Hflag0 : main_loop_running slot0 <> 0) by exact Hflag.
  assert (Hlev1 : gpio_level gs1 !! tx_pin slot = Some 1).
  { unfold gs1, gpio_write. cbn [gpio_level]. apply lookup_insert_eq. }
  assert (Hone : wio_enable_loop (readings [(t0, rx0)]) h st1
                 = Some (commit h (self2, m2, gs1) st1)).
  { apply (wio_enable_loop_run _ _ _ slot0 _ Hget1 Hflag0).
    rewrite run_body_cons. change (mem st1) with (mem st).
    change (gpio st1) with (gpio st). by rewrite Hbody. }
  (* the remaining iterations *)
  assert (Hrest : exists self' m' gs',
    run_body (readings ts) (self2, m2, gs1) = Some (self', m', gs') /\
    tx_buffer_cur self' = due (v0 :: bs) t0 (last_time t0 ts) /\
    gpio_level gs' !! tx_pin slot
      = Some (tx_level (tx_buffer_cur self' - 1))).
  { assert (Hdue : due (v0 :: bs) t0 (last_time t0 ts)
                   = 1 + due bs (t0 + v0) (last_time t0 ts)).
    { simpl. destruct (t0 <=? last_time t0 ts) eqn:E; [done | lia]. }
    rewrite Hdue. destruct bs as [|v1 bs].
    - destruct (run_idle (readings ts) self2 m2 gs1)
        as (self' & m' & Hrun & Hc' & _);
        [rewrite Hs2, Hl2, Hlen0; simpl in Hnbs; lia | exact Hrx2 |].
      exists self', m', gs1. split; [exact Hrun|].
      rewrite Hc', Hs2. simpl. split; [reflexivity|]. exact Hlev1.
    - rewrite schedule_ok_cons in Hsched.
      apply andb_prop in Hsched as [Hsched Hs'].
      apply andb_prop in Hsched as [Hsched Hk3].
      apply andb_prop in Hsched as [Hk1 Hk2].
      apply Z.leb_le in Hk1, Hk2, Hk3.
      assert (Hpf : pending t0 t0 (t0 + v0) (fired t0 v0 slot0)).
      { apply fired_pending; try rewrite Hlen0; simpl in *; lia. }
      assert (Hp2 : pending t0 t0 (t0 + v0) self2).
      { eapply pending_ext; [exact Hpf | | | |]; unfold fired; simpl; done. }
      assert (Hlt2 : m2 !! tx_buffer self2 = Some lt).
      { rewrite Hb2. destruct Hext as [Hx _]. rewrite Hx; done. }
      assert (Hleft2 : entries_left self2 lt = v1 :: bs).
      { unfold entries_left. rewrite Hs2, Hl2, Hlen0. exact Hdrop. }
      destruct (run_schedule g Hg lt ts t0 t0 (t0 + v0) self2 m2 gs1
                  Hp2 Hrx2 Hlt2)
        as (self' & m' & gs' & Hrun & Hc' & _ & Hgp');
        try (rewrite ?Hleft2, ?Hb2, ?Hr2, ?Hl2, ?Hlen0; done); try lia.
      rewrite Hleft2 in Hc', Hgp'.
      exists self', m', gs'. split; [exact Hrun|].
      split; [lia|]. rewrite Hpin2 in Hgp'.
      change (tx_pin slot0) with (tx_pin slot) in Hgp'. rewrite Hgp'.
      destruct (due (v1 :: bs) (t0 + v0) (last_time t0 ts) =? 0) eqn:E;
        [|reflexivity].
      apply Z.eqb_eq in E.
      replace (tx_buffer_cur self' - 1) with 0 by lia. exact Hlev1. }
  destruct Hrest as (self' & m' & gs' & Hrun & Hc' & Hgp').
  assert (Hall : wio_enable_loop (readings ((t0, rx0) :: ts)) h st1
                 = Some (commit h (self', m', gs') st1)).
  { apply (wio_enable_loop_run _ _ _ slot0 _ Hget1 Hflag0).
    rewrite run_body_cons. change (mem st1) with (mem st).
    change (gpio st1) with (gpio st). by rewrite Hbody. }
  exists st1, (commit h (self2, m2, gs1) st1),
    (commit h (self', m', gs') st1), (tx_buffer_cur self').
  split; [exact Hst1|]. split; [exact Hone|].
  split; [unfold wio_tx_cursor; rewrite (get_inst_commit _ _ _ _ Hget1);
          simpl; by rewrite Hs2|].
  split; [exact Hlev1|]. split; [exact Hall|].
  assert (Hlenbs : Z.of_nat (length (v0 :: bs)) = n).
  { simpl length. lia. }
  split.
  { unfold wio_tx_cursor. rewrite (get_inst_commit _ _ _ _ Hget1). simpl.
    rewrite s32_small; [reflexivity|]. rewrite Hc'.
    pose proof (due_nonneg (v0 :: bs) t0 (last_time t0 ts)).
    pose proof (due_le_length (v0 :: bs) t0 (last_time t0 ts)). lia. }
  split; [exact Hc'|]. split; [exact Hgp'|].
  (* completion *)
  destruct (due_complete g (v0 :: bs) t0 (last_time t0 ts) Hg Hsched
              ltac:(done)) as (_ & Hdone & Hnot).
  assert (Htk : take (length (v0 :: bs) - 1) (v0 :: bs)
                = take (Z.to_nat (n - 1)) lt).
  { replace (length (v0 :: bs) - 1)%nat with (Z.to_nat (n - 1)) by lia.
    rewrite <- Htake, take_take. f_equal. lia. }
  rewrite Htk, Hlenbs in Hdone, Hnot. rewrite Hc'. split; assumption.
Qed.

(** ** Caller misuse *)

Lemma handle_tx_total now self m gs :
  tx_safe self m ->
  0 <= tx_buffer_cur self <= tx_buffer_len self ->
  is_Some (handle_tx now self m gs).
Proof.
  intros Htx Hc. unfold handle_tx.
  destruct (tx_buffer_cur self =? tx_buffer_len self) eqn:E; [eauto|].
  destruct (tx_safe_load self m (tx_buffer_cur self) Htx ltac:(lia))
    as [v Hv].
  cbv zeta.
  destruct (tx_buffer_cur self =? 0); cbn [tx_await_wrap set_tx_await_wrap];
    destruct (now <? _); cbn;
    (match goal with
     | |- context [if ?c then _ else _] => destruct c
     end);
    rewrite ?Hv; eauto.
Qed.

Lemma inst_safe_intro self m :
  tx_safe self m -> rx_safe self m ->
  0 <= tx_buffer_cur self <= tx_buffer_len self ->
  tx_buffer_len self < wrap32 ->
  inst_safe self m = true.
Proof.
  intros (lt & Hlt & Hl) (lr & Hlr & Hc & Hn & Hw) Htc Htw.
  unfold inst_safe. rewrite Hlt, Hlr.
  repeat (apply andb_true_intro; split); lia.
Qed.

(** When the queued length and the capacity are within the buffers, an
    iteration accesses no word outside them. *)
Lemma wio_loop_body_safe self m gs now rx :
  inst_safe self m = true ->
  exists self' m' gs',
    wio_loop_body now rx self m gs = Some (self', m', gs') /\
    inst_safe self' m' = true.
Proof.
  intros Hsafe. destruct (inst_safe_spec _ _ Hsafe) as (Htx & Hrx & Hc & Hl).
  destruct (handle_tx_total now self m gs Htx Hc) as [[self1 gs1] Htx1].
  destruct (wio_loop_body_of_tx _ rx _ _ _ _ _ Htx1 Hrx)
    as (self2 & m2 & Hbody & Hsame & Hst & Hrx2 & Hext).
  exists self2, m2, gs1. split; [exact Hbody|].
  pose proof (handle_tx_cursor _ _ _ _ _ _ Htx1 Hc Hl) as Hc1.
  destruct Hsame as (_ & Hs2 & Hs3 & _). destruct Hst as (Hb & Hl2 & _).
  apply inst_safe_intro; [| exact Hrx2 | | ].
  - eapply tx_safe_ext; eauto.
  - lia.
  - lia.
Qed.




(** *** A loop that polls every second tick *)

Lemma stuck_state_slot :
  get_inst stuck_state 0 =
  Some {| tx_buffer := 1; tx_buffer_cur := 1; tx_buffer_len := 2;
          tx_target_time := 4294967295; tx_await_wrap := 0; tx_pin := 0;
          rx_buffer := 2; rx_buffer_cur := 0; rx_buffer_len := 4;
          rx_last_time := 0; rx_pin := 2; main_loop_running := 1 |}.
Proof. vm_compute. reflexivity. Qed.

(** No reading other than [2^32 - 1] moves that state. *)
Lemma stuck_state_iter (r : Z) :
  0 <= r < 4294967295 -> wio_loop_iter 0 r 0 stuck_state = Some stuck_state.
Proof.
  intros Hr. unfold wio_loop_iter. rewrite stuck_state_slot.
  cbn [main_loop_running]. change (1 =? 0) with false. cbv iota.
  assert (Htx : forall gs,
    handle_tx r {| tx_buffer := 1; tx_buffer_cur := 1; tx_buffer_len := 2;
          tx_target_time := 4294967295; tx_await_wrap := 0; tx_pin := 0;
          rx_buffer := 2; rx_buffer_cur := 0; rx_buffer_len := 4;
          rx_last_time := 0; rx_pin := 2; main_loop_running := 1 |}
       (mem stuck_state) gs
    = Some ({| tx_buffer := 1; tx_buffer_cur := 1; tx_buffer_len := 2;
          tx_target_time := 4294967295; tx_await_wrap := 0; tx_pin := 0;
          rx_buffer := 2; rx_buffer_cur := 0; rx_buffer_len := 4;
          rx_last_time := 0; rx_pin := 2; main_loop_running := 1 |}, gs)).
  { intros gs. unfold handle_tx.
    cbn [tx_buffer_cur tx_buffer_len tx_await_wrap tx_target_time].
    change (1 =? 2) with false. change (1 =? 0) with false. cbv iota zeta.
    cbn [tx_await_wrap].
    destruct (r <? 0) eqn:E1; [lia|].
    cbn [tx_await_wrap tx_target_time].
    destruct (4294967295 <=? r) eqn:E2; [lia|].
    reflexivity. }
  unfold wio_loop_body. rewrite Htx.
  unfold handle_rx. change (rx_edge 0 _) with false. cbv iota.
  vm_compute. reflexivity.
Qed.

Lemma wio_enable_loop_cons t rx rest i st :
  wio_enable_loop ((t, rx) :: rest) i st =
  match wio_loop_iter i t rx st with
  | Some st' => wio_enable_loop rest i st'
  | None => None
  end.
Proof. reflexivity. Qed.

Lemma wio_enable_loop_app xs : forall ys i st,
  wio_enable_loop (xs ++ ys) i st =
  match wio_enable_loop xs i st with
  | Some st' => wio_enable_loop ys i st'
  | None => None
  end.
Proof.
  induction xs as [|[t rx] xs IH]; intros ys i st; [reflexivity|].
  rewrite <- app_comm_cons, !wio_enable_loop_cons.
  destruct (wio_loop_iter i t rx st); [apply IH | reflexivity].
Qed.

Lemma every_other_reading (j : nat) :
  0 <= u32 (4294967292 + 2 * Z.of_nat j) < 4294967295.
Proof. tlia. Qed.

Lemma every_other_S (k : nat) :
  every_other (S k) =
  every_other 1
  ++ map (fun j : nat => (4294967292 + 2 * Z.of_nat j, 0)) (seq 1 k).
Proof. reflexivity. Qed.

Section Stuck.

Variables st st1 : state.
Hypothesis first_iteration :
  wio_enable_loop (readings (every_other 1)) 0 st = Some st1.
Hypothesis fixed :
  forall r, 0 <= r < 4294967295 -> wio_loop_iter 0 r 0 st1 = Some st1.
Hypothesis cursor_before : wio_tx_cursor 0 st = Some 0.
Hypothesis cursor_after : wio_tx_cursor 0 st1 = Some 1.

Lemma stuck_run (k : nat) : forall j : nat,
  wio_enable_loop
    (readings (map (fun j : nat => (4294967292 + 2 * Z.of_nat j, 0))
                 (seq j k))) 0 st1
  = Some st1.
Proof.
  induction k as [|k IH]; intros j; [reflexivity|].
  change (readings (map (fun j : nat => (4294967292 + 2 * Z.of_nat j, 0))
                      (seq j (S k))))
    with ((u32 (4294967292 + 2 * Z.of_nat j), 0)
          :: readings (map (fun j : nat => (4294967292 + 2 * Z.of_nat j, 0))
                         (seq (S j) k))).
  rewrite wio_enable_loop_cons.
  rewrite (fixed _ (every_other_reading j)). apply IH.
Qed.

Lemma stuck_forever :
  ~ exists k : nat, tx_cursor_after (every_other k) st = Some 2.
Proof.
  intros [k Hk]. unfold tx_cursor_after in Hk. destruct k as [|k].
  - change (wio_tx_cursor 0 st = Some 2) in Hk.
    rewrite cursor_before in Hk. discriminate.
  - rewrite every_other_S, readings_app, wio_enable_loop_app in Hk.
    rewrite first_iteration, stuck_run, cursor_after in Hk.
    discriminate.
Qed.

End Stuck.

Lemma stuck_state_reached :
  wio_enable_loop (readings (every_other 1)) 0 (demo_state [3; 5] 2)
  = Some stuck_state.
Proof. vm_compute. reflexivity. Qed.

Lemma stuck_state_cursor : wio_tx_cursor 0 stuck_state = Some 1.
Proof. vm_compute. reflexivity. Qed.

Lemma not_started_cursor :
  wio_tx_cursor 0 (demo_state [3; 5] 2) = Some 0.
Proof. vm_compute. reflexivity. Qed.

(** A loop that samples the counter every second tick: with the two entries
    [3; 5] started at the reading [2^32 - 4], the second transition is due
    at the reading [2^32 - 1], which this loop never samples. However long
    it runs, the cursor never reaches 2. *)
Lemma polling_misses_target :
  ~ exists k : nat,
      tx_cursor_after (every_other k) (demo_state [3; 5] 2) = Some 2.
Proof.
  exact (stuck_forever (demo_state [3; 5] 2) stuck_state
           stuck_state_reached stuck_state_iter
           not_started_cursor stuck_state_cursor).
Qed.

(** *** Instances of the theorems on concrete runs *)

Lemma tx_follows_schedule_witness :
  get_inst follow_st 0 = Some (demo_slot follow_st) /\
  main_loop_running (demo_slot follow_st) <> 0 /\
  mem follow_st !! tx_buffer (demo_slot follow_st) = Some [5; 7; 4; 9] /\
  tx_buffer (demo_slot follow_st) <> rx_buffer (demo_slot follow_st) /\
  rx_in_bounds (demo_slot follow_st) (mem follow_st) = true /\
  1 <= 4 <= Z.of_nat (length [5; 7; 4; 9]) /\ 4 < 2 ^ 31 /\
  0 < 2 /\
  schedule_ok 2 10 (take (Z.to_nat 4) [5; 7; 4; 9]) = true /\
  gaps_ok 2 10 follow_ts = true /\
  exists st1 st2 st' cur,
    wio_tx_start 0 4 follow_st = Some st1 /\
    wio_enable_loop (readings [(10, 0)]) 0 st1 = Some st2 /\
    wio_tx_cursor 0 st2 = Some 1 /\
    gpio_level (gpio st2) !! tx_pin (demo_slot follow_st) = Some 1 /\
    wio_enable_loop (readings ((10, 0) :: follow_ts)) 0 st1 = Some st' /\
    wio_tx_cursor 0 st' = Some cur /\
    cur = due (take (Z.to_nat 4) [5; 7; 4; 9]) 10 (last_time 10 follow_ts) /\
    gpio_level (gpio st') !! tx_pin (demo_slot follow_st)
      = Some (tx_level (cur - 1)) /\
    (10 + sumZ (take (Z.to_nat (4 - 1)) [5; 7; 4; 9])
       <= last_time 10 follow_ts -> cur = 4) /\
    (last_time 10 follow_ts
       < 10 + sumZ (take (Z.to_nat (4 - 1)) [5; 7; 4; 9]) -> cur < 4).
Proof.
  assert (H1 : get_inst follow_st 0 = Some (demo_slot follow_st))
    by (vm_compute; reflexivity).
  assert (H2 : main_loop_running (demo_slot follow_st) <> 0)
    by (vm_compute; discriminate).
  assert (H3 : mem follow_st !! tx_buffer (demo_slot follow_st)
               = Some [5; 7; 4; 9]) by (vm_compute; reflexivity).
  assert (H4 : tx_buffer (demo_slot follow_st)
               <> rx_buffer (demo_slot follow_st))
    by (vm_compute; discriminate).
  assert (H5 : rx_in_bounds (demo_slot follow_st) (mem follow_st) = true)
    by (vm_compute; reflexivity).
  assert (H6 : 1 <= 4 <= Z.of_nat (length [5; 7; 4; 9])) by (simpl; lia).
  assert (H7 : 4 < 2 ^ 31) by reflexivity.
  assert (H8 : 0 < 2) by lia.
  assert (H9 : schedule_ok 2 10 (take (Z.to_nat 4) [5; 7; 4; 9]) = true)
    by (vm_compute; reflexivity).
  assert (H10 : gaps_ok 2 10 follow_ts = true) by (vm_compute; reflexivity).
  repeat (split; [assumption|]).
  exact (tx_follows_schedule follow_st 0 4 2 10 0 (demo_slot follow_st)
           [5; 7; 4; 9] follow_ts H1 H2 H3 H4 H5 H6 H7 H8 H9 H10).
Defined.

Lemma cursor_bounds_invariant_witness :
  wio_new 0 1 2 2 4 bounds_st0 = Some (0, bounds_st1) /\
  0 < u32 4 /\
  forallb event_ok bounds_evs = true /\
  run bounds_evs bounds_st1 = Some bounds_st /\
  exists slot,
    get_inst bounds_st 0 = Some slot /\
    0 <= tx_buffer_cur slot <= tx_buffer_len slot /\
    0 <= rx_buffer_cur slot < rx_buffer_len slot /\
    (forall now rx st2,
       wio_loop_iter 0 now rx bounds_st = Some st2 ->
       exists slot2,
         get_inst st2 0 = Some slot2 /\
         rx_buffer_len slot2 = rx_buffer_len slot /\
         rx_buffer_cur slot2 =
           if negb (main_loop_running slot =? 0) && rx_edge rx slot
           then (rx_buffer_cur slot + 1) mod rx_buffer_len slot
           else rx_buffer_cur slot).
Proof.
  assert (H1 : wio_new 0 1 2 2 4 bounds_st0 = Some (0, bounds_st1))
    by (vm_compute; reflexivity).
  assert (H2 : 0 < u32 4) by reflexivity.
  assert (H3 : forallb event_ok bounds_evs = true) by (vm_compute; reflexivity).
  assert (H4 : run bounds_evs bounds_st1 = Some bounds_st)
    by (vm_compute; reflexivity).
  repeat (split; [assumption|]).
  exact (cursor_bounds_invariant bounds_st0 bounds_st1 bounds_st 0 1 2 2 4 0
           bounds_evs H1 H2 H3 H4).
Defined.

Lemma rx_recording_step_witness :
  handle_tx 100 (demo_slot record_st) (mem record_st) (gpio record_st)
    = Some (record_tx.1, record_tx.2) /\
  mem record_st !! rx_buffer (demo_slot record_st) = Some [0; 0; 0; 0] /\
  0 <= rx_buffer_cur (demo_slot record_st)
    < rx_buffer_len (demo_slot record_st) /\
  rx_buffer_len (demo_slot record_st) <= Z.of_nat (length [0; 0; 0; 0]) /\
  rx_buffer_len (demo_slot record_st) < wrap32 /\
  (rx_edge 1 (demo_slot record_st) = true <->
     Z.lxor (Z.land (rx_buffer_cur (demo_slot record_st)) 1) (u32 1) <> 0) /\
  (rx_edge 1 (demo_slot record_st) = true ->
     exists self2 m2,
       wio_loop_body 100 1 (demo_slot record_st) (mem record_st)
         (gpio record_st) = Some (self2, m2, record_tx.2) /\
       self2 = set_rx_last_time 100
                 (set_rx_buffer_cur
                    ((rx_buffer_cur (demo_slot record_st) + 1)
                     mod rx_buffer_len (demo_slot record_st)) record_tx.1) /\
       m2 = <[rx_buffer (demo_slot record_st) :=
                <[Z.to_nat (rx_buffer_cur (demo_slot record_st)) :=
                    u32 (100 - rx_last_time (demo_slot record_st))]>
                  [0; 0; 0; 0]]> (mem record_st) /\
       rx_buffer_cur self2
         = (rx_buffer_cur (demo_slot record_st) + 1)
           mod rx_buffer_len (demo_slot record_st) /\
       rx_last_time self2 = 100 /\
       load m2 (rx_buffer (demo_slot record_st))
         (rx_buffer_cur (demo_slot record_st))
         = Some (u32 (100 - rx_last_time (demo_slot record_st))) /\
       (forall i, i <> rx_buffer_cur (demo_slot record_st) ->
          load m2 (rx_buffer (demo_slot record_st)) i
          = load (mem record_st) (rx_buffer (demo_slot record_st)) i) /\
       (forall p, p <> rx_buffer (demo_slot record_st) ->
          m2 !! p = mem record_st !! p) /\
       rx_buffer self2 = rx_buffer (demo_slot record_st) /\
       rx_buffer_len self2 = rx_buffer_len (demo_slot record_st) /\
       rx_pin self2 = rx_pin (demo_slot record_st) /\
       tx_same record_tx.1 self2) /\
  (rx_edge 1 (demo_slot record_st) = false ->
     wio_loop_body 100 1 (demo_slot record_st) (mem record_st)
       (gpio record_st) = Some (record_tx.1, mem record_st, record_tx.2) /\
     rx_buffer record_tx.1 = rx_buffer (demo_slot record_st) /\
     rx_buffer_cur record_tx.1 = rx_buffer_cur (demo_slot record_st) /\
     rx_buffer_len record_tx.1 = rx_buffer_len (demo_slot record_st) /\
     rx_last_time record_tx.1 = rx_last_time (demo_slot record_st) /\
     rx_pin record_tx.1 = rx_pin (demo_slot record_st)).
Proof.
  assert (H1 : handle_tx 100 (demo_slot record_st) (mem record_st)
                 (gpio record_st) = Some (record_tx.1, record_tx.2))
    by (vm_compute; reflexivity).
  assert (H2 : mem record_st !! rx_buffer (demo_slot record_st)
               = Some [0; 0; 0; 0]) by (vm_compute; reflexivity).
  assert (H3 : 0 <= rx_buffer_cur (demo_slot record_st)
               < rx_buffer_len (demo_slot record_st))
    by (change (0 <= 0 < 4); lia).
  assert (H4 : rx_buffer_len (demo_slot record_st)
               <= Z.of_nat (length [0; 0; 0; 0]))
    by (change (4 <= 4); lia).
  assert (H5 : rx_buffer_len (demo_slot record_st) < wrap32)
    by (vm_compute; reflexivity).
  repeat (split; [assumption|]).
  exact (rx_recording_step 100 1 (demo_slot record_st) record_tx.1
           (mem record_st) (gpio record_st) record_tx.2 [0; 0; 0; 0]
           H1 H2 H3 H4 H5).
Defined.

(** A loop that samples every tick can follow every schedule whose entries
    lie in [[1, 2^32 - 1]]. *)
Lemma schedule_ok_every_tick bs : forall s,
  Forall (fun b => 1 <= b < wrap32) bs -> schedule_ok 1 s bs = true.
Proof.
  induction bs as [|b bs IH]; intros s H; [reflexivity|].
  apply Forall_cons in H as [Hb H]. destruct bs as [|b2 bs]; [reflexivity|].
  rewrite schedule_ok_cons, (IH (s + b) H).
  pose proof (u32_range (s + b)).
  repeat (apply andb_true_intro; split); try reflexivity; lia.
Qed.

(** * Further properties *)

(** ** The life cycle of the loop *)

Lemma wio_loop_iter_stopped i t rx st self :
  get_inst st i = Some self -> main_loop_running self = 0 ->
  wio_loop_iter i t rx st = Some st.
Proof. intros Hget Hf. unfold wio_loop_iter. by rewrite Hget, Hf. Qed.

Lemma wio_enable_loop_stopped inputs i st self :
  get_inst st i = Some self -> main_loop_running self = 0 ->
  wio_enable_loop inputs i st = Some st.
Proof.
  intros Hget Hf. induction inputs as [|[t rx] inputs IH]; [reflexivity|].
  rewrite wio_enable_loop_cons, (wio_loop_iter_stopped _ _ _ _ _ Hget Hf).
  exact IH.
Qed.

(** X1. Re-entrancy. The entry of [wio_enable] leaves the running flag of
    the instance set, and while it is set a further call of [wio_enable]
    returns at once: it runs no iteration, whatever the counter and the pin
    would have read, and changes nothing. *)
Theorem wio_enable_reentrant (i : Z) (st : state) (self : wio_inst_type) :
  get_inst st i = Some self ->
  exists st1 self1,
    wio_enable [] i st = Some st1 /\
    get_inst st1 i = Some self1 /\
    main_loop_running self1 <> 0 /\
    (main_loop_running self = 0 -> wio_enabled i st1 = Some 1) /\
    (forall inputs, wio_enable inputs i st1 = Some st1).
Proof.
  intros Hget. unfold wio_enable at 1. rewrite Hget.
  destruct (main_loop_running self =? 0) eqn:E; simpl.
  - apply Z.eqb_eq in E.
    set (st1 := set_inst i (set_main_loop_running 1 self) st).
    assert (Hget1 : get_inst st1 i = Some (set_main_loop_running 1 self)).
    { unfold st1. erewrite get_inst_set_inst by exact Hget.
      by rewrite decide_True. }
    exists st1, (set_main_loop_running 1 self).
    split; [reflexivity|]. split; [exact Hget1|]. split; [simpl; lia|].
    split.
    + intros _. unfold wio_enabled. rewrite Hget1. reflexivity.
    + intros inputs. unfold wio_enable. rewrite Hget1. reflexivity.
  - apply Z.eqb_neq in E. exists st, self.
    split; [reflexivity|]. split; [exact Hget|]. split; [exact E|].
    split; [intros; lia|].
    intros inputs. unfold wio_enable. rewrite Hget.
    destruct (main_loop_running self =? 0) eqn:E'; [lia | reflexivity].
Qed.

(** X2. Cooperative stop. After [wio_disable] the flag reads 0, and the
    loop of the instance, at its next test of the flag, is left: no later
    iteration changes the state, whatever it would have read. The memory
    and the pins are as [wio_disable] found them. *)
Theorem wio_disable_stops_loop (i : Z) (st : state) (self : wio_inst_type) :
  get_inst st i = Some self ->
  exists st1,
    wio_disable i st = Some st1 /\
    wio_enabled i st1 = Some 0 /\
    mem st1 = mem st /\ gpio st1 = gpio st /\
    (forall inputs, wio_enable_loop inputs i st1 = Some st1).
Proof.
  intros Hget. exists (set_inst i (set_main_loop_running 0 self) st).
  assert (Hget1 : get_inst (set_inst i (set_main_loop_running 0 self) st) i
                  = Some (set_main_loop_running 0 self)).
  { erewrite get_inst_set_inst by exact Hget. by rewrite decide_True. }
  split; [unfold wio_disable, update_inst; by rewrite Hget|].
  split; [unfold wio_enabled; rewrite Hget1; reflexivity|].
  split; [reflexivity|]. split; [reflexivity|].
  intros inputs. by apply (wio_enable_loop_stopped _ _ _ _ Hget1).
Qed.

(** X3. A construction stops the loop of the slot it takes. The instance
    returned by [wio_new] is not running, even if the slot belonged to an
    instance whose loop was: the iterations of that loop now find the flag
    clear and change nothing. *)
Theorem wio_new_stops_loop (st : state) (tp tb rp rb rl : Z) :
  table_ok st ->
  exists h st',
    wio_new tp tb rp rb rl st = Some (h, st') /\
    wio_enabled h st' = Some 0 /\
    (forall inputs, wio_enable_loop inputs h st' = Some st').
Proof.
  intros Hok. destruct (wio_new_spec tp tb rp rb rl st Hok)
    as (old & st' & _ & Hnew & _ & _ & _ & _ & Hget).
  exists (wio_inst_count st), st'. split; [exact Hnew|].
  specialize (Hget (wio_inst_count st)). rewrite decide_True in Hget by done.
  split; [unfold wio_enabled; rewrite Hget; reflexivity|].
  intros inputs. by apply (wio_enable_loop_stopped _ _ _ _ Hget).
Qed.

(** ** What the loop leaves alone *)

Lemma store_mem_ext m p i v m' : store m p i v = Some m' -> mem_ext p m m'.
Proof.
  unfold store. intros H. destruct (m !! p) as [l|] eqn:Hl; [|done].
  destruct ((0 <=? i) && (i <? Z.of_nat (length l))); [|done]. simplify_eq.
  split.
  - intros q Hq. by rewrite lookup_insert_ne.
  - intros l0 Hl0. rewrite lookup_insert_eq. eexists. split; [done|].
    rewrite length_insert. congruence.
Qed.

Lemma gpio_frame_refl pin gs : gpio_frame pin gs gs.
Proof. by split. Qed.

Lemma gpio_frame_trans pin a b c :
  gpio_frame pin a b -> gpio_frame pin b c -> gpio_frame pin a c.
Proof.
  intros [Hd1 Hl1] [Hd2 Hl2]. split; [congruence|].
  intros p Hp. rewrite Hl2, Hl1; done.
Qed.

Lemma handle_tx_gpio_frame now self m gs self1 gs1 :
  handle_tx now self m gs = Some (self1, gs1) ->
  gpio_frame (tx_pin self) gs gs1.
Proof.
  unfold handle_tx. intros H.
  repeat case_match; simplify_eq; split; simpl; try done;
    intros p Hp; by rewrite lookup_insert_ne.
Qed.

Lemma handle_rx_frame now rx self m self2 m2 :
  handle_rx now rx self m = Some (self2, m2) ->
  tx_same self self2 /\
  rx_buffer_len self2 = rx_buffer_len self /\
  rx_pin self2 = rx_pin self /\
  mem_ext (rx_buffer self) m m2.
Proof.
  unfold handle_rx. intros H. destruct (rx_edge rx self).
  - destruct (store m (rx_buffer self) (rx_buffer_cur self)
                (u32 (now - rx_last_time self))) as [m'|] eqn:Hs; [|done].
    destruct (rx_buffer_len self =? 0); [done|]. simplify_eq.
    split; [unfold tx_same; simpl; repeat split|].
    split; [reflexivity|]. split; [reflexivity|].
    by eapply store_mem_ext.
  - simplify_eq. split; [unfold tx_same; repeat split|].
    split; [reflexivity|]. split; [reflexivity|]. apply mem_ext_refl.
Qed.

Lemma wio_loop_body_frame now rx self m gs self' m' gs' :
  wio_loop_body now rx self m gs = Some (self', m', gs') ->
  stable self self' /\
  rx_buffer_len self' = rx_buffer_len self /\
  rx_pin self' = rx_pin self /\
  mem_ext (rx_buffer self) m m' /\
  gpio_frame (tx_pin self) gs gs'.
Proof.
  unfold wio_loop_body. intros H.
  destruct (handle_tx now self m gs) as [[self1 gs1]|] eqn:Htx; [|done].
  destruct (handle_rx now rx self1 m) as [[self2 m2]|] eqn:Hrx; [|done].
  simplify_eq.
  destruct (handle_tx_frame _ _ _ _ _ _ Htx)
    as (Ha & Hb & Hc & Hd & _ & He & _ & Hf & Hg).
  destruct (handle_rx_frame _ _ _ _ _ _ Hrx)
    as ((Ta & _ & Tc & _ & _ & Tf & Tg & Th) & Hn & Hp & Hext).
  split; [unfold stable; repeat split; congruence|].
  split; [congruence|]. split; [congruence|].
  split; [by rewrite <- Hd|].
  by eapply handle_tx_gpio_frame.
Qed.

Lemma loop_frame_refl i self st : get_inst st i = Some self -> loop_frame i self st st.
Proof.
  intros H. exists self. split; [exact H|]. split; [apply stable_refl|].
  repeat split; try done. apply mem_ext_refl.
Qed.

Lemma wio_loop_iter_frame i t rx st st' self :
  get_inst st i = Some self ->
  wio_loop_iter i t rx st = Some st' ->
  loop_frame i self st st'.
Proof.
  intros Hget H. unfold wio_loop_iter in H. rewrite Hget in H.
  destruct (main_loop_running self =? 0).
  { simplify_eq. by apply loop_frame_refl. }
  destruct (wio_loop_body t rx self (mem st) (gpio st))
    as [[[self1 m1] gs1]|] eqn:Hb; [|done].
  simplify_eq.
  destruct (wio_loop_body_frame _ _ _ _ _ _ _ _ Hb) as (Hs & Hn & Hp & Hm & Hg).
  exists self1. split.
  { erewrite get_inst_put by exact Hget. by rewrite decide_True. }
  split; [exact Hs|]. split; [exact Hn|]. split; [exact Hp|].
  split.
  { intros j Hj. erewrite get_inst_put by exact Hget. by rewrite decide_False. }
  done.
Qed.

Lemma loop_frame_trans i self self1 st st1 st2 :
  get_inst st1 i = Some self1 ->
  loop_frame i self st st1 -> loop_frame i self1 st1 st2 ->
  loop_frame i self st st2.
Proof.
  intros Hget (s1 & Hg1 & Hs1 & Hn1 & Hp1 & Ho1 & Hc1 & Hx1 & Hm1 & Hq1)
    (s2 & Hg2 & Hs2 & Hn2 & Hp2 & Ho2 & Hc2 & Hx2 & Hm2 & Hq2).
  assert (s1 = self1) by congruence. subst s1.
  pose proof Hs1 as (_ & _ & Hpin & Hrb & _).
  exists s2. split; [exact Hg2|].
  split; [by eapply stable_trans|].
  split; [congruence|]. split; [congruence|].
  split; [intros j Hj; rewrite Ho2, Ho1; done|].
  split; [congruence|]. split; [congruence|].
  split.
  - eapply mem_ext_trans; [exact Hm1|]. by rewrite <- Hrb.
  - eapply gpio_frame_trans; [exact Hq1|]. by rewrite <- Hpin.
Qed.

(** X4. The footprint of the loop. Whatever a run of the loop of an instance
    reads from the counter and the input, it writes only to this instance,
    to the words of its receive buffer and to its transmit pin: the buffer
    handles, the queued length, the capacity, the pins and the flag of the
    instance, the other instances, the allocation counter, the timer, every
    other memory block, the size of every block, the pin directions and the
    levels of all other pins are as before. *)
Theorem wio_enable_loop_frame (inputs : list (Z * Z)) :
  forall (i : Z) (st st' : state) (self : wio_inst_type),
  get_inst st i = Some self ->
  wio_enable_loop inputs i st = Some st' ->
  loop_frame i self st st'.
Proof.
  induction inputs as [|[t rx] inputs IH]; intros i st st' self Hget H.
  - simpl in H. simplify_eq. by apply loop_frame_refl.
  - rewrite wio_enable_loop_cons in H.
    destruct (wio_loop_iter i t rx st) as [st1|] eqn:Hit; [|done].
    pose proof (wio_loop_iter_frame _ _ _ _ _ _ Hget Hit) as Hf1.
    destruct Hf1 as (self1 & Hg1 & Hrest).
    eapply (loop_frame_trans i self self1 st st1 st'); [exact Hg1| |].
    + exists self1. by split.
    + by eapply IH.
Qed.

(** ** Safety of a whole run *)

Lemma handle_tx_mono now self m gs self1 gs1 :
  handle_tx now self m gs = Some (self1, gs1) ->
  0 <= tx_buffer_cur self <= tx_buffer_len self ->
  tx_buffer_len self < wrap32 ->
  tx_buffer_cur self <= tx_buffer_cur self1.
Proof.
  intros H Hc Hl. revert H. unfold handle_tx.
  destruct (tx_buffer_cur self =? tx_buffer_len self) eqn:E.
  { intros; simplify_eq. lia. }
  apply Z.eqb_neq in E.
  repeat case_match; intros; simplify_eq; simpl in *;
    try rewrite u32_small; lia.
Qed.

Lemma wio_loop_body_mono now rx self m gs self' m' gs' :
  wio_loop_body now rx self m gs = Some (self', m', gs') ->
  0 <= tx_buffer_cur self <= tx_buffer_len self ->
  tx_buffer_len self < wrap32 ->
  tx_buffer_cur self <= tx_buffer_cur self'.
Proof.
  unfold wio_loop_body. intros H Hc Hl.
  destruct (handle_tx now self m gs) as [[self1 gs1]|] eqn:Htx; [|done].
  destruct (handle_rx now rx self1 m) as [[self2 m2]|] eqn:Hrx; [|done].
  simplify_eq.
  pose proof (handle_tx_mono _ _ _ _ _ _ Htx Hc Hl).
  destruct (handle_rx_frame _ _ _ _ _ _ Hrx) as ((_ & Tc & _) & _).
  lia.
Qed.

(** X5. Safety of the loop. When the cursors, the queued length and the
    capacity of an instance are inside its buffers, a run of its loop makes
    no access outside them, whatever the counter and the input read and
    however long it runs; the condition holds again afterwards, and the
    transmit cursor has not moved back. *)
Theorem wio_enable_loop_safe (inputs : list (Z * Z)) :
  forall (i : Z) (st : state) (self : wio_inst_type),
  get_inst st i = Some self ->
  inst_safe self (mem st) = true ->
  exists st' self',
    wio_enable_loop inputs i st = Some st' /\
    get_inst st' i = Some self' /\
    inst_safe self' (mem st') = true /\
    tx_buffer_cur self <= tx_buffer_cur self' <= tx_buffer_len self.
Proof.
  induction inputs as [|[t rx] inputs IH]; intros i st self Hget Hsafe.
  - exists st, self. split; [reflexivity|]. split; [exact Hget|].
    split; [exact Hsafe|]. destruct (inst_safe_spec _ _ Hsafe) as (_&_&?&_). lia.
  - rewrite wio_enable_loop_cons. unfold wio_loop_iter. rewrite Hget.
    destruct (main_loop_running self =? 0) eqn:E.
    { apply (IH i st self Hget Hsafe). }
    destruct (wio_loop_body_safe self (mem st) (gpio st) t rx Hsafe)
      as (self1 & m1 & gs1 & Hb & Hsafe1).
    rewrite Hb.
    set (st1 := {| wio_inst := <[Z.to_nat i := self1]> (wio_inst st);
                   wio_inst_count := wio_inst_count st;
                   xtimer_starts := xtimer_starts st;
                   mem := m1; gpio := gs1 |}).
    assert (Hget1 : get_inst st1 i = Some self1).
    { unfold st1. erewrite get_inst_put by exact Hget. by rewrite decide_True. }
    destruct (IH i st1 self1 Hget1 Hsafe1) as (st' & self' & Hrun & Hg & Hs & Hc).
    exists st', self'. split; [exact Hrun|]. split; [exact Hg|].
    split; [exact Hs|].
    destruct (inst_safe_spec _ _ Hsafe) as (_ & _ & Hc0 & Hl0).
    pose proof (wio_loop_body_mono _ _ _ _ _ _ _ _ Hb Hc0 Hl0).
    destruct (wio_loop_body_frame _ _ _ _ _ _ _ _ Hb) as ((_ & Hlen & _) & _).
    lia.
Qed.

(** ** Calls and the other instances *)

(** X6. Isolation of the instances. A step changes no slot of the table but
    the one it works on; only a construction moves the allocation counter
    or starts the timer; only an iteration of a loop writes to memory; and
    only a construction or an iteration touches the pins. *)
Theorem step_other_instances (ev : event) (st st' : state) :
  step ev st = Some st' ->
  (forall j, j <> event_target ev st -> get_inst st' j = get_inst st j) /\
  (is_call ev = true ->
     wio_inst_count st' = wio_inst_count st /\
     xtimer_starts st' = xtimer_starts st) /\
  (is_iter ev = false -> mem st' = mem st) /\
  (is_call ev = true -> is_iter ev = false -> gpio st' = gpio st).
Proof.
  assert (Hupd : forall f i, update_inst f i st = Some st' ->
            (forall j, j <> i -> get_inst st' j = get_inst st j) /\
            wio_inst_count st' = wio_inst_count st /\
            xtimer_starts st' = xtimer_starts st /\
            mem st' = mem st /\ gpio st' = gpio st).
  { intros f i H. unfold update_inst in H.
    destruct (get_inst st i) as [slot|] eqn:Hget; [|done]. simplify_eq.
    split; [|done]. intros j Hj.
    erewrite get_inst_set_inst by exact Hget. by rewrite decide_False. }
  destruct ev as [tp tb rp rb rl|i|i t rx|i|i n|i]; simpl; intros H.
  - unfold wio_new in H.
    destruct (get_inst st (s32 (wio_inst_count st))) as [slot|] eqn:Hget;
      [|done].
    simpl in H. simplify_eq. split; [|done]. intros j Hj.
    erewrite get_inst_put by exact Hget. by rewrite decide_False.
  - unfold wio_enable in H. destruct (get_inst st i) as [self|] eqn:Hget; [|done].
    destruct (negb (main_loop_running self =? 0)); simpl in H; simplify_eq.
    + done.
    + split; [|done]. intros j Hj.
      erewrite get_inst_set_inst by exact Hget. by rewrite decide_False.
  - destruct (get_inst st i) as [self|] eqn:Hget.
    2:{ unfold wio_loop_iter in H. by rewrite Hget in H. }
    destruct (wio_loop_iter_frame _ _ _ _ _ _ Hget H)
      as (s1 & _ & _ & _ & _ & Ho & Hc & Hx & _).
    done.
  - destruct (Hupd _ _ H) as (? & ? & ? & ? & ?). done.
  - destruct (Hupd _ _ H) as (? & ? & ? & ? & ?). done.
  - destruct (Hupd _ _ H) as (? & ? & ? & ? & ?). done.
Qed.

(** ** The idle transmitter *)

Lemma run_idle_same inputs : forall self m gs,
  tx_buffer_cur self = tx_buffer_len self -> rx_safe self m ->
  exists self' m',
    run_body inputs (self, m, gs) = Some (self', m', gs) /\
    tx_same self self'.
Proof.
  induction inputs as [|[t rx] inputs IH]; intros self m gs Hc Hrx.
  - exists self, m. split; [reflexivity|]. unfold tx_same. repeat split.
  - destruct (wio_loop_body_of_tx t rx _ _ _ _ _ (handle_tx_idle t self m gs Hc) Hrx)
      as (self2 & m2 & Hbody & Hsame & Hst & Hrx2 & _).
    pose proof Hsame as (Ha & Hc2 & Hl2 & Hb & Hd & He & Hf & Hg).
    destruct (IH self2 m2 gs ltac:(congruence) Hrx2)
      as (self' & m' & Hrun & Hsame').
    exists self', m'. simpl. rewrite Hbody.
    split; [exact Hrun|].
    destruct Hsame' as (? & ? & ? & ? & ? & ? & ? & ?).
    unfold tx_same. repeat split; congruence.
Qed.

(** X7. The idle transmitter is silent. While the transmit cursor stands at
    the queued length (a new instance, a finished transmission, or after
    [wio_tx_start] with the length 0) the loop never writes a pin and
    never reads the transmit buffer, which need not even exist: whatever
    it reads, it runs without fault and leaves the pins and every transmit
    field as they were. *)
Theorem idle_transmitter_is_silent (inputs : list (Z * Z)) (i : Z)
    (st : state) (self : wio_inst_type) :
  get_inst st i = Some self ->
  tx_buffer_cur self = tx_buffer_len self ->
  rx_in_bounds self (mem st) = true ->
  exists st' self',
    wio_enable_loop inputs i st = Some st' /\
    get_inst st' i = Some self' /\
    gpio st' = gpio st /\
    tx_same self self'.
Proof.
  intros Hget Hc Hrx. apply rx_in_bounds_spec in Hrx.
  destruct (Z.eq_dec (main_loop_running self) 0) as [Hf|Hf].
  - exists st, self. split; [by eapply wio_enable_loop_stopped|].
    split; [exact Hget|]. split; [reflexivity|]. unfold tx_same. repeat split.
  - destruct (run_idle_same inputs self (mem st) (gpio st) Hc Hrx)
      as (self' & m' & Hrun & Hsame).
    exists (commit i (self', m', gpio st) st), self'.
    split; [by eapply wio_enable_loop_run|].
    split; [by erewrite get_inst_commit by exact Hget|].
    split; [reflexivity | exact Hsame].
Qed.

(** ** The output pin and the transmit cursor *)

Lemma tx_level_parity cur : tx_level cur = (cur + 1) mod 2.
Proof.
  unfold tx_level. rewrite land_1_mod_2. unfold Z.lnot, Z.pred.
  unfold u32, wrap32. change (2 ^ 32) with 4294967296.
  Z.to_euclidean_division_equations. lia.
Qed.

Lemma handle_tx_cases now self m gs self1 gs1 :
  handle_tx now self m gs = Some (self1, gs1) ->
  0 <= tx_buffer_cur self <= tx_buffer_len self ->
  tx_buffer_len self < wrap32 ->
  (tx_buffer_cur self1 = tx_buffer_cur self /\ gs1 = gs) \/
  (tx_buffer_cur self1 = tx_buffer_cur self + 1 /\
   gs1 = gpio_write (tx_pin self) ((tx_buffer_cur self + 1) mod 2) gs).
Proof.
  intros H Hc Hl.
  destruct (Z.eq_dec (tx_buffer_cur self1) (tx_buffer_cur self)) as [E|E].
  - left. split; [exact E|]. revert H E. unfold handle_tx.
    destruct (tx_buffer_cur self =? tx_buffer_len self) eqn:E1.
    { intros; by simplify_eq. }
    apply Z.eqb_neq in E1.
    repeat case_match; intros; simplify_eq; simpl in *; try done;
      rewrite u32_small in * by lia; lia.
  - right. destruct (handle_tx_fired_inv _ _ _ _ _ _ H E)
      as (_ & v & Hv & Hcur & _ & _ & Hgs).
    assert (tx_buffer_cur self <> tx_buffer_len self).
    { intros Heq. rewrite (handle_tx_idle _ _ _ _ Heq) in H. by simplify_eq. }
    rewrite u32_small in Hcur by lia.
    split; [exact Hcur|]. by rewrite Hgs, tx_level_parity.
Qed.

Lemma wio_loop_body_level now rx self m gs self' m' gs' :
  wio_loop_body now rx self m gs = Some (self', m', gs') ->
  0 <= tx_buffer_cur self <= tx_buffer_len self ->
  tx_buffer_len self < wrap32 ->
  (0 < tx_buffer_cur self ->
   gpio_level gs !! tx_pin self = Some (tx_buffer_cur self mod 2)) ->
  0 <= tx_buffer_cur self' <= tx_buffer_len self' /\
  tx_buffer_len self' = tx_buffer_len self /\
  tx_pin self' = tx_pin self /\
  (0 < tx_buffer_cur self' ->
   gpio_level gs' !! tx_pin self' = Some (tx_buffer_cur self' mod 2)).
Proof.
  unfold wio_loop_body. intros H Hc Hl Hinv.
  destruct (handle_tx now self m gs) as [[self1 gs1]|] eqn:Htx; [|done].
  destruct (handle_rx now rx self1 m) as [[self2 m2]|] eqn:Hrx; [|done].
  simplify_eq.
  destruct (handle_tx_frame _ _ _ _ _ _ Htx) as (_ & Hlen & Hpin & _).
  destruct (handle_rx_frame _ _ _ _ _ _ Hrx)
    as ((_ & Tc & Tl & _ & _ & Tp & _) & _).
  pose proof (handle_tx_cursor _ _ _ _ _ _ Htx Hc Hl) as Hc1.
  rewrite Tc, Tl, Tp, Hlen, Hpin. rewrite Hlen in Hc1.
  split; [exact Hc1|]. split; [reflexivity|]. split; [reflexivity|].
  intros Hpos.
  destruct (handle_tx_cases _ _ _ _ _ _ Htx Hc Hl) as [[E ->]|[E ->]];
    rewrite E in *.
  - by apply Hinv.
  - unfold gpio_write. cbn [gpio_level]. by rewrite lookup_insert_eq.
Qed.

Lemma wio_enable_loop_level inputs : forall i st st' self,
  get_inst st i = Some self ->
  wio_enable_loop inputs i st = Some st' ->
  0 <= tx_buffer_cur self <= tx_buffer_len self ->
  tx_buffer_len self < wrap32 ->
  (0 < tx_buffer_cur self ->
   gpio_level (gpio st) !! tx_pin self = Some (tx_buffer_cur self mod 2)) ->
  exists self',
    get_inst st' i = Some self' /\
    0 <= tx_buffer_cur self' <= tx_buffer_len self /\
    (0 < tx_buffer_cur self' ->
     gpio_level (gpio st') !! tx_pin self = Some (tx_buffer_cur self' mod 2)).
Proof.
  induction inputs as [|[t rx] inputs IH]; intros i st st' self Hget H Hc Hl Hinv.
  - simpl in H. simplify_eq. by exists self.
  - rewrite wio_enable_loop_cons in H. unfold wio_loop_iter in H.
    rewrite Hget in H.
    destruct (main_loop_running self =? 0).
    { by apply (IH i st st' self). }
    destruct (wio_loop_body t rx self (mem st) (gpio st))
      as [[[self1 m1] gs1]|] eqn:Hb; [|done].
    destruct (wio_loop_body_level _ _ _ _ _ _ _ _ Hb Hc Hl Hinv)
      as (Hc1 & Hl1 & Hp1 & Hinv1).
    set (st1 := {| wio_inst := <[Z.to_nat i := self1]> (wio_inst st);
                   wio_inst_count := wio_inst_count st;
                   xtimer_starts := xtimer_starts st;
                   mem := m1; gpio := gs1 |}) in *.
    assert (Hget1 : get_inst st1 i = Some self1).
    { unfold st1. erewrite get_inst_put by exact Hget. by rewrite decide_True. }
    destruct (IH i st1 st' self1 Hget1 H Hc1 ltac:(lia) Hinv1)
      as (self' & Hg' & Hc' & Hinv').
    exists self'. rewrite <- Hl1, <- Hp1. done.
Qed.

(** X8. The output follows the parity of the transmit cursor. After
    [wio_tx_start], as long as the loop of the instance is the only writer
    of its transmit pin, the pin is high when the cursor is odd and low
    when it is even and not 0: a transmission of an odd number of entries
    leaves the output high when it ends, one of an even number leaves it
    low. *)
Theorem tx_pin_follows_cursor (inputs : list (Z * Z)) (h n : Z)
    (st st1 st' : state) (slot : wio_inst_type) :
  get_inst st h = Some slot ->
  wio_tx_start h n st = Some st1 ->
  wio_enable_loop inputs h st1 = Some st' ->
  exists slot',
    get_inst st' h = Some slot' /\
    0 <= tx_buffer_cur slot' <= u32 n /\
    (0 < tx_buffer_cur slot' ->
     gpio_level (gpio st') !! tx_pin slot = Some (tx_buffer_cur slot' mod 2)) /\
    (tx_buffer_cur slot' = u32 n -> 0 < u32 n ->
     gpio_level (gpio st') !! tx_pin slot = Some (u32 n mod 2)).
Proof.
  intros Hget Hstart Hrun. unfold wio_tx_start, update_inst in Hstart.
  rewrite Hget in Hstart. simplify_eq.
  set (slot1 := set_tx_buffer_cur 0 (set_tx_buffer_len (u32 n) slot)) in *.
  assert (Hget1 : get_inst (set_inst h slot1 st) h = Some slot1).
  { erewrite get_inst_set_inst by exact Hget. by rewrite decide_True. }
  pose proof (u32_range n) as Hn.
  destruct (wio_enable_loop_level inputs h _ st' slot1 Hget1 Hrun)
    as (slot' & Hg & Hc & Hinv); simpl; try lia.
  exists slot'. split; [exact Hg|]. split; [exact Hc|].
  split; [exact Hinv|]. intros E Hpos. rewrite <- E. apply Hinv. lia.
Qed.

(** ** The receive half *)

(** One iteration, seen from the receive half. *)
Lemma wio_loop_body_rx now rx self m gs :
  inst_safe self m = true ->
  exists self' m' gs',
    wio_loop_body now rx self m gs = Some (self', m', gs') /\
    inst_safe self' m' = true /\
    main_loop_running self' = main_loop_running self /\
    rx_buffer self' = rx_buffer self /\
    rx_buffer_len self' = rx_buffer_len self /\
    (rx_edge rx self = false ->
       rx_buffer_cur self' = rx_buffer_cur self /\
       rx_last_time self' = rx_last_time self /\ m' = m) /\
    (rx_edge rx self = true ->
       rx_buffer_cur self' = (rx_buffer_cur self + 1) mod rx_buffer_len self /\
       rx_last_time self' = now /\
       load m' (rx_buffer self) (rx_buffer_cur self)
         = Some (u32 (now - rx_last_time self))).
Proof.
  intros Hsafe.
  destruct (wio_loop_body_safe self m gs now rx Hsafe)
    as (self' & m' & gs' & Hb & Hsafe').
  exists self', m', gs'. split; [exact Hb|]. split; [exact Hsafe'|].
  destruct (wio_loop_body_frame _ _ _ _ _ _ _ _ Hb)
    as ((_ & _ & _ & Hrb & Hfl) & Hn & _).
  split; [exact Hfl|]. split; [exact Hrb|]. split; [exact Hn|].
  destruct (inst_safe_spec _ _ Hsafe) as (_ & (lr & Hlr & Hc & Hlen & Hw) & _).
  unfold wio_loop_body in Hb.
  destruct (handle_tx now self m gs) as [[self1 gs1]|] eqn:Htx; [|done].
  destruct (handle_rx now rx self1 m) as [[self2 m2]|] eqn:Hrx; [|done].
  simplify_eq.
  destruct (handle_tx_frame _ _ _ _ _ _ Htx)
    as (_ & _ & _ & Fb & Fc & Fn & Ft & _).
  assert (Hedge : rx_edge rx self1 = rx_edge rx self).
  { unfold rx_edge. by rewrite Fc. }
  unfold handle_rx in Hrx. rewrite Hedge in Hrx.
  split; intros E; rewrite E in Hrx.
  - simplify_eq. done.
  - unfold store in Hrx. rewrite Fb, Fc, Fn, Ft, Hlr in Hrx.
    destruct ((0 <=? rx_buffer_cur self)
              && (rx_buffer_cur self <? Z.of_nat (length lr))) eqn:Eb.
    2:{ apply andb_false_iff in Eb as [Eb|Eb]; lia. }
    destruct (rx_buffer_len self =? 0) eqn:E0; [lia|]. simplify_eq. simpl.
    rewrite u32_small by lia.
    split; [reflexivity|]. split; [reflexivity|].
    unfold load. rewrite lookup_insert_eq.
    destruct (0 <=? rx_buffer_cur self) eqn:E1; [|lia].
    apply list_lookup_insert_eq. lia.
Qed.

Lemma is_level_spec l : is_level l = true -> l = 0 \/ l = 1.
Proof. unfold is_level. intros H. apply orb_prop in H as [H|H]; lia. Qed.

Lemma succ_mod_even c n :
  0 < n -> n mod 2 = 0 -> ((c + 1) mod n) mod 2 = (c + 1) mod 2.
Proof.
  intros Hn He. Z.to_euclidean_division_equations. lia.
Qed.

Lemma wio_loop_body_rx_parity now level self m gs self' m' gs' :
  wio_loop_body now level self m gs = Some (self', m', gs') ->
  0 <= rx_buffer_cur self < rx_buffer_len self ->
  rx_buffer_len self < wrap32 ->
  rx_buffer_len self mod 2 = 0 ->
  is_level level = true ->
  rx_buffer_cur self' mod 2 = level.
Proof.
  intros Hb Hc Hw He Hlev. apply is_level_spec in Hlev.
  unfold wio_loop_body in Hb.
  destruct (handle_tx now self m gs) as [[self1 gs1]|] eqn:Htx; [|done].
  destruct (handle_rx now level self1 m) as [[self2 m2]|] eqn:Hrx; [|done].
  simplify_eq.
  destruct (handle_tx_frame _ _ _ _ _ _ Htx)
    as (_ & _ & _ & _ & Fc & Fn & _).
  destruct (handle_rx_cursor _ _ _ _ _ _ Hrx ltac:(lia) ltac:(lia))
    as (_ & _ & _ & Hcur & _).
  rewrite Hcur, Fc, Fn.
  destruct (rx_edge level self1) eqn:E.
  - apply (rx_edge_level level self1 Hlev) in E. rewrite Fc in E.
    rewrite succ_mod_even by lia.
    Z.to_euclidean_division_equations. lia.
  - destruct (Z.eq_dec (rx_buffer_cur self mod 2) level) as [|Hne];
      [done|].
    rewrite <- Fc in Hne.
    apply (rx_edge_level level self1 Hlev) in Hne. congruence.
Qed.

(** X9. Edge detection with an even capacity. The receive half keeps no
    copy of the input level: it takes the parity of the receive cursor for
    it. With an even capacity this is sound: after every iteration the
    parity of the cursor is the level just read, so the next iteration
    records an interval exactly when the level it reads is a different
    one, also when the cursor has wrapped in between. *)
Theorem rx_cursor_parity_is_level (now level : Z) (self self' : wio_inst_type)
    (m m' : memory) (gs gs' : gpio_state) :
  wio_loop_body now level self m gs = Some (self', m', gs') ->
  0 <= rx_buffer_cur self < rx_buffer_len self ->
  rx_buffer_len self < wrap32 ->
  rx_buffer_len self mod 2 = 0 ->
  is_level level = true ->
  rx_buffer_cur self' mod 2 = level /\
  (forall next, is_level next = true ->
     (rx_edge next self' = true <-> next <> level)).
Proof.
  intros Hb Hc Hw He Hlev.
  pose proof (wio_loop_body_rx_parity _ _ _ _ _ _ _ _ Hb Hc Hw He Hlev) as Hpar.
  split; [exact Hpar|].
  intros next Hnext. apply is_level_spec in Hnext.
  rewrite (rx_edge_level next self' Hnext), Hpar. split; intros; congruence.
Qed.

(** X10. An odd capacity breaks the edge detection. When the cursor wraps
    from the last word of a buffer of odd capacity, its parity no longer
    follows the input: the iteration that records a rising edge in the
    last word moves the cursor to 0, and the next iteration, reading the
    input still high, records another interval in word 0 although the
    level has not changed. *)
Theorem odd_capacity_records_without_edge (t1 t2 : Z) (self : wio_inst_type)
    (m : memory) (gs : gpio_state) :
  inst_safe self m = true ->
  rx_buffer_len self mod 2 = 1 ->
  rx_buffer_cur self = rx_buffer_len self - 1 ->
  exists self1 m1 gs1 self2 m2 gs2,
    wio_loop_body t1 1 self m gs = Some (self1, m1, gs1) /\
    rx_buffer_cur self1 = 0 /\
    wio_loop_body t2 1 self1 m1 gs1 = Some (self2, m2, gs2) /\
    rx_buffer_cur self2 = 1 mod rx_buffer_len self /\
    load m2 (rx_buffer self) 0 = Some (u32 (t2 - t1)).
Proof.
  intros Hsafe Hodd Hcur.
  destruct (inst_safe_spec _ _ Hsafe) as (_ & (lr & Hlr & Hc & Hlen & Hw) & _).
  destruct (wio_loop_body_rx t1 1 self m gs Hsafe)
    as (self1 & m1 & gs1 & Hb1 & Hsafe1 & _ & Hrb1 & Hn1 & _ & He1).
  assert (E1 : rx_edge 1 self = true).
  { apply rx_edge_level; [by right|]. rewrite Hcur.
    Z.to_euclidean_division_equations. lia. }
  destruct (He1 E1) as (Hc1 & Ht1 & _).
  assert (Hz : rx_buffer_cur self1 = 0).
  { rewrite Hc1, Hcur. replace (rx_buffer_len self - 1 + 1)
      with (rx_buffer_len self) by lia. apply Z.mod_same. lia. }
  destruct (wio_loop_body_rx t2 1 self1 m1 gs1 Hsafe1)
    as (self2 & m2 & gs2 & Hb2 & _ & _ & _ & _ & _ & He2).
  assert (E2 : rx_edge 1 self1 = true).
  { apply rx_edge_level; [by right|]. rewrite Hz. done. }
  destruct (He2 E2) as (Hc2 & _ & Hld).
  exists self1, m1, gs1, self2, m2, gs2.
  split; [exact Hb1|]. split; [exact Hz|]. split; [exact Hb2|].
  rewrite Hc2, Hz, Hn1. split; [reflexivity|].
  by rewrite Hrb1, Hz, Ht1 in Hld.
Qed.

Lemma wio_loop_iter_running i t rx st self self1 m1 gs1 :
  get_inst st i = Some self ->
  main_loop_running self <> 0 ->
  wio_loop_body t rx self (mem st) (gpio st) = Some (self1, m1, gs1) ->
  wio_loop_iter i t rx st = Some (commit i (self1, m1, gs1) st) /\
  get_inst (commit i (self1, m1, gs1) st) i = Some self1.
Proof.
  intros Hget Hf Hb. unfold wio_loop_iter. rewrite Hget, Hb.
  destruct (main_loop_running self =? 0) eqn:E; [lia|].
  split; [reflexivity|]. by erewrite get_inst_commit by exact Hget.
Qed.

(** X11. The receive cursor counts the level changes. With an even capacity,
    a run of the loop advances the receive cursor by one for every change
    of the input level between successive iterations (the parity of the
    cursor standing for the level before the first one), and by nothing
    else: afterwards the cursor is the old cursor plus the number of
    changes, modulo the capacity. *)
Theorem rx_cursor_counts_level_changes (inputs : list (Z * Z)) :
  forall (i : Z) (st : state) (self : wio_inst_type),
  get_inst st i = Some self ->
  main_loop_running self <> 0 ->
  inst_safe self (mem st) = true ->
  rx_buffer_len self mod 2 = 0 ->
  forallb (fun x => is_level x.2) inputs = true ->
  exists st' self',
    wio_enable_loop inputs i st = Some st' /\
    get_inst st' i = Some self' /\
    rx_buffer_cur self' =
      (rx_buffer_cur self
       + level_changes (rx_buffer_cur self mod 2) (map snd inputs))
      mod rx_buffer_len self.
Proof.
  induction inputs as [|[t rx] inputs IH]; intros i st self Hget Hf Hsafe He Hlv.
  - exists st, self. split; [reflexivity|]. split; [exact Hget|].
    simpl. rewrite Z.add_0_r.
    destruct (inst_safe_spec _ _ Hsafe) as (_ & (lr & _ & Hc & _) & _).
    by rewrite Z.mod_small.
  - simpl in Hlv. apply andb_prop in Hlv as [Hl Hlv].
    destruct (inst_safe_spec _ _ Hsafe) as (_ & (lr & _ & Hc & _ & Hw) & _).
    destruct (wio_loop_body_rx t rx self (mem st) (gpio st) Hsafe)
      as (self1 & m1 & gs1 & Hb & Hsafe1 & Hfl & _ & Hn & Hq & Hed).
    destruct (wio_loop_iter_running _ _ _ _ _ _ _ _ Hget Hf Hb) as [Hit Hget1].
    pose proof (wio_loop_body_rx_parity _ _ _ _ _ _ _ _ Hb Hc Hw He Hl) as Hpar.
    destruct (IH i _ self1 Hget1 ltac:(congruence) Hsafe1 ltac:(congruence) Hlv)
      as (st' & self' & Hrun & Hg' & Hcur').
    exists st', self'. rewrite wio_enable_loop_cons, Hit.
    split; [exact Hrun|]. split; [exact Hg'|].
    rewrite Hcur', Hpar, Hn. cbn [map level_changes snd].
    apply is_level_spec in Hl.
    destruct (rx_edge rx self) eqn:E.
    + destruct (Hed eq_refl) as (-> & _).
      pose proof (proj1 (rx_edge_level rx self Hl) E) as Hne.
      destruct (rx =? rx_buffer_cur self mod 2) eqn:E2; [lia|].
      rewrite Zplus_mod_idemp_l. f_equal. lia.
    + destruct (Hq eq_refl) as (-> & _).
      destruct (rx =? rx_buffer_cur self mod 2) eqn:E2; [f_equal; lia|].
      assert (rx_edge rx self = true); [|congruence].
      apply rx_edge_level; [done|lia].
Qed.

Lemma wio_enable_loop_quiet l quiet : forall i st self,
  get_inst st i = Some self ->
  main_loop_running self <> 0 ->
  inst_safe self (mem st) = true ->
  is_level l = true ->
  rx_buffer_cur self mod 2 = l ->
  forallb (fun x : Z * Z => x.2 =? l) quiet = true ->
  exists st' self',
    wio_enable_loop (readings quiet) i st = Some st' /\
    get_inst st' i = Some self' /\
    main_loop_running self' <> 0 /\
    inst_safe self' (mem st') = true /\
    rx_buffer self' = rx_buffer self /\
    rx_buffer_len self' = rx_buffer_len self /\
    rx_buffer_cur self' = rx_buffer_cur self /\
    rx_last_time self' = rx_last_time self.
Proof.
  induction quiet as [|[t rx] quiet IH]; intros i st self Hget Hf Hsafe Hl Hp Hq.
  - exists st, self. repeat split; done.
  - simpl in Hq. apply andb_prop in Hq as [Hrx Hq]. apply Z.eqb_eq in Hrx.
    subst rx.
    destruct (wio_loop_body_rx (u32 t) l self (mem st) (gpio st) Hsafe)
      as (self1 & m1 & gs1 & Hb & Hsafe1 & Hfl & Hrb & Hn & Hno & _).
    assert (E : rx_edge l self = false).
    { destruct (rx_edge l self) eqn:E; [|done].
      apply (rx_edge_level l self (is_level_spec _ Hl)) in E. lia. }
    destruct (Hno E) as (Hc1 & Ht1 & _).
    destruct (wio_loop_iter_running _ _ _ _ _ _ _ _ Hget Hf Hb) as [Hit Hget1].
    destruct (IH i _ self1 Hget1 ltac:(congruence) Hsafe1 Hl ltac:(congruence) Hq)
      as (st' & self' & Hrun & Hg' & Hf' & Hs' & Hb' & Hn' & Hc' & Ht').
    exists st', self'.
    change (readings ((t, l) :: quiet)) with ((u32 t, l) :: readings quiet).
    rewrite wio_enable_loop_cons, Hit.
    repeat split; try done; congruence.
Qed.

(** X12. A recorded interval is the elapsed time. With an even capacity, when
    the loop sees the input change at the time [t1], sees it unchanged in
    any number of later iterations and sees it change back at [t2], less
    than [2^32] ticks after [t1], the word it writes is [t2 - t1] exactly,
    whether or not the counter has wrapped in between; the cursor has
    advanced by two. *)
Theorem rx_interval_is_elapsed_time (i l t1 t2 : Z) (quiet : list (Z * Z))
    (st : state) (self : wio_inst_type) :
  get_inst st i = Some self ->
  main_loop_running self <> 0 ->
  inst_safe self (mem st) = true ->
  rx_buffer_len self mod 2 = 0 ->
  is_level l = true ->
  rx_buffer_cur self mod 2 <> l ->
  forallb (fun x : Z * Z => x.2 =? l) quiet = true ->
  t1 <= t2 < t1 + wrap32 ->
  exists st',
    wio_enable_loop (readings ((t1, l) :: quiet ++ [(t2, 1 - l)])) i st
      = Some st' /\
    load (mem st') (rx_buffer self)
      ((rx_buffer_cur self + 1) mod rx_buffer_len self) = Some (t2 - t1) /\
    (rx_buffer_cur <$> get_inst st' i)
      = Some ((rx_buffer_cur self + 2) mod rx_buffer_len self).
Proof.
  intros Hget Hf Hsafe He Hl Hp Hq Ht.
  pose proof (is_level_spec _ Hl) as Hl'.
  destruct (inst_safe_spec _ _ Hsafe) as (_ & (lr & _ & Hc & _ & Hw) & _).
  (* the iteration at t1 *)
  destruct (wio_loop_body_rx (u32 t1) l self (mem st) (gpio st) Hsafe)
    as (self1 & m1 & gs1 & Hb & Hsafe1 & Hfl & Hrb & Hn & _ & Hed).
  assert (E : rx_edge l self = true) by (by apply rx_edge_level).
  destruct (Hed E) as (Hc1 & Ht1 & _).
  destruct (wio_loop_iter_running _ _ _ _ _ _ _ _ Hget Hf Hb) as [Hit Hget1].
  pose proof (wio_loop_body_rx_parity _ _ _ _ _ _ _ _ Hb Hc Hw He Hl) as Hpar.
  (* the iterations in between *)
  destruct (wio_enable_loop_quiet l quiet i _ self1 Hget1
              ltac:(congruence) Hsafe1 Hl Hpar Hq)
    as (st2 & self2 & Hrun2 & Hget2 & Hf2 & Hsafe2 & Hb2 & Hn2 & Hc2 & Ht2).
  (* the iteration at t2 *)
  destruct (wio_loop_body_rx (u32 t2) (1 - l) self2 (mem st2) (gpio st2) Hsafe2)
    as (self3 & m3 & gs3 & Hb3 & _ & _ & _ & _ & _ & Hed3).
  assert (E3 : rx_edge (1 - l) self2 = true).
  { apply rx_edge_level; [lia|]. rewrite Hc2. lia. }
  destruct (Hed3 E3) as (Hc3 & _ & Hld).
  destruct (wio_loop_iter_running _ _ _ _ _ _ _ _ Hget2 Hf2 Hb3) as [Hit3 Hget3].
  exists (commit i (self3, m3, gs3) st2).
  change (readings ((t1, l) :: quiet ++ [(t2, 1 - l)]))
    with ((u32 t1, l) :: readings (quiet ++ [(t2, 1 - l)])).
  rewrite wio_enable_loop_cons, Hit, readings_app, wio_enable_loop_app, Hrun2.
  change (readings [(t2, 1 - l)]) with [(u32 t2, 1 - l)].
  rewrite wio_enable_loop_cons, Hit3.
  split; [reflexivity|]. split.
  - cbn [mem commit fst snd].
    rewrite Hb2, Hrb, Hc2, Hc1, Ht2, Ht1 in Hld. rewrite Hld. f_equal.
    clear -Ht. tlia.
  - rewrite Hget3. cbn [fmap option_fmap option_map]. f_equal.
    rewrite Hc3, Hc2, Hc1, Hn2, Hn.
    rewrite Zplus_mod_idemp_l. f_equal. lia.
Qed.

(** ** The constructor *)

(** X13. The shared timer is started once per round of the table. From the
    start of the program, [n] constructions have run the start-up sequence
    of the timer [ceil(n / 8)] times: at the first construction and again
    at every construction that takes slot 0. *)
Theorem xtimer_starts_count (m : memory) (args : list (Z * Z * Z * Z * Z)) :
  exists hs st,
    wio_new_all args (initial_state m) = Some (hs, st) /\
    Z.of_nat (xtimer_starts st) = (Z.of_nat (length args) + 7) / 8.
Proof.
  destruct (wio_new_all_timer_starts args (initial_state m)
              (table_ok_initial m)) as (hs & st & Hall & Hcnt).
  exists hs, st. split; [exact Hall|]. rewrite Hcnt.
  cbn [initial_state wio_inst_count xtimer_starts].
  change (Z.of_nat 0) with 0. change ((0 + 7) / 8) with 0.
  rewrite !Z.add_0_l. lia.
Qed.

(** X14. The pins after a construction. The constructor configures the
    receive pin as an input and, when it is another pin, the transmit pin
    as an output; given the same pin for both, it leaves it an input. It
    drives no level, and the direction of no other pin changes. *)
Theorem wio_new_pin_directions (st : state) (tp tb rp rb rl : Z) :
  table_ok st ->
  exists h st',
    wio_new tp tb rp rb rl st = Some (h, st') /\
    gpio_dir (gpio st') !! u32 rp = Some GPIO_IN /\
    (u32 tp <> u32 rp -> gpio_dir (gpio st') !! u32 tp = Some GPIO_OUT) /\
    (forall p, p <> u32 tp -> p <> u32 rp ->
       gpio_dir (gpio st') !! p = gpio_dir (gpio st) !! p) /\
    gpio_level (gpio st') = gpio_level (gpio st).
Proof.
  intros Hok.
  assert (Hs : s32 (wio_inst_count st) = wio_inst_count st).
  { apply s32_small. destruct Hok as [_ Hc]. unfold WIO_INST_COUNT in Hc. lia. }
  destruct (table_ok_get st (wio_inst_count st) Hok) as [old Hold].
  { apply Hok. }
  unfold wio_new. rewrite Hs, Hold. cbn zeta. eexists _, _.
  split; [reflexivity|]. cbn. unfold gpio_open.
  split; [by rewrite lookup_insert_eq|].
  split.
  { intros Hne. rewrite lookup_insert_ne by done. by rewrite lookup_insert_eq. }
  split; [|reflexivity].
  intros p Hp1 Hp2. by rewrite !lookup_insert_ne.
Qed.

(** ** Calls interleaved with the loop *)

Lemma mem_ext_length p m m' q l :
  mem_ext p m m' -> m !! q = Some l ->
  exists l', m' !! q = Some l' /\ length l' = length l.
Proof.
  intros [Ho Hp] Hq. destruct (decide (q = p)) as [->|Hne].
  - by apply Hp.
  - exists l. by rewrite Ho.
Qed.

Lemma inst_safe_tx_words self m lt :
  inst_safe self m = true -> m !! tx_buffer self = Some lt ->
  tx_buffer_len self <= Z.of_nat (length lt).
Proof.
  intros Hs Hlt. destruct (inst_safe_spec _ _ Hs) as ((lt' & Hlt' & Hl) & _).
  congruence.
Qed.

Lemma wio_loop_iter_safe i t rx st self :
  get_inst st i = Some self ->
  inst_safe self (mem st) = true ->
  exists st' self',
    wio_loop_iter i t rx st = Some st' /\
    get_inst st' i = Some self' /\
    inst_safe self' (mem st') = true.
Proof.
  intros Hget Hsafe. unfold wio_loop_iter. rewrite Hget.
  destruct (main_loop_running self =? 0); [by exists st, self|].
  destruct (wio_loop_body_safe self (mem st) (gpio st) t rx Hsafe)
    as (self1 & m1 & gs1 & Hb & Hsafe1).
  rewrite Hb. eexists _, self1. split; [reflexivity|].
  split; [|exact Hsafe1].
  erewrite get_inst_put by exact Hget. by rewrite decide_True.
Qed.

Lemma step_call_safe i ev st self lt :
  get_inst st i = Some self ->
  inst_safe self (mem st) = true ->
  mem st !! tx_buffer self = Some lt ->
  call_safe i (Z.of_nat (length lt)) ev = true ->
  exists st' self' lt',
    step ev st = Some st' /\
    get_inst st' i = Some self' /\
    inst_safe self' (mem st') = true /\
    tx_buffer self' = tx_buffer self /\
    mem st' !! tx_buffer self = Some lt' /\ length lt' = length lt.
Proof.
  intros Hget Hsafe Hlt Hev.
  assert (Hupd : forall f,
            inst_safe (f self) (mem st) = true ->
            tx_buffer (f self) = tx_buffer self ->
            exists st' self' lt',
              update_inst f i st = Some st' /\
              get_inst st' i = Some self' /\
              inst_safe self' (mem st') = true /\
              tx_buffer self' = tx_buffer self /\
              mem st' !! tx_buffer self = Some lt' /\ length lt' = length lt).
  { intros f Hs Hb. exists (set_inst i (f self) st), (f self), lt.
    unfold update_inst. rewrite Hget. split; [reflexivity|].
    split; [erewrite get_inst_set_inst by exact Hget; by rewrite decide_True|].
    done. }
  destruct ev as [tp tb rp rb rl|j|j t rx|j|j n|j]; simpl in Hev;
    try discriminate.
  - (* wio_enable *)
    apply Z.eqb_eq in Hev. subst j. simpl. unfold wio_enable. rewrite Hget.
    destruct (negb (main_loop_running self =? 0)).
    + exists st, self, lt. done.
    + simpl. exists (set_inst i (set_main_loop_running 1 self) st),
        (set_main_loop_running 1 self), lt.
      split; [reflexivity|].
      split; [erewrite get_inst_set_inst by exact Hget; by rewrite decide_True|].
      done.
  - (* an iteration *)
    apply Z.eqb_eq in Hev. subst j. simpl.
    destruct (wio_loop_iter_safe i t rx st self Hget Hsafe)
      as (st' & self' & Hit & Hg' & Hs').
    pose proof (wio_loop_iter_frame _ _ _ _ _ _ Hget Hit)
      as (s1 & Hg1 & (Hb & _) & _ & _ & _ & _ & _ & Hm & _).
    assert (s1 = self') by congruence. subst s1.
    destruct (mem_ext_length _ _ _ _ _ Hm Hlt) as (lt' & Hlt' & Hlen).
    exists st', self', lt'. done.
  - (* wio_disable *)
    apply Z.eqb_eq in Hev. subst j. simpl. unfold wio_disable.
    apply Hupd; done.
  - (* wio_tx_start *)
    apply andb_prop in Hev as [Hj Hn]. apply Z.eqb_eq in Hj. subst j.
    simpl. unfold wio_tx_start. apply Hupd; [|done].
    destruct (inst_safe_spec _ _ Hsafe) as ((lt0 & Hlt0 & _) & Hrx & _).
    pose proof (u32_range n).
    apply inst_safe_intro; simpl; try lia.
    + exists lt. split; [exact Hlt|]. simpl. lia.
    + exact Hrx.
  - (* wio_rx_reset *)
    apply Z.eqb_eq in Hev. subst j. simpl. unfold wio_rx_reset.
    apply Hupd; [|done].
    destruct (inst_safe_spec _ _ Hsafe)
      as (Htx & (lr & Hlr & Hc & Hn & Hw) & Hc' & Hl').
    apply inst_safe_intro; try done.
    exists lr. simpl. split; [exact Hlr|]. lia.
Qed.

(** X15. What the caller has to guarantee. The program checks no length, but
    one condition on the caller is enough: from a state in which the
    cursors, the queued length and the capacity of an instance are inside
    its buffers, every interleaving of calls on this instance with the
    iterations of its loop runs without an access outside the buffers,
    provided each [wio_tx_start] asks for no more entries than the
    transmit buffer has words. *)
Theorem run_call_safe (evs : list event) :
  forall (i : Z) (st : state) (self : wio_inst_type) (lt : list Z),
  get_inst st i = Some self ->
  inst_safe self (mem st) = true ->
  mem st !! tx_buffer self = Some lt ->
  forallb (call_safe i (Z.of_nat (length lt))) evs = true ->
  exists st' self',
    run evs st = Some st' /\
    get_inst st' i = Some self' /\
    inst_safe self' (mem st') = true.
Proof.
  induction evs as [|ev evs IH]; intros i st self lt Hget Hsafe Hlt Hall.
  - by exists st, self.
  - simpl in Hall. apply andb_prop in Hall as [Hev Hall].
    destruct (step_call_safe i ev st self lt Hget Hsafe Hlt Hev)
      as (st1 & self1 & lt1 & Hstep & Hget1 & Hsafe1 & Hb & Hlt1 & Hlen).
    rewrite <- Hb in Hlt1. rewrite <- Hlen in Hall.
    destruct (IH i st1 self1 lt1 Hget1 Hsafe1 Hlt1 Hall)
      as (st' & self' & Hrun & Hg' & Hs').
    exists st', self'. simpl. rewrite Hstep. done.
Qed.

(** ** Loop-back *)

Lemma wio_loop_body_tx_cases now rx self m gs self' m' gs' :
  wio_loop_body now rx self m gs = Some (self', m', gs') ->
  0 <= tx_buffer_cur self <= tx_buffer_len self ->
  tx_buffer_len self < wrap32 ->
  tx_pin self' = tx_pin self /\
  ((tx_buffer_cur self' = tx_buffer_cur self /\ gs' = gs) \/
   (tx_buffer_cur self' = tx_buffer_cur self + 1 /\
    gs' = gpio_write (tx_pin self) ((tx_buffer_cur self + 1) mod 2) gs)).
Proof.
  unfold wio_loop_body. intros H Hc Hl.
  destruct (handle_tx now self m gs) as [[self1 gs1]|] eqn:Htx; [|done].
  destruct (handle_rx now rx self1 m) as [[self2 m2]|] eqn:Hrx; [|done].
  simplify_eq.
  destruct (handle_tx_frame _ _ _ _ _ _ Htx) as (_ & _ & Hpin & _).
  destruct (handle_rx_frame _ _ _ _ _ _ Hrx)
    as ((_ & Tc & _ & _ & _ & Tp & _) & _).
  rewrite Tc, Tp. split; [exact Hpin|].
  exact (handle_tx_cases _ _ _ _ _ _ Htx Hc Hl).
Qed.

Lemma pred_mod_even c n :
  0 < n -> n mod 2 = 0 -> ((c - 1) mod n) mod 2 <> c mod 2.
Proof. intros Hn He. Z.to_euclidean_division_equations. lia. Qed.

Lemma mod_mod_even c n : 0 < n -> n mod 2 = 0 -> (c mod n) mod 2 = c mod 2.
Proof. intros Hn He. Z.to_euclidean_division_equations. lia. Qed.

Lemma loopback_iter_step i t st self :
  get_inst st i = Some self ->
  main_loop_running self <> 0 ->
  inst_safe self (mem st) = true ->
  rx_buffer_len self mod 2 = 0 ->
  gpio_level_of (tx_pin self) (gpio st) = tx_buffer_cur self mod 2 ->
  rx_buffer_cur self = tx_buffer_cur self mod rx_buffer_len self \/
  rx_buffer_cur self = (tx_buffer_cur self - 1) mod rx_buffer_len self ->
  exists st' self',
    loopback_iter i t st = Some st' /\
    get_inst st' i = Some self' /\
    main_loop_running self' <> 0 /\
    inst_safe self' (mem st') = true /\
    rx_buffer_len self' = rx_buffer_len self /\
    tx_buffer_len self' = tx_buffer_len self /\
    gpio_level_of (tx_pin self') (gpio st') = tx_buffer_cur self' mod 2 /\
    rx_buffer_cur self' = tx_buffer_cur self mod rx_buffer_len self /\
    (tx_buffer_cur self' = tx_buffer_cur self \/
     tx_buffer_cur self' = tx_buffer_cur self + 1).
Proof.
  intros Hget Hf Hsafe He Hlev Hr.
  destruct (inst_safe_spec _ _ Hsafe)
    as (_ & (lr & _ & Hc & _ & Hw) & Htc & Htl).
  set (rx := gpio_level_of (tx_pin self) (gpio st)) in *.
  assert (Hl : rx = 0 \/ rx = 1).
  { rewrite Hlev. Z.to_euclidean_division_equations. lia. }
  destruct (wio_loop_body_rx t rx self (mem st) (gpio st) Hsafe)
    as (self1 & m1 & gs1 & Hb & Hsafe1 & Hfl & _ & Hn & Hno & Hed).
  destruct (wio_loop_iter_running _ _ _ _ _ _ _ _ Hget Hf Hb) as [Hit Hget1].
  destruct (wio_loop_body_frame _ _ _ _ _ _ _ _ Hb) as ((_ & Htlen & _) & _).
  destruct (wio_loop_body_tx_cases _ _ _ _ _ _ _ _ Hb Htc Htl) as (Hpin & Hcases).
  exists (commit i (self1, m1, gs1) st), self1.
  split; [unfold loopback_iter; rewrite Hget; exact Hit|].
  split; [exact Hget1|]. split; [congruence|]. split; [exact Hsafe1|].
  split; [exact Hn|]. split; [exact Htlen|].
  split; [|split].
  - cbn [gpio commit snd]. rewrite Hpin.
    destruct Hcases as [[E ->]|[E ->]]; rewrite E.
    + exact Hlev.
    + unfold gpio_level_of, gpio_write. cbn [gpio_level].
      by rewrite lookup_insert_eq.
  - destruct Hr as [Hr|Hr].
    + assert (E : rx_edge rx self = false).
      { destruct (rx_edge rx self) eqn:E; [|done].
        apply (rx_edge_level rx self Hl) in E.
        rewrite Hr, mod_mod_even in E by lia. congruence. }
      rewrite E in Hno. destruct (Hno eq_refl) as (-> & _). exact Hr.
    + assert (E : rx_edge rx self = true).
      { apply (rx_edge_level rx self Hl).
        rewrite Hr, Hlev. apply pred_mod_even; lia. }
      rewrite E in Hed. destruct (Hed eq_refl) as (-> & _). rewrite Hr.
      rewrite Zplus_mod_idemp_l. f_equal. lia.
  - destruct Hcases as [[E _]|[E _]]; [by left | by right].
Qed.

(** X16. Loop-back: the receive cursor follows the transmit cursor. With the
    transmit pin wired to the receive pin and an even capacity, the
    instance receives its own transmission one iteration late: after every
    iteration the receive cursor is the transmit cursor as it was before
    that iteration, modulo the capacity, and the iteration has advanced the
    transmit cursor by at most one. One iteration after the end of a
    transmission shorter than the capacity the two cursors agree, which is
    what the self-test of the notebook reads. *)
Theorem loopback_rx_follows_tx (times : list Z) (t i : Z) (st : state)
    (self : wio_inst_type) :
  get_inst st i = Some self ->
  main_loop_running self <> 0 ->
  inst_safe self (mem st) = true ->
  rx_buffer_len self mod 2 = 0 ->
  gpio_level_of (tx_pin self) (gpio st) = tx_buffer_cur self mod 2 ->
  rx_buffer_cur self = tx_buffer_cur self mod rx_buffer_len self ->
  exists st1 self1 st2 self2,
    loopback_loop times i st = Some st1 /\
    get_inst st1 i = Some self1 /\
    loopback_iter i t st1 = Some st2 /\
    get_inst st2 i = Some self2 /\
    rx_buffer_cur self2 = tx_buffer_cur self1 mod rx_buffer_len self /\
    tx_buffer_cur self1 <= tx_buffer_cur self2 <= tx_buffer_len self /\
    tx_buffer_cur self2 <= tx_buffer_cur self1 + 1 /\
    (tx_buffer_cur self1 = tx_buffer_len self ->
     tx_buffer_len self < rx_buffer_len self ->
     rx_buffer_cur self2 = tx_buffer_cur self2).
Proof.
  revert t i st self.
  assert (Hgen : forall t i st self,
    get_inst st i = Some self ->
    main_loop_running self <> 0 ->
    inst_safe self (mem st) = true ->
    rx_buffer_len self mod 2 = 0 ->
    gpio_level_of (tx_pin self) (gpio st) = tx_buffer_cur self mod 2 ->
    rx_buffer_cur self = tx_buffer_cur self mod rx_buffer_len self \/
    rx_buffer_cur self = (tx_buffer_cur self - 1) mod rx_buffer_len self ->
    exists st1 self1 st2 self2,
      loopback_loop times i st = Some st1 /\
      get_inst st1 i = Some self1 /\
      loopback_iter i t st1 = Some st2 /\
      get_inst st2 i = Some self2 /\
      rx_buffer_cur self2 = tx_buffer_cur self1 mod rx_buffer_len self /\
      tx_buffer_cur self1 <= tx_buffer_cur self2 <= tx_buffer_len self /\
      tx_buffer_cur self2 <= tx_buffer_cur self1 + 1 /\
      (tx_buffer_cur self1 = tx_buffer_len self ->
       tx_buffer_len self < rx_buffer_len self ->
       rx_buffer_cur self2 = tx_buffer_cur self2)).
  {
    induction times as [|t0 times IH]; intros t i st self Hget Hf Hsafe He Hlev Hr.
    - destruct (loopback_iter_step i t st self Hget Hf Hsafe He Hlev Hr)
        as (st2 & self2 & Hit & Hg2 & _ & Hs2 & _ & Hl2 & _ & Hrx & Hc).
      destruct (inst_safe_spec _ _ Hs2) as (_ & _ & Htc2 & _).
      destruct (inst_safe_spec _ _ Hsafe) as (_ & _ & Htc & _).
      exists st, self, st2, self2. split; [reflexivity|].
      split; [exact Hget|]. split; [exact Hit|]. split; [exact Hg2|].
      split; [exact Hrx|]. split; [lia|]. split; [lia|].
      intros Hend Hcap. rewrite Hrx. rewrite Z.mod_small by lia. lia.
    - destruct (loopback_iter_step i t0 st self Hget Hf Hsafe He Hlev Hr)
        as (st1 & self1 & Hit & Hg1 & Hf1 & Hs1 & Hn1 & Hl1 & Hlev1 & Hrx & Hc).
      assert (Hr1 :
        rx_buffer_cur self1 = tx_buffer_cur self1 mod rx_buffer_len self1 \/
        rx_buffer_cur self1
          = (tx_buffer_cur self1 - 1) mod rx_buffer_len self1).
      { rewrite Hn1, Hrx. destruct Hc as [->| ->]; [by left|].
        right. f_equal. lia. }
      destruct (IH t i st1 self1 Hg1 Hf1 Hs1 ltac:(congruence) Hlev1 Hr1)
        as (sta & selfa & stb & selfb & Hrun & Hga & Hitb & Hgb & Hx & Hy & Hz).
      exists sta, selfa, stb, selfb. cbn [loopback_loop]. rewrite Hit.
      rewrite Hn1, Hl1 in *. done.
  }
  intros t i st self Hget Hf Hsafe He Hlev Hr.
  apply (Hgen t i st self Hget Hf Hsafe He Hlev). by left.
Qed.

(** ** The demodulation cell *)

(** X17. The gaps of the demodulated signal. The second column of
    [demodulated] is the sequence of the periods that are not shorter than
    40 us, in their order: every such period closes exactly one row, and
    nothing else does. *)
Theorem demodulated_gaps (ls : list float) :
  map snd (demodulated ls) = List.filter (fun l => negb (short_period l)) ls /\
  length (demodulated ls)
  = length (List.filter (fun l => negb (short_period l)) ls).
Proof.
  assert (Hgaps : forall acc,
            map snd (demodulate_from acc ls)
            = List.filter (fun l => negb (short_period l)) ls).
  { induction ls as [|l ls IH]; intros acc; [reflexivity|].
    cbn [demodulate_from List.filter].
    destruct (short_period l); cbn [negb map snd]; by rewrite IH. }
  unfold demodulated. split.
  - apply Hgaps.
  - rewrite <- (Hgaps 0%float). by rewrite length_map.
Qed.

Lemma demodulate_from_shorts shorts : forall acc rest,
  forallb short_period shorts = true ->
  demodulate_from acc (shorts ++ rest)
  = demodulate_from (fold_left PrimFloat.add shorts acc) rest.
Proof.
  induction shorts as [|s shorts IH]; intros acc rest H; [reflexivity|].
  simpl in H. apply andb_prop in H as [Hs H].
  cbn [app demodulate_from fold_left]. rewrite Hs. by apply IH.
Qed.

(** X18. A pulse of the demodulated signal. A run of short periods followed
    by a longer one gives one row: the sum of the short periods, added up
    from 0 in their order, and the long period; the accumulator starts
    from 0 again for the rest. *)
Theorem demodulated_pulse (shorts : list float) (l : float)
    (rest : list float) :
  forallb short_period shorts = true ->
  short_period l = false ->
  demodulated (shorts ++ l :: rest)
  = (pulse_length shorts, l) :: demodulated rest.
Proof.
  intros Hs Hl. unfold demodulated, pulse_length.
  rewrite (demodulate_from_shorts shorts _ _ Hs).
  cbn [demodulate_from]. by rewrite Hl.
Qed.

(** X19. Pulses that are not followed by a gap are lost. Short periods at
    the end of the input change nothing: the pulse they belong to is added
    up and then dropped when the loop ends, since a row is only written at
    a long period. *)
Theorem demodulated_drops_open_pulse (ls shorts : list float) :
  forallb short_period shorts = true ->
  demodulated (ls ++ shorts) = demodulated ls.
Proof.
  intros Hs. unfold demodulated. generalize 0%float as acc.
  induction ls as [|l ls IH]; intros acc.
  - cbn [app]. rewrite <- (app_nil_r shorts).
    by rewrite (demodulate_from_shorts shorts _ _ Hs).
  - cbn [app demodulate_from]. destruct (short_period l); by rewrite IH.
Qed.

Lemma demodulated_pulse_witness :
  forallb short_period burst = true /\
  short_period 1500%float = false /\
  demodulated (burst ++ 1500%float :: [27%float; 50%float])
  = (pulse_length burst, 1500%float) :: demodulated [27%float; 50%float].
Proof.
  assert (H1 : forallb short_period burst = true) by (vm_compute; reflexivity).
  assert (H2 : short_period 1500%float = false) by (vm_compute; reflexivity).
  repeat (split; [assumption|]).
  exact (demodulated_pulse burst 1500%float [27%float; 50%float] H1 H2).
Defined.

Lemma demodulated_drops_open_pulse_witness :
  forallb short_period burst = true /\
  demodulated ([27%float; 50%float] ++ burst) = demodulated [27%float; 50%float].
Proof.
  assert (H1 : forallb short_period burst = true) by (vm_compute; reflexivity).
  split; [assumption|].
  exact (demodulated_drops_open_pulse [27%float; 50%float] burst H1).
Defined.

Lemma wio_enable_reentrant_witness :
  get_inst bounds_st1 0 = Some (constructed 0 1 2 2 4 wio_inst_zero) /\
  exists st1 self1,
    wio_enable [] 0 bounds_st1 = Some st1 /\
    get_inst st1 0 = Some self1 /\
    main_loop_running self1 <> 0 /\
    (main_loop_running (constructed 0 1 2 2 4 wio_inst_zero) = 0 ->
     wio_enabled 0 st1 = Some 1) /\
    (forall inputs, wio_enable inputs 0 st1 = Some st1).
Proof.
  assert (H1 : get_inst bounds_st1 0
               = Some (constructed 0 1 2 2 4 wio_inst_zero))
    by (vm_compute; reflexivity).
  split; [assumption|].
  exact (wio_enable_reentrant 0 bounds_st1
           (constructed 0 1 2 2 4 wio_inst_zero) H1).
Defined.

Lemma wio_disable_stops_loop_witness :
  get_inst record_st 0 = Some (demo_slot record_st) /\
  exists st1,
    wio_disable 0 record_st = Some st1 /\
    wio_enabled 0 st1 = Some 0 /\
    mem st1 = mem record_st /\ gpio st1 = gpio record_st /\
    (forall inputs, wio_enable_loop inputs 0 st1 = Some st1).
Proof.
  assert (H1 : get_inst record_st 0 = Some (demo_slot record_st))
    by (vm_compute; reflexivity).
  split; [assumption|].
  exact (wio_disable_stops_loop 0 record_st (demo_slot record_st) H1).
Defined.

Lemma wio_new_stops_loop_witness :
  table_ok reuse_st /\
  exists h st',
    wio_new 4 1 6 2 4 reuse_st = Some (h, st') /\
    wio_enabled h st' = Some 0 /\
    (forall inputs, wio_enable_loop inputs h st' = Some st').
Proof.
  assert (H1 : table_ok reuse_st).
  { split; [reflexivity | change (0 <= 0 < 8); lia]. }
  split; [assumption|].
  exact (wio_new_stops_loop reuse_st 4 1 6 2 4 H1).
Defined.

Lemma wio_enable_loop_frame_witness :
  get_inst record_st 0 = Some (demo_slot record_st) /\
  wio_enable_loop frame_inputs 0 record_st = Some frame_st /\
  loop_frame 0 (demo_slot record_st) record_st frame_st.
Proof.
  assert (H1 : get_inst record_st 0 = Some (demo_slot record_st))
    by (vm_compute; reflexivity).
  assert (H2 : wio_enable_loop frame_inputs 0 record_st = Some frame_st)
    by (vm_compute; reflexivity).
  repeat (split; [assumption|]).
  exact (wio_enable_loop_frame frame_inputs 0 record_st frame_st
           (demo_slot record_st) H1 H2).
Defined.

Lemma wio_enable_loop_safe_witness :
  get_inst record_st 0 = Some (demo_slot record_st) /\
  inst_safe (demo_slot record_st) (mem record_st) = true /\
  exists st' self',
    wio_enable_loop frame_inputs 0 record_st = Some st' /\
    get_inst st' 0 = Some self' /\
    inst_safe self' (mem st') = true /\
    tx_buffer_cur (demo_slot record_st) <= tx_buffer_cur self'
      <= tx_buffer_len (demo_slot record_st).
Proof.
  assert (H1 : get_inst record_st 0 = Some (demo_slot record_st))
    by (vm_compute; reflexivity).
  assert (H2 : inst_safe (demo_slot record_st) (mem record_st) = true)
    by (vm_compute; reflexivity).
  repeat (split; [assumption|]).
  exact (wio_enable_loop_safe frame_inputs 0 record_st
           (demo_slot record_st) H1 H2).
Defined.

Lemma step_other_instances_witness :
  step (EvTxStart 0 3) misuse_st1 = Some misuse_st2 /\
  (forall j, j <> event_target (EvTxStart 0 3) misuse_st1 ->
     get_inst misuse_st2 j = get_inst misuse_st1 j) /\
  (is_call (EvTxStart 0 3) = true ->
     wio_inst_count misuse_st2 = wio_inst_count misuse_st1 /\
     xtimer_starts misuse_st2 = xtimer_starts misuse_st1) /\
  (is_iter (EvTxStart 0 3) = false -> mem misuse_st2 = mem misuse_st1) /\
  (is_call (EvTxStart 0 3) = true -> is_iter (EvTxStart 0 3) = false ->
   gpio misuse_st2 = gpio misuse_st1).
Proof.
  assert (H1 : step (EvTxStart 0 3) misuse_st1 = Some misuse_st2)
    by (vm_compute; reflexivity).
  split; [assumption|].
  exact (step_other_instances (EvTxStart 0 3) misuse_st1 misuse_st2 H1).
Defined.

Lemma idle_transmitter_is_silent_witness :
  get_inst rx_only_st 0 = Some (demo_slot rx_only_st) /\
  tx_buffer_cur (demo_slot rx_only_st) = tx_buffer_len (demo_slot rx_only_st) /\
  rx_in_bounds (demo_slot rx_only_st) (mem rx_only_st) = true /\
  mem rx_only_st !! tx_buffer (demo_slot rx_only_st) = None /\
  exists st' self',
    wio_enable_loop count_inputs 0 rx_only_st = Some st' /\
    get_inst st' 0 = Some self' /\
    gpio st' = gpio rx_only_st /\
    tx_same (demo_slot rx_only_st) self'.
Proof.
  assert (H1 : get_inst rx_only_st 0 = Some (demo_slot rx_only_st))
    by (vm_compute; reflexivity).
  assert (H2 : tx_buffer_cur (demo_slot rx_only_st)
               = tx_buffer_len (demo_slot rx_only_st))
    by (vm_compute; reflexivity).
  assert (H3 : rx_in_bounds (demo_slot rx_only_st) (mem rx_only_st) = true)
    by (vm_compute; reflexivity).
  assert (H4 : mem rx_only_st !! tx_buffer (demo_slot rx_only_st) = None)
    by (vm_compute; reflexivity).
  repeat (split; [assumption|]).
  exact (idle_transmitter_is_silent count_inputs 0 rx_only_st
           (demo_slot rx_only_st) H1 H2 H3).
Defined.

Lemma tx_pin_follows_cursor_witness :
  get_inst follow_st 0 = Some (demo_slot follow_st) /\
  wio_tx_start 0 3 follow_st = Some odd_st1 /\
  wio_enable_loop odd_inputs 0 odd_st1 = Some odd_st /\
  exists slot',
    get_inst odd_st 0 = Some slot' /\
    0 <= tx_buffer_cur slot' <= u32 3 /\
    (0 < tx_buffer_cur slot' ->
     gpio_level (gpio odd_st) !! tx_pin (demo_slot follow_st)
       = Some (tx_buffer_cur slot' mod 2)) /\
    (tx_buffer_cur slot' = u32 3 -> 0 < u32 3 ->
     gpio_level (gpio odd_st) !! tx_pin (demo_slot follow_st)
       = Some (u32 3 mod 2)).
Proof.
  assert (H1 : get_inst follow_st 0 = Some (demo_slot follow_st))
    by (vm_compute; reflexivity).
  assert (H2 : wio_tx_start 0 3 follow_st = Some odd_st1)
    by (vm_compute; reflexivity).
  assert (H3 : wio_enable_loop odd_inputs 0 odd_st1 = Some odd_st)
    by (vm_compute; reflexivity).
  repeat (split; [assumption|]).
  exact (tx_pin_follows_cursor odd_inputs 0 3 follow_st odd_st1 odd_st
           (demo_slot follow_st) H1 H2 H3).
Defined.

Lemma rx_cursor_parity_is_level_witness :
  wio_loop_body 100 1 (demo_slot record_st) (mem record_st) (gpio record_st)
    = Some (parity_s.1.1, parity_s.1.2, parity_s.2) /\
  0 <= rx_buffer_cur (demo_slot record_st)
    < rx_buffer_len (demo_slot record_st) /\
  rx_buffer_len (demo_slot record_st) < wrap32 /\
  rx_buffer_len (demo_slot record_st) mod 2 = 0 /\
  is_level 1 = true /\
  rx_buffer_cur parity_s.1.1 mod 2 = 1 /\
  (forall next, is_level next = true ->
     (rx_edge next parity_s.1.1 = true <-> next <> 1)).
Proof.
  assert (H1 : wio_loop_body 100 1 (demo_slot record_st) (mem record_st)
                 (gpio record_st)
               = Some (parity_s.1.1, parity_s.1.2, parity_s.2))
    by (vm_compute; reflexivity).
  assert (H2 : 0 <= rx_buffer_cur (demo_slot record_st)
               < rx_buffer_len (demo_slot record_st))
    by (change (0 <= 0 < 4); lia).
  assert (H3 : rx_buffer_len (demo_slot record_st) < wrap32)
    by (vm_compute; reflexivity).
  assert (H4 : rx_buffer_len (demo_slot record_st) mod 2 = 0)
    by (vm_compute; reflexivity).
  assert (H5 : is_level 1 = true) by reflexivity.
  repeat (split; [assumption|]).
  exact (rx_cursor_parity_is_level 100 1 (demo_slot record_st) parity_s.1.1
           (mem record_st) parity_s.1.2 (gpio record_st) parity_s.2
           H1 H2 H3 H4 H5).
Defined.

Lemma odd_capacity_records_without_edge_witness :
  inst_safe odd_slot misuse_mem = true /\
  rx_buffer_len odd_slot mod 2 = 1 /\
  rx_buffer_cur odd_slot = rx_buffer_len odd_slot - 1 /\
  exists self1 m1 gs1 self2 m2 gs2,
    wio_loop_body 1000 1 odd_slot misuse_mem (gpio misuse_st1)
      = Some (self1, m1, gs1) /\
    rx_buffer_cur self1 = 0 /\
    wio_loop_body 1001 1 self1 m1 gs1 = Some (self2, m2, gs2) /\
    rx_buffer_cur self2 = 1 mod rx_buffer_len odd_slot /\
    load m2 (rx_buffer odd_slot) 0 = Some (u32 (1001 - 1000)).
Proof.
  assert (H1 : inst_safe odd_slot misuse_mem = true)
    by (vm_compute; reflexivity).
  assert (H2 : rx_buffer_len odd_slot mod 2 = 1) by (vm_compute; reflexivity).
  assert (H3 : rx_buffer_cur odd_slot = rx_buffer_len odd_slot - 1)
    by (vm_compute; reflexivity).
  repeat (split; [assumption|]).
  exact (odd_capacity_records_without_edge 1000 1001 odd_slot misuse_mem
           (gpio misuse_st1) H1 H2 H3).
Defined.

Lemma rx_cursor_counts_level_changes_witness :
  get_inst record_st 0 = Some (demo_slot record_st) /\
  main_loop_running (demo_slot record_st) <> 0 /\
  inst_safe (demo_slot record_st) (mem record_st) = true /\
  rx_buffer_len (demo_slot record_st) mod 2 = 0 /\
  forallb (fun x => is_level x.2) count_inputs = true /\
  exists st' self',
    wio_enable_loop count_inputs 0 record_st = Some st' /\
    get_inst st' 0 = Some self' /\
    rx_buffer_cur self' =
      (rx_buffer_cur (demo_slot record_st)
       + level_changes (rx_buffer_cur (demo_slot record_st) mod 2)
           (map snd count_inputs))
      mod rx_buffer_len (demo_slot record_st).
Proof.
  assert (H1 : get_inst record_st 0 = Some (demo_slot record_st))
    by (vm_compute; reflexivity).
  assert (H2 : main_loop_running (demo_slot record_st) <> 0)
    by (vm_compute; discriminate).
  assert (H3 : inst_safe (demo_slot record_st) (mem record_st) = true)
    by (vm_compute; reflexivity).
  assert (H4 : rx_buffer_len (demo_slot record_st) mod 2 = 0)
    by (vm_compute; reflexivity).
  assert (H5 : forallb (fun x => is_level x.2) count_inputs = true)
    by (vm_compute; reflexivity).
  repeat (split; [assumption|]).
  exact (rx_cursor_counts_level_changes count_inputs 0 record_st
           (demo_slot record_st) H1 H2 H3 H4 H5).
Defined.

Lemma rx_interval_is_elapsed_time_witness :
  get_inst record_st 0 = Some (demo_slot record_st) /\
  main_loop_running (demo_slot record_st) <> 0 /\
  inst_safe (demo_slot record_st) (mem record_st) = true /\
  rx_buffer_len (demo_slot record_st) mod 2 = 0 /\
  is_level 1 = true /\
  rx_buffer_cur (demo_slot record_st) mod 2 <> 1 /\
  forallb (fun x : Z * Z => x.2 =? 1) quiet_inputs = true /\
  4294967000 <= 4294967996 < 4294967000 + wrap32 /\
  exists st',
    wio_enable_loop
      (readings ((4294967000, 1) :: quiet_inputs ++ [(4294967996, 1 - 1)]))
      0 record_st = Some st' /\
    load (mem st') (rx_buffer (demo_slot record_st))
      ((rx_buffer_cur (demo_slot record_st) + 1)
       mod rx_buffer_len (demo_slot record_st))
      = Some (4294967996 - 4294967000) /\
    (rx_buffer_cur <$> get_inst st' 0)
      = Some ((rx_buffer_cur (demo_slot record_st) + 2)
              mod rx_buffer_len (demo_slot record_st)).
Proof.
  assert (H1 : get_inst record_st 0 = Some (demo_slot record_st))
    by (vm_compute; reflexivity).
  assert (H2 : main_loop_running (demo_slot record_st) <> 0)
    by (vm_compute; discriminate).
  assert (H3 : inst_safe (demo_slot record_st) (mem record_st) = true)
    by (vm_compute; reflexivity).
  assert (H4 : rx_buffer_len (demo_slot record_st) mod 2 = 0)
    by (vm_compute; reflexivity).
  assert (H5 : is_level 1 = true) by reflexivity.
  assert (H6 : rx_buffer_cur (demo_slot record_st) mod 2 <> 1)
    by (vm_compute; discriminate).
  assert (H7 : forallb (fun x : Z * Z => x.2 =? 1) quiet_inputs = true)
    by (vm_compute; reflexivity).
  assert (H8 : 4294967000 <= 4294967996 < 4294967000 + wrap32)
    by (unfold wrap32; lia).
  repeat (split; [assumption|]).
  exact (rx_interval_is_elapsed_time 0 1 4294967000 4294967996 quiet_inputs
           record_st (demo_slot record_st) H1 H2 H3 H4 H5 H6 H7 H8).
Defined.

Lemma wio_new_pin_directions_witness :
  table_ok (initial_state ∅) /\
  exists h st',
    wio_new 2 1 2 2 4 (initial_state ∅) = Some (h, st') /\
    gpio_dir (gpio st') !! u32 2 = Some GPIO_IN /\
    (u32 2 <> u32 2 -> gpio_dir (gpio st') !! u32 2 = Some GPIO_OUT) /\
    (forall p, p <> u32 2 -> p <> u32 2 ->
       gpio_dir (gpio st') !! p = gpio_dir (gpio (initial_state ∅)) !! p) /\
    gpio_level (gpio st') = gpio_level (gpio (initial_state ∅)).
Proof.
  assert (H1 : table_ok (initial_state ∅)).
  { split; [reflexivity | change (0 <= 0 < 8); lia]. }
  split; [assumption|].
  exact (wio_new_pin_directions (initial_state ∅) 2 1 2 2 4 H1).
Defined.

Lemma run_call_safe_witness :
  get_inst bounds_st1 0 = Some (constructed 0 1 2 2 4 wio_inst_zero) /\
  inst_safe (constructed 0 1 2 2 4 wio_inst_zero) (mem bounds_st1) = true /\
  mem bounds_st1 !! tx_buffer (constructed 0 1 2 2 4 wio_inst_zero)
    = Some [1000; 2000; 1000; 2000] /\
  forallb (call_safe 0 (Z.of_nat (length [1000; 2000; 1000; 2000]))) safe_evs
    = true /\
  exists st' self',
    run safe_evs bounds_st1 = Some st' /\
    get_inst st' 0 = Some self' /\
    inst_safe self' (mem st') = true.
Proof.
  assert (H1 : get_inst bounds_st1 0
               = Some (constructed 0 1 2 2 4 wio_inst_zero))
    by (vm_compute; reflexivity).
  assert (H2 : inst_safe (constructed 0 1 2 2 4 wio_inst_zero)
                 (mem bounds_st1) = true) by (vm_compute; reflexivity).
  assert (H3 : mem bounds_st1 !! tx_buffer (constructed 0 1 2 2 4 wio_inst_zero)
               = Some [1000; 2000; 1000; 2000]) by (vm_compute; reflexivity).
  assert (H4 : forallb
                 (call_safe 0 (Z.of_nat (length [1000; 2000; 1000; 2000])))
                 safe_evs = true) by (vm_compute; reflexivity).
  repeat (split; [assumption|]).
  exact (run_call_safe safe_evs 0 bounds_st1
           (constructed 0 1 2 2 4 wio_inst_zero) [1000; 2000; 1000; 2000]
           H1 H2 H3 H4).
Defined.

Lemma loopback_rx_follows_tx_witness :
  get_inst loop_st 0 = Some (demo_slot loop_st) /\
  main_loop_running (demo_slot loop_st) <> 0 /\
  inst_safe (demo_slot loop_st) (mem loop_st) = true /\
  rx_buffer_len (demo_slot loop_st) mod 2 = 0 /\
  gpio_level_of (tx_pin (demo_slot loop_st)) (gpio loop_st)
    = tx_buffer_cur (demo_slot loop_st) mod 2 /\
  rx_buffer_cur (demo_slot loop_st)
    = tx_buffer_cur (demo_slot loop_st) mod rx_buffer_len (demo_slot loop_st) /\
  exists st1 self1 st2 self2,
    loopback_loop [10; 15; 22] 0 loop_st = Some st1 /\
    get_inst st1 0 = Some self1 /\
    loopback_iter 0 23 st1 = Some st2 /\
    get_inst st2 0 = Some self2 /\
    rx_buffer_cur self2
      = tx_buffer_cur self1 mod rx_buffer_len (demo_slot loop_st) /\
    tx_buffer_cur self1 <= tx_buffer_cur self2
      <= tx_buffer_len (demo_slot loop_st) /\
    tx_buffer_cur self2 <= tx_buffer_cur self1 + 1 /\
    (tx_buffer_cur self1 = tx_buffer_len (demo_slot loop_st) ->
     tx_buffer_len (demo_slot loop_st) < rx_buffer_len (demo_slot loop_st) ->
     rx_buffer_cur self2 = tx_buffer_cur self2).
Proof.
  assert (H1 : get_inst loop_st 0 = Some (demo_slot loop_st))
    by (vm_compute; reflexivity).
  assert (H2 : main_loop_running (demo_slot loop_st) <> 0)
    by (vm_compute; discriminate).
  assert (H3 : inst_safe (demo_slot loop_st) (mem loop_st) = true)
    by (vm_compute; reflexivity).
  assert (H4 : rx_buffer_len (demo_slot loop_st) mod 2 = 0)
    by (vm_compute; reflexivity).
  assert (H5 : gpio_level_of (tx_pin (demo_slot loop_st)) (gpio loop_st)
               = tx_buffer_cur (demo_slot loop_st) mod 2)
    by (vm_compute; reflexivity).
  assert (H6 : rx_buffer_cur (demo_slot loop_st)
               = tx_buffer_cur (demo_slot loop_st)
                 mod rx_buffer_len (demo_slot loop_st))
    by (vm_compute; reflexivity).
  repeat (split; [assumption|]).
  exact (loopback_rx_follows_tx [10; 15; 22] 23 0 loop_st (demo_slot loop_st)
           H1 H2 H3 H4 H5 H6).
Defined.

(** ** Deadlines that the loop misses *)

Lemma handle_tx_blocked now self m gs :
  0 <= now ->
  tx_buffer_cur self <> 0 ->
  tx_buffer_cur self <> tx_buffer_len self ->
  tx_blocked now self = true ->
  handle_tx now self m gs = Some (self, gs).
Proof.
  intros Hnow H0 Hlen Hb. unfold handle_tx.
  destruct (tx_buffer_cur self =? tx_buffer_len self) eqn:E1; [lia|].
  destruct (tx_buffer_cur self =? 0) eqn:E2; [lia|].
  unfold tx_blocked in Hb.
  destruct (tx_await_wrap self =? 0) eqn:E3.
  - apply Z.eqb_eq in E3.
    destruct (now <? tx_await_wrap self) eqn:E4; [lia|].
    rewrite E3. cbn [Z.eqb andb].
    destruct (tx_target_time self <=? now) eqn:E5; [lia|]. reflexivity.
  - destruct (now <? tx_await_wrap self) eqn:E4; [lia|].
    rewrite E3. reflexivity.
Qed.

Lemma run_blocked inputs : forall self m gs,
  tx_buffer_cur self <> 0 ->
  tx_buffer_cur self <> tx_buffer_len self ->
  rx_safe self m ->
  forallb (fun x : Z * Z => (0 <=? x.1) && tx_blocked x.1 self) inputs = true ->
  exists self' m',
    run_body inputs (self, m, gs) = Some (self', m', gs) /\
    tx_same self self'.
Proof.
  induction inputs as [|[t rx] inputs IH]; intros self m gs H0 Hlen Hrx Hall.
  - exists self, m. split; [reflexivity|]. unfold tx_same. repeat split.
  - simpl in Hall. apply andb_prop in Hall as [Ht Hall].
    apply andb_prop in Ht as [Hnow Hb].
    pose proof (handle_tx_blocked t self m gs ltac:(lia) H0 Hlen Hb) as Htx.
    destruct (wio_loop_body_of_tx t rx _ _ _ _ _ Htx Hrx)
      as (self2 & m2 & Hbody & Hsame & _ & Hrx2 & _).
    pose proof Hsame as (Ha & Hc2 & Hl2 & Hb2 & Hd & He & Hf & Hg).
    assert (Hall2 : forallb
              (fun x : Z * Z => (0 <=? x.1) && tx_blocked x.1 self2) inputs
            = true).
    { rewrite forallb_forall in Hall |- *. intros x Hx.
      specialize (Hall x Hx). unfold tx_blocked in *. by rewrite Hb2, Hd. }
    destruct (IH self2 m2 gs ltac:(congruence) ltac:(congruence) Hrx2 Hall2)
      as (self' & m' & Hrun & Hsame').
    exists self', m'. simpl. rewrite Hbody.
    split; [exact Hrun|].
    destruct Hsame' as (? & ? & ? & ? & ? & ? & ? & ?).
    unfold tx_same. repeat split; congruence.
Qed.

Lemma readings_blocked self ts (f : Z -> bool) :
  (forall t, f (u32 t) = tx_blocked (u32 t) self) ->
  forallb (fun x : Z * Z => f (u32 x.1)) ts = true ->
  forallb (fun x : Z * Z => (0 <=? x.1) && tx_blocked x.1 self) (readings ts)
  = true.
Proof.
  intros Hf Hall. unfold readings. rewrite forallb_forall in *.
  intros x Hx. apply in_map_iff in Hx as (y & <- & Hy).
  specialize (Hall y Hy). simpl. rewrite <- Hf, Hall.
  pose proof (u32_range y.1). rewrite andb_true_r. lia.
Qed.

(** C1 (code bug). The guard is cleared only by an iteration that happens
    to read the counter below it. Take an iteration, sampled at the true
    time [t0], that fires a transition although adding the interval
    [b = tx_buffer[tx_buffer_cur]] to the target overflows the counter; the
    guard is then the old target. If none of the later iterations reads the
    counter below the guard, none of them fires the next transition,
    however late it is taken: the cursor and the pins stay as the firing
    iteration left them, also in iterations taken after the time
    [scheduled t0 self + b] at which the transition is due, although the
    interval is below [2^32]. *)
Theorem wrap_guard_missed_window (st st1 : state) (h : Z)
    (self : wio_inst_type) (t0 rx0 b : Z) (ts : list (Z * Z)) :
  get_inst st h = Some self ->
  main_loop_running self <> 0 ->
  inst_safe self (mem st) = true ->
  tx_buffer_cur self + 1 < tx_buffer_len self ->
  load (mem st) (tx_buffer self) (tx_buffer_cur self) = Some b ->
  0 <= b < wrap32 ->
  wio_loop_iter h (u32 t0) rx0 st = Some st1 ->
  (tx_buffer_cur <$> get_inst st1 h) = Some (tx_buffer_cur self + 1) ->
  wrap32 <= due_target (u32 t0) self + b ->
  forallb (fun x : Z * Z => due_target (u32 t0) self <=? u32 x.1) ts = true ->
  exists st',
    wio_enable_loop (readings ts) h st1 = Some st' /\
    (tx_buffer_cur <$> get_inst st' h) = Some (tx_buffer_cur self + 1) /\
    (tx_target_time <$> get_inst st' h)
      = Some (due_target (u32 t0) self + b - wrap32) /\
    (tx_await_wrap <$> get_inst st' h) = Some (due_target (u32 t0) self) /\
    gpio st' = gpio st1.
Proof.
  intros Hget Hflag Hsafe Hmore Hb Hbr Hiter Hcur1 Hovf Hall.
  destruct (inst_safe_spec _ _ Hsafe) as (Htxs & Hrxs & Hc & Hl).
  unfold wio_loop_iter in Hiter. rewrite Hget in Hiter.
  destruct (main_loop_running self =? 0) eqn:Ef; [lia|].
  destruct (wio_loop_body (u32 t0) rx0 self (mem st) (gpio st))
    as [[[selfB m1] gs1]|] eqn:Hbody; [|done].
  injection Hiter as <-.
  set (st1 := {| wio_inst := <[Z.to_nat h := selfB]> (wio_inst st);
                 wio_inst_count := wio_inst_count st;
                 xtimer_starts := xtimer_starts st;
                 mem := m1; gpio := gs1 |}) in *.
  assert (Hget1 : get_inst st1 h = Some selfB).
  { unfold st1. erewrite get_inst_put by exact Hget. by rewrite decide_True. }
  rewrite Hget1 in Hcur1. simpl in Hcur1.
  injection Hcur1 as HcurB.
  destruct (handle_tx (u32 t0) self (mem st) (gpio st))
    as [[selfA gsA]|] eqn:Htx;
    [|unfold wio_loop_body in Hbody; by rewrite Htx in Hbody].
  destruct (wio_loop_body_of_tx _ rx0 _ _ _ _ _ Htx Hrxs)
    as (self2 & m2 & Hbody2 & Hsame & Hst & Hrx2 & Hext).
  rewrite Hbody in Hbody2. injection Hbody2 as <- <- <-.
  pose proof Hsame as (_ & SA & SL & ST & SW & _).
  destruct (handle_tx_fired_inv _ _ _ _ _ _ Htx)
    as (Hdue & v & Hv & _ & HT & HW & Hgs); [lia|].
  rewrite Hb in Hv. injection Hv as <-.
  pose proof (u32_range t0) as Hr0.
  set (T := due_target (u32 t0) self) in *.
  assert (HTb : u32 (T + b) = T + b - wrap32).
  { clear - Hovf Hbr Hdue Hr0. tlia. }
  assert (HWB : tx_await_wrap selfB = T).
  { rewrite SW, HW. destruct (T <=? u32 (T + b)) eqn:E; [lia|reflexivity]. }
  assert (HTB : tx_target_time selfB = T + b - wrap32) by congruence.
  assert (HflagB : main_loop_running selfB <> 0).
  { destruct Hst as (_&_&_&_&Hf). by rewrite Hf. }
  assert (HlenB : tx_buffer_len selfB = tx_buffer_len self).
  { destruct Hst as (_&?&_). done. }
  destruct (run_blocked (readings ts) selfB m1 gs1) as (self' & m' & Hrun & Hsame');
    [lia | lia | exact Hrx2 | |].
  { apply (readings_blocked selfB ts (fun r => T <=? r)); [|exact Hall].
    intros t. unfold tx_blocked. rewrite HWB.
    destruct (T =? 0) eqn:E; [lia | reflexivity]. }
  exists (commit h (self', m', gs1) st1).
  split; [by apply (wio_enable_loop_run _ _ _ selfB)|].
  rewrite (get_inst_commit _ _ _ _ Hget1). cbn [fst snd fmap option_fmap option_map].
  destruct Hsame' as (_ & K1 & _ & K2 & K3 & _).
  repeat split; f_equal; congruence.
Qed.

(** C2 (code bug). A target just below the wrap of the counter is lost.
    After [wio_tx_start] with two or more entries, the first iteration
    fires the first transition and sets the target to its counter reading
    plus the first entry [b0]; when this sum does not overflow, the next
    transition needs an iteration that reads the counter at or above it. If
    every later iteration reads less, which is what happens to a loop that
    polls past the few readings between the target and the wrap, the
    transmission stays at cursor 1 with the output high, whatever the true
    time of the samples: [tx_cursor] does not reach the length, also long
    after the time at which the last transition is due. *)
Theorem tx_target_missed_before_wrap (st : state) (h n t0 rx0 b0 : Z)
    (slot : wio_inst_type) (lt : list Z) (ts : list (Z * Z)) :
  get_inst st h = Some slot ->
  main_loop_running slot <> 0 ->
  mem st !! tx_buffer slot = Some lt ->
  rx_in_bounds slot (mem st) = true ->
  2 <= n <= Z.of_nat (length lt) -> n < 2 ^ 31 ->
  lt !! 0%nat = Some b0 -> 0 <= b0 ->
  u32 t0 + b0 < wrap32 ->
  forallb (fun x : Z * Z => u32 x.1 <? u32 t0 + b0) ts = true ->
  exists st1 st',
    wio_tx_start h n st = Some st1 /\
    wio_enable_loop (readings ((t0, rx0) :: ts)) h st1 = Some st' /\
    wio_tx_cursor h st' = Some 1 /\
    wio_tx_cursor h st' <> Some n /\
    gpio_level (gpio st') !! tx_pin slot = Some 1.
Proof.
  intros Hget Hflag Hlt Hrx Hn Hn31 Hb0 Hb0pos Hnov Hall.
  apply rx_in_bounds_spec in Hrx.
  set (slot1 := set_tx_buffer_cur 0 (set_tx_buffer_len (u32 n) slot)).
  set (st1 := set_inst h slot1 st).
  assert (Hget1 : get_inst st1 h = Some slot1).
  { unfold st1. erewrite get_inst_set_inst by exact Hget. by rewrite decide_True. }
  assert (Hun : u32 n = n).
  { apply u32_small. unfold wrap32. lia. }
  pose proof (u32_range t0) as Hr0.
  assert (Hload : load (mem st) (tx_buffer slot1) 0 = Some b0).
  { apply (load_entry (mem st) (tx_buffer slot) lt 0 b0); [exact Hlt | lia | exact Hb0]. }
  pose proof (handle_tx_first t0 slot1 (mem st) (gpio st) b0
                eq_refl ltac:(simpl; lia) Hload) as Htx.
  assert (Hrx1 : rx_safe slot1 (mem st)) by exact Hrx.
  destruct (wio_loop_body_of_tx _ rx0 _ _ _ _ _ Htx Hrx1)
    as (self2 & m2 & Hbody & Hsame & Hst & Hrx2 & _).
  pose proof Hsame as (_ & SA & SL & ST & SW & SP & _).
  assert (Hu : u32 (t0 + b0) = u32 t0 + b0).
  { clear - Hnov Hb0pos Hr0. tlia. }
  assert (HW2 : tx_await_wrap self2 = 0).
  { rewrite SW. unfold fired. cbn [tx_await_wrap set_tx_await_wrap].
    destruct (u32 t0 <=? u32 (t0 + b0)) eqn:E; [reflexivity | lia]. }
  assert (HT2 : tx_target_time self2 = u32 t0 + b0).
  { rewrite ST. unfold fired. simpl. exact Hu. }
  assert (HC2 : tx_buffer_cur self2 = 1).
  { rewrite SA. unfold fired. simpl. reflexivity. }
  assert (HL2 : tx_buffer_len self2 = n).
  { rewrite SL. unfold fired. simpl. exact Hun. }
  destruct (run_blocked (readings ts) self2 m2
              (gpio_write (tx_pin slot1) (tx_level 0) (gpio st)))
    as (self' & m' & Hrun & Hsame'); [lia | lia | exact Hrx2 | |].
  { apply (readings_blocked self2 ts (fun r => r <? u32 t0 + b0)); [|exact Hall].
    intros t. unfold tx_blocked. by rewrite HW2, HT2. }
  exists st1, (commit h (self', m',
                 gpio_write (tx_pin slot1) (tx_level 0) (gpio st)) st1).
  split; [unfold wio_tx_start, update_inst; by rewrite Hget|].
  assert (Hcur' : wio_tx_cursor h
            (commit h (self', m',
               gpio_write (tx_pin slot1) (tx_level 0) (gpio st)) st1) = Some 1).
  { unfold wio_tx_cursor. rewrite (get_inst_commit _ _ _ _ Hget1).
    cbn [fst snd fmap option_fmap option_map].
    destruct Hsame' as (_ & K1 & _). rewrite K1, HC2. reflexivity. }
  split.
  { apply (wio_enable_loop_run _ _ _ slot1); [exact Hget1 | exact Hflag |].
    rewrite run_body_cons. cbn [mem gpio st1 set_inst]. rewrite Hbody.
    exact Hrun. }
  split; [exact Hcur'|].
  split; [rewrite Hcur'; intros E; injection E; lia|].
  cbn [gpio commit snd]. unfold gpio_write. cbn [gpio_level].
  change (tx_pin slot1) with (tx_pin slot). apply lookup_insert_eq.
Qed.

Lemma wrap_guard_missed_window_witness :
  get_inst wrap_st 0 = Some (demo_slot wrap_st) /\
  main_loop_running (demo_slot wrap_st) <> 0 /\
  inst_safe (demo_slot wrap_st) (mem wrap_st) = true /\
  tx_buffer_cur (demo_slot wrap_st) + 1 < tx_buffer_len (demo_slot wrap_st) /\
  load (mem wrap_st) (tx_buffer (demo_slot wrap_st))
    (tx_buffer_cur (demo_slot wrap_st)) = Some 4294967293 /\
  0 <= 4294967293 < wrap32 /\
  wio_loop_iter 0 (u32 5) 0 wrap_st = Some wrap_st1 /\
  (tx_buffer_cur <$> get_inst wrap_st1 0)
    = Some (tx_buffer_cur (demo_slot wrap_st) + 1) /\
  wrap32 <= due_target (u32 5) (demo_slot wrap_st) + 4294967293 /\
  forallb (fun x : Z * Z => due_target (u32 5) (demo_slot wrap_st) <=? u32 x.1)
    missed_ts = true /\
  scheduled 5 (demo_slot wrap_st) + 4294967293 <= 4294967302 /\
  exists st',
    wio_enable_loop (readings missed_ts) 0 wrap_st1 = Some st' /\
    (tx_buffer_cur <$> get_inst st' 0)
      = Some (tx_buffer_cur (demo_slot wrap_st) + 1) /\
    (tx_target_time <$> get_inst st' 0)
      = Some (due_target (u32 5) (demo_slot wrap_st) + 4294967293 - wrap32) /\
    (tx_await_wrap <$> get_inst st' 0)
      = Some (due_target (u32 5) (demo_slot wrap_st)) /\
    gpio st' = gpio wrap_st1.
Proof.
  assert (H1 : get_inst wrap_st 0 = Some (demo_slot wrap_st))
    by (vm_compute; reflexivity).
  assert (H2 : main_loop_running (demo_slot wrap_st) <> 0)
    by (vm_compute; discriminate).
  assert (H3 : inst_safe (demo_slot wrap_st) (mem wrap_st) = true)
    by (vm_compute; reflexivity).
  assert (H4 : tx_buffer_cur (demo_slot wrap_st) + 1
               < tx_buffer_len (demo_slot wrap_st))
    by (vm_compute; reflexivity).
  assert (H5 : load (mem wrap_st) (tx_buffer (demo_slot wrap_st))
                 (tx_buffer_cur (demo_slot wrap_st)) = Some 4294967293)
    by (vm_compute; reflexivity).
  assert (H6 : 0 <= 4294967293 < wrap32)
    by (unfold wrap32; lia).
  assert (H7 : wio_loop_iter 0 (u32 5) 0 wrap_st = Some wrap_st1)
    by (vm_compute; reflexivity).
  assert (H8 : (tx_buffer_cur <$> get_inst wrap_st1 0)
               = Some (tx_buffer_cur (demo_slot wrap_st) + 1))
    by (vm_compute; reflexivity).
  assert (H9 : wrap32 <= due_target (u32 5) (demo_slot wrap_st) + 4294967293)
    by (vm_compute; discriminate).
  assert (H10 : forallb
                  (fun x : Z * Z =>
                     due_target (u32 5) (demo_slot wrap_st) <=? u32 x.1)
                  missed_ts = true) by (vm_compute; reflexivity).
  assert (H11 : scheduled 5 (demo_slot wrap_st) + 4294967293 <= 4294967302)
    by (vm_compute; discriminate).
  repeat (split; [assumption|]).
  exact (wrap_guard_missed_window wrap_st wrap_st1 0 (demo_slot wrap_st) 5 0
           4294967293 missed_ts H1 H2 H3 H4 H5 H6 H7 H8 H9 H10).
Defined.

Lemma tx_target_missed_before_wrap_witness :
  get_inst late_st 0 = Some (demo_slot late_st) /\
  main_loop_running (demo_slot late_st) <> 0 /\
  mem late_st !! tx_buffer (demo_slot late_st) = Some [1030; 1030] /\
  rx_in_bounds (demo_slot late_st) (mem late_st) = true /\
  2 <= 2 <= Z.of_nat (length [1030; 1030]) /\ 2 < 2 ^ 31 /\
  [1030; 1030] !! 0%nat = Some 1030 /\ 0 <= 1030 /\
  u32 4294966246 + 1030 < wrap32 /\
  forallb (fun x : Z * Z => u32 x.1 <? u32 4294966246 + 1030) late_ts = true /\
  4294966246 + 1030 <= last_time 4294966246 late_ts /\
  exists st1 st',
    wio_tx_start 0 2 late_st = Some st1 /\
    wio_enable_loop (readings ((4294966246, 0) :: late_ts)) 0 st1 = Some st' /\
    wio_tx_cursor 0 st' = Some 1 /\
    wio_tx_cursor 0 st' <> Some 2 /\
    gpio_level (gpio st') !! tx_pin (demo_slot late_st) = Some 1.
Proof.
  assert (H1 : get_inst late_st 0 = Some (demo_slot late_st))
    by (vm_compute; reflexivity).
  assert (H2 : main_loop_running (demo_slot late_st) <> 0)
    by (vm_compute; discriminate).
  assert (H3 : mem late_st !! tx_buffer (demo_slot late_st)
               = Some [1030; 1030]) by (vm_compute; reflexivity).
  assert (H4 : rx_in_bounds (demo_slot late_st) (mem late_st) = true)
    by (vm_compute; reflexivity).
  assert (H5 : 2 <= 2 <= Z.of_nat (length [1030; 1030]))
    by (change (2 <= 2 <= 2); lia).
  assert (H6 : 2 < 2 ^ 31) by reflexivity.
  assert (H7 : [1030; 1030] !! 0%nat = Some 1030) by reflexivity.
  assert (H8 : 0 <= 1030) by lia.
  assert (H9 : u32 4294966246 + 1030 < wrap32) by (vm_compute; reflexivity).
  assert (H10 : forallb (fun x : Z * Z => u32 x.1 <? u32 4294966246 + 1030)
                  late_ts = true) by (vm_compute; reflexivity).
  assert (H11 : 4294966246 + 1030 <= last_time 4294966246 late_ts)
    by (vm_compute; discriminate).
  repeat (split; [assumption|]).
  exact (tx_target_missed_before_wrap late_st 0 2 4294966246 0 1030
           (demo_slot late_st) [1030; 1030] late_ts
           H1 H2 H3 H4 H5 H6 H7 H8 H9 H10).
Defined.
